(** * Lookbook: the browse-filter-navigate engine of PersonDetailPage.jsx

    A shallow embedding of the client-side logic of
    [frontend/src/pages/PersonDetailPage.jsx]: the facet filters
    ([filteredProfiles], [filteredProjects], [filteredPersonProjects]),
    the grid pager, the detail navigator, the keyboard handler, the tab
    switch and the slug-driven detail fetch.

    Conventions of the embedding:
    - JS numbers that hold counts, pages and indexes are [Z];
    - a field read with optional chaining ([profile.name?.f()]) is an
      [option]: [None] stands for [null]/[undefined];
    - strings are [string]; [toLowerCase] and [trim] are modelled on the
      ASCII range (letters A-Z, the six ASCII white-space characters);
    - a React state cell is a field of the record [PageState]; an event
      handler or effect body is a function on [PageState] that reads the
      values of the render it closes over and writes with setters;
    - a property access on [undefined] throws: handlers that index a list
      return a [result];
    - an asynchronous request is split in the synchronous part of its
      effect and the commit that runs when the promise settles.

    The second part of the file adds the filter controls, the layout
    toggles, the prefetch, the list requests, the project carousel,
    [useDebounce], the loading progress, the people page, the avatar
    rotation of the home page and [adjustColor]; there a timer is an
    event of a run.

    Left out: analytics calls, the [isFetchingRef] guard and the
    markup. *)

From Stdlib Require Import ZArith Bool Ascii String.
From stdpp Require Import base list strings.

Local Open Scope string_scope.
Local Open Scope Z_scope.

(** ** JavaScript string and array helpers *)

Module Js.

(** [c] lower-cased, for the ASCII capitals. *)
Definition lowerAscii (c : ascii) : ascii :=
  let n := N_of_ascii c in
  if ((65 <=? n) && (n <=? 90))%N then ascii_of_N (n + 32) else c.

(** [String.prototype.toLowerCase]. *)
Fixpoint toLowerCase (s : string) : string :=
  match s with
  | EmptyString => EmptyString
  | String c t => String (lowerAscii c) (toLowerCase t)
  end.

(** [String.prototype.includes]: [sub] occurs in [s] as a substring. *)
Fixpoint includes (s sub : string) : bool :=
  String.prefix sub s ||
  match s with
  | EmptyString => false
  | String _ t => includes t sub
  end.

(** White space stripped by [trim]: TAB, LF, VT, FF, CR and SPACE. *)
Definition isSpace (c : ascii) : bool :=
  let n := N_of_ascii c in
  (((9 <=? n) && (n <=? 13)) || (n =? 32))%N.

Fixpoint trimStart (s : string) : string :=
  match s with
  | EmptyString => EmptyString
  | String c t => if isSpace c then trimStart t else s
  end.

Fixpoint trimEnd (s : string) : string :=
  match s with
  | EmptyString => EmptyString
  | String c t =>
      match trimEnd t with
      | EmptyString => if isSpace c then EmptyString else String c EmptyString
      | t' => String c t'
      end
  end.

(** [String.prototype.trim]. *)
Definition trim (s : string) : string := trimEnd (trimStart s).

(** Truthiness of a string: every string but the empty one. *)
Definition truthy (s : string) : bool :=
  match s with
  | EmptyString => false
  | String _ _ => true
  end.

(** Truthiness of an optional string ([undefined] is falsy). *)
Definition truthyOpt (o : option string) : bool :=
  match o with
  | Some s => truthy s
  | None => false
  end.

(** [Array.prototype.includes] on an array of strings. *)
Definition arrIncludes (l : list string) (x : string) : bool :=
  existsb (String.eqb x) l.

(** [Array.prototype.findIndex]: the first index whose element satisfies
    [f], or -1. *)
Fixpoint findIndex {A} (f : A -> bool) (l : list A) : Z :=
  match l with
  | [] => -1
  | x :: t =>
      if f x then 0
      else let i := findIndex f t in
           if i <? 0 then -1 else i + 1
  end.

(** [l[i]] for a numeric index: [None] is [undefined]. *)
Definition at_ {A} (l : list A) (i : Z) : option A :=
  if i <? 0 then None else l !! Z.to_nat i.

(** [Math.ceil(n / d)] for integers [n] and a positive integer [d]. *)
Definition ceilDiv (n d : Z) : Z := - ((- n) / d).

End Js.

(** ** Data model *)

(** A project as the client reads it: the list items of [allProjects] and
    the summaries embedded in a profile ([person.projects]). *)
Module Project.
Record t := mk {
  slug : string;
  title : option string;
  summary : option string;
  short_description : option string;
  skills : option (list string);
  sectors : option (list string)
}.
End Project.

(** A profile as the client reads it. [projects] is [None] when the field
    is absent or null. *)
Module Profile.
Record t := mk {
  slug : string;
  name : option string;
  bio : option string;
  skills : option (list string);
  industry_expertise : option (list string);
  open_to_work : bool;
  projects : option (list Project.t)
}.
End Profile.

(** [peopleFilters] *)
Record PeopleFilters := mkPeopleFilters {
  pf_search : string;
  pf_skills : list string;
  pf_industries : list string;
  pf_openToWork : bool
}.

(** [projectFilters] *)
Record ProjectFilters := mkProjectFilters {
  jf_search : string;
  jf_skills : list string;
  jf_sectors : list string
}.

(** The initial values of the two filter cells, also written by the
    "Clear Search" buttons. *)
Definition defaultPeopleFilters : PeopleFilters :=
  mkPeopleFilters "" [] [] false.
Definition defaultProjectFilters : ProjectFilters :=
  mkProjectFilters "" [] [].

(** ** Facet filters *)

(** [field?.toLowerCase().includes(searchLower)], falsy when the field is
    absent. *)
Definition fieldMatches (field : option string) (searchLower : string) : bool :=
  match field with
  | Some v => Js.includes (Js.toLowerCase v) searchLower
  | None => false
  end.

(** [skills?.some(skill => skill.toLowerCase().includes(searchLower))] *)
Definition someSkillMatches (skills : option (list string)) (searchLower : string) : bool :=
  match skills with
  | Some l => existsb (fun skill => Js.includes (Js.toLowerCase skill) searchLower) l
  | None => false
  end.

(** [selected.some(x => field?.includes(x))] *)
Definition someSelectedIn (selected : list string) (field : option (list string)) : bool :=
  existsb (fun x => match field with
                    | Some l => Js.arrIncludes l x
                    | None => false
                    end) selected.

(** The callback of [allProfiles.filter] in [filteredProfiles]. *)
Definition profilePredicate (debouncedPeopleSearch : string)
    (peopleFilters : PeopleFilters) (profile : Profile.t) : bool :=
  if Js.truthy debouncedPeopleSearch
     && (let searchLower := Js.toLowerCase debouncedPeopleSearch in
         let matchesName := fieldMatches (Profile.name profile) searchLower in
         let matchesBio := fieldMatches (Profile.bio profile) searchLower in
         let matchesSkills := someSkillMatches (Profile.skills profile) searchLower in
         negb matchesName && negb matchesBio && negb matchesSkills)
  then false
  else if (0 <? Z.of_nat (length (pf_skills peopleFilters)))
          && negb (someSelectedIn (pf_skills peopleFilters) (Profile.skills profile))
  then false
  else if (0 <? Z.of_nat (length (pf_industries peopleFilters)))
          && negb (someSelectedIn (pf_industries peopleFilters)
                     (Profile.industry_expertise profile))
  then false
  else if pf_openToWork peopleFilters && negb (Profile.open_to_work profile)
  then false
  else true.

Definition filteredProfiles (allProfiles : list Profile.t)
    (debouncedPeopleSearch : string) (peopleFilters : PeopleFilters)
    : list Profile.t :=
  List.filter (profilePredicate debouncedPeopleSearch peopleFilters) allProfiles.

(** The callback of [allProjects.filter] in [filteredProjects]. *)
Definition projectPredicate (debouncedProjectSearch : string)
    (projectFilters : ProjectFilters) (project : Project.t) : bool :=
  if Js.truthy debouncedProjectSearch
     && (let searchLower := Js.toLowerCase debouncedProjectSearch in
         let matchesTitle := fieldMatches (Project.title project) searchLower in
         let matchesSummary := fieldMatches (Project.summary project) searchLower in
         let matchesDescription :=
           fieldMatches (Project.short_description project) searchLower in
         let matchesSkills := someSkillMatches (Project.skills project) searchLower in
         negb matchesTitle && negb matchesSummary
         && negb matchesDescription && negb matchesSkills)
  then false
  else if (0 <? Z.of_nat (length (jf_skills projectFilters)))
          && negb (someSelectedIn (jf_skills projectFilters) (Project.skills project))
  then false
  else if (0 <? Z.of_nat (length (jf_sectors projectFilters)))
          && negb (someSelectedIn (jf_sectors projectFilters) (Project.sectors project))
  then false
  else true.

Definition filteredProjects (allProjects : list Project.t)
    (debouncedProjectSearch : string) (projectFilters : ProjectFilters)
    : list Project.t :=
  List.filter (projectPredicate debouncedProjectSearch projectFilters) allProjects.

(** [hasSearch] of [filteredPersonProjects]:
    [debouncedProjectSearch && debouncedProjectSearch.trim().length > 0]. *)
Definition hasSearch (debouncedProjectSearch : string) : bool :=
  Js.truthy debouncedProjectSearch
  && (0 <? Z.of_nat (String.length (Js.trim debouncedProjectSearch))).

(** [!Array.isArray(field) || field.length === 0] *)
Definition missingOrEmpty (field : option (list string)) : bool :=
  match field with
  | Some l => Z.of_nat (length l) =? 0
  | None => true
  end.

(** The callback of [projectsArray.filter] in [filteredPersonProjects]. *)
Definition personProjectPredicate (debouncedProjectSearch : string)
    (projectFilters : ProjectFilters) (project : Project.t) : bool :=
  let hasSkillsFilter := 0 <? Z.of_nat (length (jf_skills projectFilters)) in
  let hasSectorsFilter := 0 <? Z.of_nat (length (jf_sectors projectFilters)) in
  if hasSearch debouncedProjectSearch
     && (let searchLower := Js.toLowerCase debouncedProjectSearch in
         let matchesTitle := fieldMatches (Project.title project) searchLower in
         let matchesSummary := fieldMatches (Project.summary project) searchLower in
         let matchesDescription :=
           fieldMatches (Project.short_description project) searchLower in
         let matchesSkills := someSkillMatches (Project.skills project) searchLower in
         negb matchesTitle && negb matchesSummary
         && negb matchesDescription && negb matchesSkills)
  then false
  else if hasSkillsFilter
          && (missingOrEmpty (Project.skills project)
              || negb (someSelectedIn (jf_skills projectFilters) (Project.skills project)))
  then false
  else if hasSectorsFilter
          && (missingOrEmpty (Project.sectors project)
              || negb (someSelectedIn (jf_sectors projectFilters) (Project.sectors project)))
  then false
  else true.

(** [filteredPersonProjects]; [person] is the displayed profile, [None]
    while no profile is loaded. *)
Definition filteredPersonProjects (person : option Profile.t)
    (debouncedProjectSearch : string) (projectFilters : ProjectFilters)
    : list Project.t :=
  match person with
  | None => []
  | Some p =>
      match Profile.projects p with
      | None => []
      | Some projectsArray =>
          let hasSkillsFilter := 0 <? Z.of_nat (length (jf_skills projectFilters)) in
          let hasSectorsFilter := 0 <? Z.of_nat (length (jf_sectors projectFilters)) in
          if negb (hasSearch debouncedProjectSearch)
             && negb hasSkillsFilter && negb hasSectorsFilter
          then projectsArray
          else List.filter
                 (personProjectPredicate debouncedProjectSearch projectFilters)
                 projectsArray
      end
  end.

(** The list embedded in the displayed profile, the source collection of
    [filteredPersonProjects]. *)
Definition embeddedProjects (person : option Profile.t) : list Project.t :=
  match person with
  | Some p => default [] (Profile.projects p)
  | None => []
  end.

(** ** View state *)

(** [viewMode]: 'people' or 'projects'. *)
Inductive ViewMode := People | Projects.

(** [layoutView]: 'grid', 'list' or 'detail'. *)
Inductive LayoutView := LGrid | LList | LDetail.

(** The router location of the four routes that mount the page:
    [/people], [/people/:slug], [/projects], [/projects/:slug].
    [r_mode] is the path prefix, [r_slug] the [:slug] parameter. *)
Record Route := mkRoute {
  r_mode : ViewMode;
  r_slug : option string
}.

(** The state cells of [PersonDetailPage], with the router location and
    the two debounced search values ([useDebounce]). *)
Record PageState := mkState {
  location : Route;
  person : option Profile.t;
  project : option Project.t;
  loading : bool;
  gridListLoading : bool;
  error : option string;
  allProfiles : list Profile.t;
  allProjects : list Project.t;
  currentIndex : Z;
  viewMode : ViewMode;
  layoutView : LayoutView;
  gridPage : Z;
  totalProfiles : Z;
  totalProjects : Z;
  filterView : ViewMode;
  mobileMenuOpen : bool;
  peopleFilters : PeopleFilters;
  projectFilters : ProjectFilters;
  debouncedPeopleSearch : string;
  debouncedProjectSearch : string
}.

(** Setters, one per state cell written by the modelled code. *)
Definition set_location (v : Route) (s : PageState) : PageState :=
  mkState v (person s) (project s) (loading s) (gridListLoading s) (error s)
    (allProfiles s) (allProjects s) (currentIndex s) (viewMode s)
    (layoutView s) (gridPage s) (totalProfiles s) (totalProjects s)
    (filterView s) (mobileMenuOpen s) (peopleFilters s) (projectFilters s)
    (debouncedPeopleSearch s) (debouncedProjectSearch s).
Definition set_person (v : option Profile.t) (s : PageState) : PageState :=
  mkState (location s) v (project s) (loading s) (gridListLoading s) (error
    s) (allProfiles s) (allProjects s) (currentIndex s) (viewMode s)
    (layoutView s) (gridPage s) (totalProfiles s) (totalProjects s)
    (filterView s) (mobileMenuOpen s) (peopleFilters s) (projectFilters s)
    (debouncedPeopleSearch s) (debouncedProjectSearch s).
Definition set_project (v : option Project.t) (s : PageState) : PageState :=
  mkState (location s) (person s) v (loading s) (gridListLoading s) (error
    s) (allProfiles s) (allProjects s) (currentIndex s) (viewMode s)
    (layoutView s) (gridPage s) (totalProfiles s) (totalProjects s)
    (filterView s) (mobileMenuOpen s) (peopleFilters s) (projectFilters s)
    (debouncedPeopleSearch s) (debouncedProjectSearch s).
Definition set_loading (v : bool) (s : PageState) : PageState :=
  mkState (location s) (person s) (project s) v (gridListLoading s) (error
    s) (allProfiles s) (allProjects s) (currentIndex s) (viewMode s)
    (layoutView s) (gridPage s) (totalProfiles s) (totalProjects s)
    (filterView s) (mobileMenuOpen s) (peopleFilters s) (projectFilters s)
    (debouncedPeopleSearch s) (debouncedProjectSearch s).
Definition set_gridListLoading (v : bool) (s : PageState) : PageState :=
  mkState (location s) (person s) (project s) (loading s) v (error s)
    (allProfiles s) (allProjects s) (currentIndex s) (viewMode s)
    (layoutView s) (gridPage s) (totalProfiles s) (totalProjects s)
    (filterView s) (mobileMenuOpen s) (peopleFilters s) (projectFilters s)
    (debouncedPeopleSearch s) (debouncedProjectSearch s).
Definition set_error (v : option string) (s : PageState) : PageState :=
  mkState (location s) (person s) (project s) (loading s) (gridListLoading
    s) v (allProfiles s) (allProjects s) (currentIndex s) (viewMode s)
    (layoutView s) (gridPage s) (totalProfiles s) (totalProjects s)
    (filterView s) (mobileMenuOpen s) (peopleFilters s) (projectFilters s)
    (debouncedPeopleSearch s) (debouncedProjectSearch s).
Definition set_allProfiles (v : list Profile.t) (s : PageState) : PageState :=
  mkState (location s) (person s) (project s) (loading s) (gridListLoading
    s) (error s) v (allProjects s) (currentIndex s) (viewMode s) (layoutView
    s) (gridPage s) (totalProfiles s) (totalProjects s) (filterView s)
    (mobileMenuOpen s) (peopleFilters s) (projectFilters s)
    (debouncedPeopleSearch s) (debouncedProjectSearch s).
Definition set_allProjects (v : list Project.t) (s : PageState) : PageState :=
  mkState (location s) (person s) (project s) (loading s) (gridListLoading
    s) (error s) (allProfiles s) v (currentIndex s) (viewMode s) (layoutView
    s) (gridPage s) (totalProfiles s) (totalProjects s) (filterView s)
    (mobileMenuOpen s) (peopleFilters s) (projectFilters s)
    (debouncedPeopleSearch s) (debouncedProjectSearch s).
Definition set_currentIndex (v : Z) (s : PageState) : PageState :=
  mkState (location s) (person s) (project s) (loading s) (gridListLoading
    s) (error s) (allProfiles s) (allProjects s) v (viewMode s) (layoutView
    s) (gridPage s) (totalProfiles s) (totalProjects s) (filterView s)
    (mobileMenuOpen s) (peopleFilters s) (projectFilters s)
    (debouncedPeopleSearch s) (debouncedProjectSearch s).
Definition set_viewMode (v : ViewMode) (s : PageState) : PageState :=
  mkState (location s) (person s) (project s) (loading s) (gridListLoading
    s) (error s) (allProfiles s) (allProjects s) (currentIndex s) v
    (layoutView s) (gridPage s) (totalProfiles s) (totalProjects s)
    (filterView s) (mobileMenuOpen s) (peopleFilters s) (projectFilters s)
    (debouncedPeopleSearch s) (debouncedProjectSearch s).
Definition set_layoutView (v : LayoutView) (s : PageState) : PageState :=
  mkState (location s) (person s) (project s) (loading s) (gridListLoading
    s) (error s) (allProfiles s) (allProjects s) (currentIndex s) (viewMode
    s) v (gridPage s) (totalProfiles s) (totalProjects s) (filterView s)
    (mobileMenuOpen s) (peopleFilters s) (projectFilters s)
    (debouncedPeopleSearch s) (debouncedProjectSearch s).
Definition set_gridPage (v : Z) (s : PageState) : PageState :=
  mkState (location s) (person s) (project s) (loading s) (gridListLoading
    s) (error s) (allProfiles s) (allProjects s) (currentIndex s) (viewMode
    s) (layoutView s) v (totalProfiles s) (totalProjects s) (filterView s)
    (mobileMenuOpen s) (peopleFilters s) (projectFilters s)
    (debouncedPeopleSearch s) (debouncedProjectSearch s).
Definition set_totalProfiles (v : Z) (s : PageState) : PageState :=
  mkState (location s) (person s) (project s) (loading s) (gridListLoading
    s) (error s) (allProfiles s) (allProjects s) (currentIndex s) (viewMode
    s) (layoutView s) (gridPage s) v (totalProjects s) (filterView s)
    (mobileMenuOpen s) (peopleFilters s) (projectFilters s)
    (debouncedPeopleSearch s) (debouncedProjectSearch s).
Definition set_totalProjects (v : Z) (s : PageState) : PageState :=
  mkState (location s) (person s) (project s) (loading s) (gridListLoading
    s) (error s) (allProfiles s) (allProjects s) (currentIndex s) (viewMode
    s) (layoutView s) (gridPage s) (totalProfiles s) v (filterView s)
    (mobileMenuOpen s) (peopleFilters s) (projectFilters s)
    (debouncedPeopleSearch s) (debouncedProjectSearch s).
Definition set_filterView (v : ViewMode) (s : PageState) : PageState :=
  mkState (location s) (person s) (project s) (loading s) (gridListLoading
    s) (error s) (allProfiles s) (allProjects s) (currentIndex s) (viewMode
    s) (layoutView s) (gridPage s) (totalProfiles s) (totalProjects s) v
    (mobileMenuOpen s) (peopleFilters s) (projectFilters s)
    (debouncedPeopleSearch s) (debouncedProjectSearch s).
Definition set_mobileMenuOpen (v : bool) (s : PageState) : PageState :=
  mkState (location s) (person s) (project s) (loading s) (gridListLoading
    s) (error s) (allProfiles s) (allProjects s) (currentIndex s) (viewMode
    s) (layoutView s) (gridPage s) (totalProfiles s) (totalProjects s)
    (filterView s) v (peopleFilters s) (projectFilters s)
    (debouncedPeopleSearch s) (debouncedProjectSearch s).

(** [navigate(path)]: the router moves to the new location. *)
Definition navigate (r : Route) (s : PageState) : PageState := set_location r s.

(** [useParams().slug] *)
Definition slugParam (s : PageState) : option string := r_slug (location s).

(** The memoised filter results of the current render. *)
Definition filteredProfilesOf (s : PageState) : list Profile.t :=
  filteredProfiles (allProfiles s) (debouncedPeopleSearch s) (peopleFilters s).
Definition filteredProjectsOf (s : PageState) : list Project.t :=
  filteredProjects (allProjects s) (debouncedProjectSearch s) (projectFilters s).
Definition filteredPersonProjectsOf (s : PageState) : list Project.t :=
  filteredPersonProjects (person s) (debouncedProjectSearch s) (projectFilters s).

(** ** Server responses *)

(** The body of a list request: [{success, data, pagination: {total}, total}]. *)
Record ListResponse (A : Type) := mkListResponse {
  lr_success : bool;
  lr_data : list A;
  lr_pagination_total : option Z;
  lr_total : option Z
}.
Arguments mkListResponse {A}.
Arguments lr_success {A}.
Arguments lr_data {A}.
Arguments lr_pagination_total {A}.
Arguments lr_total {A}.

(** An awaited promise: fulfilled with a value, or rejected (the [catch]
    branch runs). *)
Inductive Settled (A : Type) :=
| Fulfilled (v : A)
| Rejected.
Arguments Fulfilled {A}.
Arguments Rejected {A}.

(** [a || b] on numbers that may be missing: the first truthy one. *)
Definition orNum (a : option Z) (b : Z) : Z :=
  match a with
  | Some x => if x =? 0 then b else x
  | None => b
  end.

(** [response.pagination?.total || response.total || response.data.length] *)
Definition reportedTotal {A} (response : ListResponse A) : Z :=
  orNum (lr_pagination_total response)
    (orNum (lr_total response) (Z.of_nat (length (lr_data response)))).

(** ** Effects *)

(** The effect on [location.pathname]. *)
Definition pathnameEffect (s : PageState) : PageState :=
  let newViewMode := r_mode (location s) in
  set_project None (set_person None (set_error None
    (set_filterView newViewMode (set_viewMode newViewMode s)))).

(** What [fetchData] commits when a people list request settles (grid
    and list layouts). *)
Definition commitProfilesFetch (r : Settled (ListResponse Profile.t))
    (s : PageState) : PageState :=
  let s1 :=
    match r with
    | Fulfilled response =>
        if lr_success response
        then set_totalProfiles (reportedTotal response)
               (set_allProfiles (lr_data response) s)
        else s
    | Rejected => s
    end in
  set_gridListLoading false s1.

(** What [fetchData] commits when a projects list request settles. *)
Definition commitProjectsFetch (r : Settled (ListResponse Project.t))
    (s : PageState) : PageState :=
  let s1 :=
    match r with
    | Fulfilled response =>
        if lr_success response
        then set_totalProjects (reportedTotal response)
               (set_allProjects (lr_data response) s)
        else s
    | Rejected => s
    end in
  set_gridListLoading false s1.

(** The synchronous part of the effect on [slug, viewMode]. *)
Definition slugEffectStart (s : PageState) : PageState :=
  if negb (Js.truthyOpt (slugParam s))
  then set_loading false (set_layoutView LGrid s)
  else set_loading true (set_layoutView LDetail s).

(** What [fetchPersonAndList] commits when
    [Promise.all([getBySlug(slug), getAll({limit: 100})])] settles.
    [slug] and [closure] are the slug and the state of the render that
    started the request; [personData] is [Some data] when
    [personData.success]. *)
Definition commitPersonAndList (slug : string) (closure : PageState)
    (r : Settled (option Profile.t * ListResponse Profile.t))
    (s : PageState) : PageState :=
  let s1 :=
    match r with
    | Fulfilled (Some data, allData) =>
        let s2 := set_project None (set_person (Some data) s) in
        let s3 :=
          if lr_success allData
          then set_totalProfiles (Z.of_nat (length (lr_data allData)))
                 (set_allProfiles (lr_data allData) s2)
          else s2 in
        let profiles :=
          if lr_success allData then lr_data allData else allProfiles closure in
        let index := Js.findIndex (fun p => String.eqb (Profile.slug p) slug) profiles in
        set_error None (set_currentIndex (if index >=? 0 then index else -1) s3)
    | Fulfilled (None, _) => set_error (Some "Person not found") s
    | Rejected => set_error (Some "Person not found") s
    end in
  set_loading false s1.

(** What [fetchProjectAndList] commits. *)
Definition commitProjectAndList (slug : string) (closure : PageState)
    (r : Settled (option Project.t * ListResponse Project.t))
    (s : PageState) : PageState :=
  let s1 :=
    match r with
    | Fulfilled (Some data, allData) =>
        let s2 := set_person None (set_project (Some data) s) in
        let s3 :=
          if lr_success allData
          then set_totalProjects (Z.of_nat (length (lr_data allData)))
                 (set_allProjects (lr_data allData) s2)
          else s2 in
        let projects :=
          if lr_success allData then lr_data allData else allProjects closure in
        let index := Js.findIndex (fun p => String.eqb (Project.slug p) slug) projects in
        set_error None (set_currentIndex (if index >=? 0 then index else -1) s3)
    | Fulfilled (None, _) => set_error (Some "Project not found") s
    | Rejected => set_error (Some "Project not found") s
    end in
  set_loading false s1.

(** What the data source answers to the detail request of a render:
    [Promise.all] of [profilesAPI] for a people route, of [projectsAPI]
    for a projects route. *)
Record DetailAnswers := mkAnswers {
  personAnswer : Settled (option Profile.t * ListResponse Profile.t);
  projectAnswer : Settled (option Project.t * ListResponse Project.t)
}.

(** The request resolved the slug: it was fulfilled with [success: true]. *)
Definition resolves {A B} (r : Settled (option A * B)) : bool :=
  match r with
  | Fulfilled (Some _, _) => true
  | _ => false
  end.

(** The effect on [slug, viewMode] run to completion: the synchronous
    part, then, for a truthy slug, the commit of the request that the
    [viewMode] of the render selects. *)
Definition slugEffect (answers : DetailAnswers) (s : PageState) : PageState :=
  let s1 := slugEffectStart s in
  match slugParam s with
  | Some slug =>
      if Js.truthy slug then
        match viewMode s with
        | People => commitPersonAndList slug s (personAnswer answers) s1
        | Projects => commitProjectAndList slug s (projectAnswer answers) s1
        end
      else s1
  | None => s1
  end.

(** The effect that keeps [currentIndex] in step with the loaded list. *)
Definition currentIndexEffect (s : PageState) : PageState :=
  if match layoutView s with LDetail => true | _ => false end
     && Js.truthyOpt (slugParam s)
  then
    match viewMode s, person s, project s with
    | People, Some p, _ =>
        if Z.of_nat (length (allProfiles s)) >? 0 then
          let index :=
            Js.findIndex (fun q => String.eqb (Profile.slug q) (Profile.slug p))
              (allProfiles s) in
          if index >=? 0 then set_currentIndex index s else s
        else s
    | Projects, _, Some p =>
        if Z.of_nat (length (allProjects s)) >? 0 then
          let index :=
            Js.findIndex (fun q => String.eqb (Project.slug q) (Project.slug p))
              (allProjects s) in
          if index >=? 0 then set_currentIndex index s else s
        else s
    | _, _, _ => s
    end
  else s.

(** ** Rendering *)

(** Which of the four top-level alternatives the component returns. *)
Inductive Screen :=
| BlankScreen
| ErrorScreen (message : string)
| NotFoundScreen
| BrowseScreen.

Definition render (s : PageState) : Screen :=
  if loading s then BlankScreen
  else if Js.truthyOpt (error s) && Js.truthyOpt (slugParam s) && negb (loading s)
  then ErrorScreen (default "" (error s))
  else if match person s, project s with None, None => true | _, _ => false end
          && Js.truthyOpt (slugParam s)
          && match layoutView s with LDetail => true | _ => false end
  then NotFoundScreen
  else BrowseScreen.

(** ** Grid pager

    The page controls of the grid layout.  The source writes the page
    size as the literal 8 ([const pageSize = 8] in [fetchData]); the
    arithmetic is stated for a page size [size] and used at
    [gridPageSize]. *)

Definition gridPageSize : Z := 8.

Section Pager.
Variable size : Z.

(** [Math.ceil(total / size)] *)
Definition pageCount (total : Z) : Z := Js.ceilDiv total size.

(** The controls are rendered when [Math.ceil(total / size) > 1]. *)
Definition pagerRendered (total : Z) : bool := pageCount total >? 1.

(** Next-page button: [onClick] and [disabled]. *)
Definition nextPageOnClick (total gridPage : Z) : Z :=
  Z.min (pageCount total - 1) (gridPage + 1).
Definition nextPageDisabled (total gridPage : Z) : bool :=
  gridPage >=? pageCount total - 1.

(** Previous-page button: [onClick] and [disabled]. *)
Definition prevPageOnClick (gridPage : Z) : Z := Z.max 0 (gridPage - 1).
Definition prevPageDisabled (gridPage : Z) : bool := gridPage =? 0.

(** A press on a button: a button that is not rendered or is disabled
    does not fire its handler. *)
Definition pressNextPage (total gridPage : Z) : Z :=
  if pagerRendered total && negb (nextPageDisabled total gridPage)
  then nextPageOnClick total gridPage
  else gridPage.
Definition pressPrevPage (total gridPage : Z) : Z :=
  if pagerRendered total && negb (prevPageDisabled gridPage)
  then prevPageOnClick gridPage
  else gridPage.

(** The page written by the keyboard handler in grid layout;
    [filteredLength] is the length of the filtered in-memory list. *)
Definition arrowLeftPage (gridPage : Z) : Z :=
  if gridPage >? 0 then gridPage - 1 else gridPage.
Definition arrowRightPage (filteredLength gridPage : Z) : Z :=
  let maxPage := pageCount filteredLength - 1 in
  if gridPage <? maxPage then gridPage + 1 else gridPage.

End Pager.

(** The server total of the active entity. *)
Definition activeTotal (s : PageState) : Z :=
  match viewMode s with
  | People => totalProfiles s
  | Projects => totalProjects s
  end.

(** A press on the next-page and previous-page buttons of the grid. *)
Definition clickNextPage (s : PageState) : PageState :=
  match layoutView s with
  | LGrid => set_gridPage (pressNextPage gridPageSize (activeTotal s) (gridPage s)) s
  | _ => s
  end.
Definition clickPrevPage (s : PageState) : PageState :=
  match layoutView s with
  | LGrid => set_gridPage (pressPrevPage gridPageSize (activeTotal s) (gridPage s)) s
  | _ => s
  end.

(** ** Detail navigator *)

(** The result of a handler: the next state, or a [TypeError] from a
    property read on [undefined]. *)
Inductive result (A : Type) :=
| Ok (a : A)
| TypeError.
Arguments Ok {A}.
Arguments TypeError {A}.

Definition handlePrevious (s : PageState) : result PageState :=
  if currentIndex s >? 0 then
    match viewMode s with
    | People =>
        match Js.at_ (allProfiles s) (currentIndex s - 1) with
        | Some prevProfile =>
            Ok (navigate (mkRoute People (Some (Profile.slug prevProfile))) s)
        | None => TypeError
        end
    | Projects =>
        match Js.at_ (allProjects s) (currentIndex s - 1) with
        | Some prevProject =>
            Ok (navigate (mkRoute Projects (Some (Project.slug prevProject))) s)
        | None => TypeError
        end
    end
  else Ok s.

Definition handleNext (s : PageState) : result PageState :=
  let maxLength :=
    match viewMode s with
    | People => Z.of_nat (length (allProfiles s))
    | Projects => Z.of_nat (length (allProjects s))
    end in
  if currentIndex s <? maxLength - 1 then
    match viewMode s with
    | People =>
        match Js.at_ (allProfiles s) (currentIndex s + 1) with
        | Some nextProfile =>
            Ok (navigate (mkRoute People (Some (Profile.slug nextProfile))) s)
        | None => TypeError
        end
    | Projects =>
        match Js.at_ (allProjects s) (currentIndex s + 1) with
        | Some nextProject =>
            Ok (navigate (mkRoute Projects (Some (Project.slug nextProject))) s)
        | None => TypeError
        end
    end
  else Ok s.

Definition canGoPrevious (currentIndex : Z) : bool := currentIndex >? 0.
Definition canGoNext (currentIndex currentLength : Z) : bool :=
  (currentIndex >=? 0) && (currentIndex <? currentLength - 1).

Definition currentLength (s : PageState) : Z :=
  match viewMode s with
  | People => Z.of_nat (length (allProfiles s))
  | Projects => Z.of_nat (length (allProjects s))
  end.

(** ** Tab switch *)

Definition handleTabSwitch (tab : ViewMode) (s : PageState) : PageState :=
  navigate (mkRoute tab None)
    (set_mobileMenuOpen false
      (set_gridPage 0
        (set_currentIndex (-1)
          (set_viewMode tab
            (set_filterView tab s))))).

(** ** Keyboard *)

(** [e.key] *)
Inductive Key := ArrowLeft | ArrowRight | OtherKey.

Definition handleKeyDown (key : Key) (s : PageState) : result PageState :=
  match key with
  | ArrowLeft =>
      match layoutView s with
      | LGrid =>
          if gridPage s >? 0 then Ok (set_gridPage (gridPage s - 1) s) else Ok s
      | _ => handlePrevious s
      end
  | ArrowRight =>
      match layoutView s with
      | LGrid =>
          let maxPage :=
            match viewMode s with
            | People =>
                pageCount gridPageSize (Z.of_nat (length (filteredProfilesOf s))) - 1
            | Projects =>
                pageCount gridPageSize (Z.of_nat (length (filteredProjectsOf s))) - 1
            end in
          if gridPage s <? maxPage then Ok (set_gridPage (gridPage s + 1) s) else Ok s
      | _ => handleNext s
      end
  | OtherKey => Ok s
  end.

(** [checked] branch of the skill checkbox of the people sidebar:
    [skills: [...peopleFilters.skills, skill]]. *)
Definition checkPeopleSkill (skill : string) (peopleFilters : PeopleFilters)
    : PeopleFilters :=
  mkPeopleFilters (pf_search peopleFilters)
    (pf_skills peopleFilters ++ [skill])
    (pf_industries peopleFilters) (pf_openToWork peopleFilters).

(** The same branch of the skill checkbox of the projects sidebar. *)
Definition checkProjectSkill (skill : string) (projectFilters : ProjectFilters)
    : ProjectFilters :=
  mkProjectFilters (jf_search projectFilters)
    (jf_skills projectFilters ++ [skill])
    (jf_sectors projectFilters).

(** ** Vocabulary of the statements *)

(** The slug of the entity on display and the slugs of the loaded list,
    for the active entity mode. *)
Definition displayedSlug (s : PageState) : option string :=
  match viewMode s with
  | People => Profile.slug <$> person s
  | Projects => Project.slug <$> project s
  end.
Definition activeSlugs (s : PageState) : list string :=
  match viewMode s with
  | People => Profile.slug <$> allProfiles s
  | Projects => Project.slug <$> allProjects s
  end.

(** A list request of [fetchData] settles and replaces a collection. *)
Inductive Refresh :=
| RefreshProfiles (r : Settled (ListResponse Profile.t))
| RefreshProjects (r : Settled (ListResponse Project.t)).

Definition applyRefresh (rf : Refresh) (s : PageState) : PageState :=
  match rf with
  | RefreshProfiles r => commitProfilesFetch r s
  | RefreshProjects r => commitProjectsFetch r s
  end.

(** The request of the active entity mode did not resolve the slug. *)
Definition unresolvedFor (mode : ViewMode) (answers : DetailAnswers) : bool :=
  match mode with
  | People => negb (resolves (personAnswer answers))
  | Projects => negb (resolves (projectAnswer answers))
  end.

(** The message set by the failure branches of the two requests. *)
Definition notFoundMessage (mode : ViewMode) : string :=
  match mode with
  | People => "Person not found"
  | Projects => "Project not found"
  end.

(** The page an arrow key leads to in grid and list layout according to
    the claim: one page back when the page is above 0, one page forward
    when it is below the maximum page of the server total.  This
    definition follows the words of the claim, not the source. *)
Definition claimedArrowPage (key : Key) (total gridPage : Z) : Z :=
  let maxPage := Z.max 0 (pageCount gridPageSize total - 1) in
  match key with
  | ArrowLeft => if gridPage >? 0 then gridPage - 1 else gridPage
  | ArrowRight => if gridPage <? maxPage then gridPage + 1 else gridPage
  | OtherKey => gridPage
  end.

(** C7 as it is stated, at a key and a state: in grid and in list layout
    the key pages as [claimedArrowPage] says and does not step the
    navigator (the route stays); in detail layout it runs the navigator.
    Like [claimedArrowPage], this follows the words of the claim. *)
Definition arrowKeyClaim (key : Key) (s : PageState) : Prop :=
  match layoutView s with
  | LGrid | LList =>
      exists s',
        handleKeyDown key s = Ok s'
        /\ gridPage s' = claimedArrowPage key (activeTotal s) (gridPage s)
        /\ location s' = location s
  | LDetail =>
      handleKeyDown key s
      = match key with
        | ArrowLeft => handlePrevious s
        | ArrowRight => handleNext s
        | OtherKey => Ok s
        end
  end.

(** ** Scenarios *)

(** A profile that carries only a slug and a name. *)
Definition profileOf (sl : string) : Profile.t :=
  Profile.mk sl (Some sl) None None None false None.

(** The detail view of "x", at index 2 of 5. *)
Definition showingX : PageState :=
  mkState (mkRoute People (Some "x")) (Some (profileOf "x")) None false false None
    (map profileOf ["a"; "b"; "x"; "c"; "d"]) [] 2 People LDetail 0 5 0
    People false defaultPeopleFilters defaultProjectFilters "" "".

(** A filtered list request brings a list without "x". *)
Definition withoutX : Refresh :=
  RefreshProfiles
    (Fulfilled (mkListResponse true (map profileOf ["a"; "b"; "c"; "d"]) (Some 4) None)).

(** A person with five embedded projects. *)
Definition fiveProjects : list Project.t :=
  map (fun sl => Project.mk sl (Some sl) None None (Some ["Go"]) None)
    ["p1"; "p2"; "p3"; "p4"; "p5"].
Definition personWithFive : Profile.t :=
  Profile.mk "ada" (Some "Ada Lovelace") None (Some ["Math"]) None false
    (Some fiveProjects).

(** The grid of people, about to open [/people/nobody]. *)
Definition openingNobody : PageState :=
  mkState (mkRoute People (Some "nobody")) None None false false None
    (map profileOf ["a"; "b"]) [] (-1) People LGrid 0 2 0
    People false defaultPeopleFilters defaultProjectFilters "" "".

(** The first grid page of 17 people: 8 records in memory. *)
Definition gridOf17 : PageState :=
  mkState (mkRoute People None) None None false false None
    (map profileOf ["p1"; "p2"; "p3"; "p4"; "p5"; "p6"; "p7"; "p8"]) []
    (-1) People LGrid 0 17 0
    People false defaultPeopleFilters defaultProjectFilters "" "".

(** The list layout, entered from the detail view of "b" (index 1). *)
Definition listAtB : PageState :=
  mkState (mkRoute People (Some "b")) (Some (profileOf "b")) None false false None
    (map profileOf ["a"; "b"; "c"]) [] 1 People LList 0 3 0
    People false defaultPeopleFilters defaultProjectFilters "" "".

(** Page 1 of the grid of 17 people. *)
Definition gridPage1 : PageState := set_gridPage 1 gridOf17.

(** * Further parts of the page *)

(** ** Filter controls *)

(** Setters of the two filter cells. *)
Definition set_peopleFilters (v : PeopleFilters) (s : PageState) : PageState :=
  mkState (location s) (person s) (project s) (loading s) (gridListLoading s)
    (error s) (allProfiles s) (allProjects s) (currentIndex s) (viewMode s)
    (layoutView s) (gridPage s) (totalProfiles s) (totalProjects s)
    (filterView s) (mobileMenuOpen s) v (projectFilters s)
    (debouncedPeopleSearch s) (debouncedProjectSearch s).
Definition set_projectFilters (v : ProjectFilters) (s : PageState) : PageState :=
  mkState (location s) (person s) (project s) (loading s) (gridListLoading s)
    (error s) (allProfiles s) (allProjects s) (currentIndex s) (viewMode s)
    (layoutView s) (gridPage s) (totalProfiles s) (totalProjects s)
    (filterView s) (mobileMenuOpen s) (peopleFilters s) v
    (debouncedPeopleSearch s) (debouncedProjectSearch s).

(** The new selection computed by [onCheckedChange] of a facet checkbox:
    [checked ? [...selected, x] : selected.filter(s => s !== x)]. *)
Definition onCheckedChange (checked : bool) (x : string) (selected : list string)
    : list string :=
  if checked then selected ++ [x]
  else List.filter (fun s => negb (String.eqb s x)) selected.

(** A click on a facet checkbox.  The box is drawn checked when
    [selected.includes(x)], and the checkbox component calls
    [onCheckedChange] with the opposite of what it shows. *)
Definition clickCheckbox (x : string) (selected : list string) : list string :=
  onCheckedChange (negb (Js.arrIncludes selected x)) x selected.

(** The four facet checkboxes of the sidebar. *)
Definition clickPeopleSkill (skill : string) (s : PageState) : PageState :=
  set_peopleFilters
    (mkPeopleFilters (pf_search (peopleFilters s))
       (clickCheckbox skill (pf_skills (peopleFilters s)))
       (pf_industries (peopleFilters s)) (pf_openToWork (peopleFilters s))) s.
Definition clickPeopleIndustry (industry : string) (s : PageState) : PageState :=
  set_peopleFilters
    (mkPeopleFilters (pf_search (peopleFilters s)) (pf_skills (peopleFilters s))
       (clickCheckbox industry (pf_industries (peopleFilters s)))
       (pf_openToWork (peopleFilters s))) s.
Definition clickProjectSkill (skill : string) (s : PageState) : PageState :=
  set_projectFilters
    (mkProjectFilters (jf_search (projectFilters s))
       (clickCheckbox skill (jf_skills (projectFilters s)))
       (jf_sectors (projectFilters s))) s.
Definition clickProjectSector (sector : string) (s : PageState) : PageState :=
  set_projectFilters
    (mkProjectFilters (jf_search (projectFilters s)) (jf_skills (projectFilters s))
       (clickCheckbox sector (jf_sectors (projectFilters s)))) s.

(** The search term that [filteredPersonProjects] acts on: a blank term
    counts as no term. *)
Definition effectiveSearch (debouncedProjectSearch : string) : string :=
  if hasSearch debouncedProjectSearch then debouncedProjectSearch else "".

(** ** Layout toggles and cards *)

(** The grid button of the view toggle. *)
Definition clickGridToggle (s : PageState) : PageState :=
  navigate (mkRoute (viewMode s) None) (set_layoutView LGrid s).

(** The detail button of the view toggle. *)
Definition clickDetailToggle (s : PageState) : PageState :=
  if negb (Js.truthyOpt (slugParam s)) then
    match viewMode s with
    | People =>
        match filteredProfilesOf s with
        | first :: _ => navigate (mkRoute People (Some (Profile.slug first))) s
        | [] => s
        end
    | Projects =>
        match filteredProjectsOf s with
        | first :: _ => navigate (mkRoute Projects (Some (Project.slug first))) s
        | [] => s
        end
    end
  else set_layoutView LDetail s.

(** The list button of the view toggle. *)
Definition clickListToggle (s : PageState) : PageState := set_layoutView LList s.

(** A click on a card of the grid or on a row of the list. *)
Definition clickProfileCard (prof : Profile.t) (s : PageState) : PageState :=
  navigate (mkRoute People (Some (Profile.slug prof))) (set_layoutView LDetail s).
Definition clickProjectCard (proj : Project.t) (s : PageState) : PageState :=
  navigate (mkRoute Projects (Some (Project.slug proj))) (set_layoutView LDetail s).

(** ** Prefetch *)

(** The slug read by [list[i]?.slug], when it is truthy. *)
Definition truthySlugAt (slugs : list string) (i : Z) : list string :=
  match Js.at_ slugs i with
  | Some sl => if Js.truthy sl then [sl] else []
  | None => []
  end.

(** The [getBySlug] requests that [prefetchAdjacent] issues, in order,
    each with the entity it asks for. *)
Definition prefetchAdjacent (s : PageState) : list (ViewMode * string) :=
  if (currentIndex s <? 0)
     || negb (match layoutView s with LDetail => true | _ => false end)
  then []
  else
    match viewMode s with
    | People =>
        let slugs := map Profile.slug (allProfiles s) in
        map (pair People)
          ((if currentIndex s <? Z.of_nat (length (allProfiles s)) - 1
            then truthySlugAt slugs (currentIndex s + 1) else [])
           ++ (if currentIndex s >? 0
               then truthySlugAt slugs (currentIndex s - 1) else []))
    | Projects =>
        let slugs := map Project.slug (allProjects s) in
        map (pair Projects)
          ((if currentIndex s <? Z.of_nat (length (allProjects s)) - 1
            then truthySlugAt slugs (currentIndex s + 1) else [])
           ++ (if currentIndex s >? 0
               then truthySlugAt slugs (currentIndex s - 1) else []))
    end.

(** ** List requests *)

(** The parameters of [getAll]: a field is [None] when the source passes
    [undefined] or leaves it out. *)
Record ListQuery := mkQuery {
  q_limit : Z;
  q_offset : option Z;
  q_search : string;
  q_skills : option (list string);
  q_facet : option (list string);
  q_openToWork : option bool
}.

(** [selected.length > 0 ? selected : undefined] *)
Definition nonEmptyOrUndefined (selected : list string) : option (list string) :=
  if Z.of_nat (length selected) >? 0 then Some selected else None.

(** The request that [fetchData] sends, with the entity it asks for;
    [None] in detail layout, where it sends nothing.  [q_facet] carries
    the industries of a people request and the sectors of a projects
    request. *)
Definition fetchDataQuery (s : PageState) : option (ViewMode * ListQuery) :=
  match layoutView s with
  | LGrid =>
      let pageSize := 8 in
      let offset := gridPage s * pageSize in
      match viewMode s with
      | People =>
          Some (People,
                mkQuery pageSize (Some offset) (debouncedPeopleSearch s)
                  (nonEmptyOrUndefined (pf_skills (peopleFilters s)))
                  (nonEmptyOrUndefined (pf_industries (peopleFilters s)))
                  (if pf_openToWork (peopleFilters s) then Some true else None))
      | Projects =>
          Some (Projects,
                mkQuery pageSize (Some offset) (debouncedProjectSearch s)
                  (nonEmptyOrUndefined (jf_skills (projectFilters s)))
                  (nonEmptyOrUndefined (jf_sectors (projectFilters s)))
                  None)
      end
  | LList =>
      match viewMode s with
      | People =>
          Some (People,
                mkQuery 100 None (debouncedPeopleSearch s)
                  (nonEmptyOrUndefined (pf_skills (peopleFilters s)))
                  (nonEmptyOrUndefined (pf_industries (peopleFilters s)))
                  (if pf_openToWork (peopleFilters s) then Some true else None))
      | Projects =>
          Some (Projects,
                mkQuery 100 None (debouncedProjectSearch s)
                  (nonEmptyOrUndefined (jf_skills (projectFilters s)))
                  (nonEmptyOrUndefined (jf_sectors (projectFilters s)))
                  None)
      end
  | LDetail => None
  end.

(** The effect that resets the page when a filter or a debounced search
    term changes. *)
Definition resetPageEffect (s : PageState) : PageState := set_gridPage 0 s.

(** The detail request of the active entity mode resolved the slug and
    brought the full list with it. *)
Definition resolvedWithList (mode : ViewMode) (answers : DetailAnswers) : bool :=
  match mode with
  | People =>
      match personAnswer answers with
      | Fulfilled (Some _, allData) => lr_success allData
      | _ => false
      end
  | Projects =>
      match projectAnswer answers with
      | Fulfilled (Some _, allData) => lr_success allData
      | _ => false
      end
  end.

(** ** Project carousel of the detail view *)

(** [Array.prototype.slice(start, end)] *)
Definition arraySlice {A} (l : list A) (start end_ : Z) : list A :=
  let len := Z.of_nat (length l) in
  let k := if start <? 0 then Z.max (len + start) 0 else Z.min start len in
  let final := if end_ <? 0 then Z.max (len + end_) 0 else Z.min end_ len in
  take (Z.to_nat (final - k)) (drop (Z.to_nat k) l).

(** [Math.floor((filteredPersonProjects.length - 1) / 3) * 3] *)
Definition carouselMaxIndex (len : Z) : Z := (len - 1) / 3 * 3.

(** The two buttons are rendered when [filteredPersonProjects.length > 3]. *)
Definition carouselRendered (len : Z) : bool := len >? 3.

Definition carouselPrevOnClick (projectCarouselIndex : Z) : Z :=
  Z.max 0 (projectCarouselIndex - 3).
Definition carouselPrevDisabled (projectCarouselIndex : Z) : bool :=
  projectCarouselIndex =? 0.
Definition carouselNextOnClick (len projectCarouselIndex : Z) : Z :=
  Z.min (carouselMaxIndex len) (projectCarouselIndex + 3).
Definition carouselNextDisabled (len projectCarouselIndex : Z) : bool :=
  projectCarouselIndex >=? carouselMaxIndex len.

(** A press on a button that is not rendered or is disabled does nothing. *)
Definition pressCarouselPrev (len projectCarouselIndex : Z) : Z :=
  if carouselRendered len && negb (carouselPrevDisabled projectCarouselIndex)
  then carouselPrevOnClick projectCarouselIndex
  else projectCarouselIndex.
Definition pressCarouselNext (len projectCarouselIndex : Z) : Z :=
  if carouselRendered len && negb (carouselNextDisabled len projectCarouselIndex)
  then carouselNextOnClick len projectCarouselIndex
  else projectCarouselIndex.

(** [filteredPersonProjects.slice(projectCarouselIndex, projectCarouselIndex + 3)] *)
Definition carouselVisible {A} (filteredPersonProjects : list A)
    (projectCarouselIndex : Z) : list A :=
  arraySlice filteredPersonProjects projectCarouselIndex (projectCarouselIndex + 3).

(** The indexes the buttons lead to from index 0, where the reset effect
    puts the carousel whenever the filtered projects change, for a list
    of [len] projects. *)
Inductive carouselReachable (len : Z) : Z -> Prop :=
| carousel_start : carouselReachable len 0
| carousel_prev i : carouselReachable len i -> carouselReachable len (pressCarouselPrev len i)
| carousel_next i : carouselReachable len i -> carouselReachable len (pressCarouselNext len i).

(** ** [useDebounce]

    The hook holds the debounced value and at most one pending timer.
    The timer of an effect run closes over the value of that run; a
    render with another value cleans the timer up and starts a new one.
    Time is abstracted to the order of events: [debounceFire] is the
    moment the pending timer fires. *)

Record DebounceState := mkDebounce {
  db_value : string;
  db_debouncedValue : string;
  db_timer : option string
}.

(** Mount: [useState(value)], then the first run of the effect. *)
Definition debounceMount (value : string) : DebounceState :=
  mkDebounce value value (Some value).

(** A render with [value]: the effect runs again only when [value]
    changed. *)
Definition debounceRender (value : string) (st : DebounceState) : DebounceState :=
  if String.eqb value (db_value st) then st
  else mkDebounce value (db_debouncedValue st) (Some value).

(** The pending timer fires: [setDebouncedValue(value)] with the value
    it closed over. *)
Definition debounceFire (st : DebounceState) : DebounceState :=
  match db_timer st with
  | Some captured => mkDebounce (db_value st) captured None
  | None => st
  end.

Inductive DebounceEvent :=
| Render (value : string)
| TimerFires.

Definition debounceStep (st : DebounceState) (e : DebounceEvent) : DebounceState :=
  match e with
  | Render value => debounceRender value st
  | TimerFires => debounceFire st
  end.

Definition debounceRun (initial : string) (events : list DebounceEvent)
    : DebounceState :=
  fold_left debounceStep events (debounceMount initial).

(** ** Loading progress (LoadingProgressContext)

    [timeoutRef] holds the only live timer: the 100 ms timer set by
    [completeLoading], then the 500 ms timer that the first one sets. *)

Inductive ProgressTimer := CollapseTimer | ResetTimer.

Record ProgressState := mkProgress {
  lp_progress : Z;
  lp_isLoading : bool;
  lp_isCollapsing : bool;
  lp_timeoutRef : option ProgressTimer
}.

Definition progressInitial : ProgressState := mkProgress 0 false false None.

Definition startLoading (st : ProgressState) : ProgressState :=
  mkProgress 0 true false None.

Definition setLoadingProgress (value : Z) (st : ProgressState) : ProgressState :=
  mkProgress (Z.min 100 (Z.max 0 value)) (lp_isLoading st) (lp_isCollapsing st)
    (lp_timeoutRef st).

Definition completeLoading (st : ProgressState) : ProgressState :=
  mkProgress 100 (lp_isLoading st) (lp_isCollapsing st) (Some CollapseTimer).

(** The live timer fires. *)
Definition progressTimerFires (st : ProgressState) : ProgressState :=
  match lp_timeoutRef st with
  | Some CollapseTimer =>
      mkProgress (lp_progress st) (lp_isLoading st) true (Some ResetTimer)
  | Some ResetTimer => mkProgress 0 false false None
  | None => st
  end.

Inductive ProgressEvent :=
| StartLoading
| SetLoadingProgress (value : Z)
| CompleteLoading
| ProgressTimerFires.

Definition progressStep (st : ProgressState) (e : ProgressEvent) : ProgressState :=
  match e with
  | StartLoading => startLoading st
  | SetLoadingProgress value => setLoadingProgress value st
  | CompleteLoading => completeLoading st
  | ProgressTimerFires => progressTimerFires st
  end.

Definition progressRun (st : ProgressState) (events : list ProgressEvent)
    : ProgressState :=
  fold_left progressStep events st.

(** [ProgressBar] renders nothing when [!isLoading && !isCollapsing]. *)
Definition progressBarShown (st : ProgressState) : bool :=
  negb (negb (lp_isLoading st) && negb (lp_isCollapsing st)).

(** The calls that a successful list request of [fetchData] makes, in
    order. *)
Definition fetchDataProgress : list ProgressEvent :=
  [StartLoading; SetLoadingProgress 10; SetLoadingProgress 30;
   SetLoadingProgress 80; SetLoadingProgress 100; CompleteLoading].

(** ** PeoplePage: filters in the address *)

(** [URLSearchParams], as the ordered list of its entries. *)
Definition paramsGet (name : string) (params : list (string * string))
    : option string :=
  snd <$> List.find (fun entry => String.eqb (fst entry) name) params.

Definition paramsGetAll (name : string) (params : list (string * string))
    : list string :=
  map snd (List.filter (fun entry => String.eqb (fst entry) name) params).

Definition paramsAppend (name value : string) (params : list (string * string))
    : list (string * string) :=
  params ++ [(name, value)].

(** [set]: the first entry of that name takes the value and the others
    of that name are removed; without such an entry, one is appended. *)
Fixpoint paramsSet (name value : string) (params : list (string * string))
    : list (string * string) :=
  match params with
  | [] => [(name, value)]
  | entry :: rest =>
      if String.eqb (fst entry) name
      then (name, value)
           :: List.filter (fun e => negb (String.eqb (fst e) name)) rest
      else entry :: paramsSet name value rest
  end.

(** The initial value of [filters]. *)
Definition filtersOfParams (searchParams : list (string * string)) : PeopleFilters :=
  mkPeopleFilters
    (match paramsGet "search" searchParams with
     | Some v => if Js.truthy v then v else ""
     | None => ""
     end)
    (paramsGetAll "skills" searchParams)
    (paramsGetAll "industries" searchParams)
    (match paramsGet "openToWork" searchParams with
     | Some v => String.eqb v "true"
     | None => false
     end).

(** The parameters that the effect on [filters] writes to the address. *)
Definition paramsOfFilters (filters : PeopleFilters) : list (string * string) :=
  let params := [] in
  let params :=
    if Js.truthy (pf_search filters)
    then paramsSet "search" (pf_search filters) params else params in
  let params :=
    if pf_openToWork filters then paramsSet "openToWork" "true" params else params in
  let params :=
    fold_left (fun ps skill => paramsAppend "skills" skill ps)
      (pf_skills filters) params in
  fold_left (fun ps ind => paramsAppend "industries" ind ps)
    (pf_industries filters) params.

(** [hasActiveFilters], as a truth value. *)
Definition hasActiveFilters (filters : PeopleFilters) : bool :=
  Js.truthy (pf_search filters)
  || (Z.of_nat (length (pf_skills filters)) >? 0)
  || (Z.of_nat (length (pf_industries filters)) >? 0)
  || pf_openToWork filters.

(** ** PeoplePage: pages *)

Section PeoplePager.
Variable limit : Z.

(** The buttons are inside [!loading && !error && profiles.length > 0]
    ([resultsShown]) and [pagination.total > pagination.limit]. *)
Definition peoplePagerRendered (resultsShown : bool) (total : Z) : bool :=
  resultsShown && (total >? limit).

Definition peoplePrevDisabled (page : Z) : bool := page =? 1.
Definition peopleNextDisabled (total page : Z) : bool :=
  page >=? Js.ceilDiv total limit.

Definition pressPeoplePrev (resultsShown : bool) (total page : Z) : Z :=
  if peoplePagerRendered resultsShown total && negb (peoplePrevDisabled page)
  then page - 1 else page.
Definition pressPeopleNext (resultsShown : bool) (total page : Z) : Z :=
  if peoplePagerRendered resultsShown total && negb (peopleNextDisabled total page)
  then page + 1 else page.

(** Pages that the buttons lead to from page 1 while the server total is
    [total]. *)
Inductive peopleNavigable (total : Z) : Z -> Prop :=
| people_first : peopleNavigable total 1
| people_prev shown p :
    peopleNavigable total p -> peopleNavigable total (pressPeoplePrev shown total p)
| people_next shown p :
    peopleNavigable total p -> peopleNavigable total (pressPeopleNext shown total p).
End PeoplePager.

(** ** HomePage: rotating avatars *)

(** [array[i] = x] on a copy of the array: inside the array the element
    is replaced, beyond its end the array grows and the gap reads as
    [undefined]; a negative [i] is not an index and leaves the elements
    as they are. *)
Definition arrayAssign {A} (l : list (option A)) (i : Z) (x : option A)
    : list (option A) :=
  if i <? 0 then l
  else if i <? Z.of_nat (length l) then <[Z.to_nat i := x]> l
  else l ++ replicate (Z.to_nat (i - Z.of_nat (length l))) None ++ [x].

(** The visible avatars and [nextProfileIndex]. *)
Record Rotation (A : Type) := mkRotation {
  rot_visible : list (option A);
  rot_next : Z
}.
Arguments mkRotation {A}.
Arguments rot_visible {A}.
Arguments rot_next {A}.

(** [setVisibleProfiles(data.data.slice(0, 5))] and
    [let nextProfileIndex = 5]. *)
Definition rotationStart {A} (profiles : list A) : Rotation A :=
  mkRotation (map Some (arraySlice profiles 0 5)) 5.

(** One tick of the interval; [positionToUpdate] is
    [Math.floor(Math.random() * 5)]. *)
Definition rotationTick {A} (profiles : list A) (st : Rotation A)
    (positionToUpdate : Z) : Rotation A :=
  mkRotation
    (arrayAssign (rot_visible st) positionToUpdate (Js.at_ profiles (rot_next st)))
    ((rot_next st + 1) mod Z.of_nat (length profiles)).

Definition rotationRun {A} (profiles : list A) (positions : list Z) : Rotation A :=
  fold_left (rotationTick profiles) positions (rotationStart profiles).

(** What every state of the rotation satisfies. *)
Definition rotationOk {A} (profiles : list A) (st : Rotation A) : Prop :=
  length (rot_visible st) = 5%nat
  /\ (forall o, o ∈ rot_visible st -> exists x, o = Some x /\ x ∈ profiles)
  /\ 0 <= rot_next st < Z.of_nat (length profiles).

(** ** Effects of one commit

    The effects of a render all read the values of that render.  After a
    change of route the effect on the pathname and the effect on
    [slug, viewMode] run in the same commit: the second one still sees
    the [viewMode] that the first one is replacing. *)

(** The effect on [slug, viewMode] for the render [closure], writing on
    the state [st]: the synchronous part. *)
Definition slugEffectStartOn (closure st : PageState) : PageState :=
  if negb (Js.truthyOpt (slugParam closure))
  then set_loading false (set_layoutView LGrid st)
  else set_loading true (set_layoutView LDetail st).

(** The request that the effect issues for the render [closure]: the
    entity asked and the slug, [None] when the route has no slug. *)
Definition detailRequest (closure : PageState) : option (ViewMode * string) :=
  match slugParam closure with
  | Some slug => if Js.truthy slug then Some (viewMode closure, slug) else None
  | None => None
  end.

(** The commit of the request of the render [closure] on the state [st]
    in which it settles. *)
Definition commitDetail (closure : PageState) (answers : DetailAnswers)
    (st : PageState) : PageState :=
  match detailRequest closure with
  | Some (People, slug) => commitPersonAndList slug closure (personAnswer answers) st
  | Some (Projects, slug) => commitProjectAndList slug closure (projectAnswer answers) st
  | None => st
  end.

(** The commit that follows a change of route, up to the start of the
    request. *)
Definition routeChangeStart (s : PageState) : PageState :=
  slugEffectStartOn s (pathnameEffect s).

(** A handler navigated from a person to one of the embedded projects:
    the "Learn More" button sets [viewMode] itself. *)
Definition clickLearnMore (project : Project.t) (s : PageState) : PageState :=
  navigate (mkRoute Projects (Some (Project.slug project))) (set_viewMode Projects s).

(** A click on a participant of a project. *)
Definition clickParticipant (slug : string) (s : PageState) : PageState :=
  navigate (mkRoute People (Some slug))
    (set_filterView People (set_viewMode People s)).

(** ** Card colours ([adjustColor] of [ProjectCard])

    Numbers are integers; [parseInt] is exact for fewer than fourteen
    hexadecimal digits. *)

(** [ToInt32], the conversion applied by the bit operators. *)
Definition toInt32 (n : Z) : Z := (n + 2147483648) mod 4294967296 - 2147483648.

(** [a >> k] and [a & b] *)
Definition shiftRight (a k : Z) : Z := Z.shiftr (toInt32 a) k.
Definition bitAnd (a b : Z) : Z := Z.land (toInt32 a) (toInt32 b).

(** [clamp] of [adjustColor] *)
Definition clamp (val : Z) : Z := Z.min (Z.max val 0) 255.

(** The hexadecimal digit of a value below 16, as [toString(16)] writes
    it. *)
Definition hexDigit (d : Z) : ascii :=
  nth (Z.to_nat d) (list_ascii_of_string "0123456789abcdef") "0"%char.

(** The value of a hexadecimal digit, as [parseInt] reads it. *)
Definition hexValue (c : ascii) : option Z :=
  let n := Z.of_N (N_of_ascii c) in
  if (48 <=? n) && (n <=? 57) then Some (n - 48)
  else if (97 <=? n) && (n <=? 102) then Some (n - 87)
  else if (65 <=? n) && (n <=? 70) then Some (n - 55)
  else None.

(** [Number.prototype.toString(16)] of a non-negative integer. *)
Fixpoint toString16Fuel (fuel : nat) (n : Z) (acc : string) : string :=
  match fuel with
  | O => acc
  | S fuel' =>
      let acc' := String (hexDigit (n mod 16)) acc in
      if n / 16 =? 0 then acc' else toString16Fuel fuel' (n / 16) acc'
  end.
Definition toString16 (n : Z) : string :=
  toString16Fuel (S (Z.to_nat (Z.log2 n))) n "".

(** [s.slice(1)] on a string *)
Definition stringSlice1 (s : string) : string :=
  match s with
  | EmptyString => EmptyString
  | String _ t => t
  end.

(** [s.replace(c, '')]: the first occurrence of the character is taken
    out. *)
Fixpoint removeFirst (c : ascii) (s : string) : string :=
  match s with
  | EmptyString => EmptyString
  | String h t => if Ascii.eqb h c then t else String h (removeFirst c t)
  end.

(** The longest prefix of hexadecimal digits, read as a number; [None]
    when there is no digit. *)
Fixpoint parseHexDigits (s : string) (acc : option Z) : option Z :=
  match s with
  | EmptyString => acc
  | String c t =>
      match hexValue c with
      | Some d => parseHexDigits t (Some (16 * default 0 acc + d))
      | None => acc
      end
  end.

(** [parseInt(s, 16)]: leading white space, a sign and a ["0x"] prefix
    are skipped; [None] is [NaN]. *)
Definition parseInt16 (s : string) : option Z :=
  let s := Js.trimStart s in
  let signed :=
    match s with
    | String c t =>
        if Ascii.eqb c "-" then (-1, t)
        else if Ascii.eqb c "+" then (1, t)
        else (1, s)
    | EmptyString => (1, s)
    end in
  let digits :=
    match snd signed with
    | String c1 (String c2 t) =>
        if Ascii.eqb c1 "0" && (Ascii.eqb c2 "x" || Ascii.eqb c2 "X")
        then t else snd signed
    | other => other
    end in
  match parseHexDigits digits None with
  | Some n => Some (fst signed * n)
  | None => None
  end.

(** [adjustColor(color, amount)]; [NaN] behaves as 0 under [>>] and [&]. *)
Definition adjustColor (color : string) (amount : Z) : string :=
  let num := default 0 (parseInt16 (removeFirst "#" color)) in
  let r := clamp (shiftRight num 16 + amount) in
  let g := clamp (bitAnd (shiftRight num 8) 255 + amount) in
  let b := clamp (bitAnd num 255 + amount) in
  String "#" (stringSlice1 (toString16 (16777216 + r * 65536 + g * 256 + b))).

(** Two hexadecimal digits of a channel value. *)
Definition hex2 (channel : Z) : string :=
  String (hexDigit (channel / 16)) (String (hexDigit (channel mod 16)) EmptyString).

(** The colour [#rrggbb] of three channel values. *)
Definition colourOf (r g b : Z) : string :=
  String "#" (hex2 r ++ hex2 g ++ hex2 b)%string.

(** ** Replacements of the collection in detail layout *)

(** C1 as it is stated, for the state [before] the collection of the
    active entity mode is replaced and the state [after] it: when the
    slug on display is missing from the loaded list, [currentIndex]
    still has the value it had.  This definition follows the words of
    the claim, not the source. *)
Definition retentionClaim (before after : PageState) : Prop :=
  forall x, displayedSlug after = Some x -> x ∉ activeSlugs after ->
            currentIndex after = currentIndex before.

(** From the detail view of "x" (index 2 of 5) the route moves to
    [/people/z]. *)
Definition openingZ : PageState := navigate (mkRoute People (Some "z")) showingX.

(** The data source resolves "z" and brings a full list that holds
    neither "x" nor "z". *)
Definition answersZ : DetailAnswers :=
  mkAnswers
    (Fulfilled (Some (profileOf "z"),
                mkListResponse true (map profileOf ["a"; "b"]) None None))
    Rejected.

(** The detail load of "z": the effects of the route change, the commit
    of the request and the index effect that follows it. *)
Definition loadedZ : PageState :=
  currentIndexEffect (slugEffect answersZ (pathnameEffect openingZ)).

(** ** A grid page kept across a change of entity *)

(** Page 1 and page 2 of the grid of 17 people, reached from the first
    page with the next-page button; the last person has five projects. *)
Definition gridOf17Page1 : PageState :=
  commitProfilesFetch
    (Fulfilled
       (mkListResponse true
          (map profileOf ["p9"; "p10"; "p11"; "p12"; "p13"; "p14"; "p15"; "p16"])
          (Some 17) None))
    (clickNextPage gridOf17).
Definition gridOf17Page2 : PageState :=
  commitProfilesFetch
    (Fulfilled (mkListResponse true [personWithFive] (Some 17) None))
    (clickNextPage gridOf17Page1).

(** The third of the five projects. *)
Definition projectP3 : Project.t :=
  Project.mk "p3" (Some "p3") None None (Some ["Go"]) None.

(** The data source of the scenario resolves the person and the project,
    each with its full list. *)
Definition answersOf17 : DetailAnswers :=
  mkAnswers
    (Fulfilled
       (Some personWithFive,
        mkListResponse true
          (map profileOf
             ["p1"; "p2"; "p3"; "p4"; "p5"; "p6"; "p7"; "p8";
              "p9"; "p10"; "p11"; "p12"; "p13"; "p14"; "p15"; "p16"]
           ++ [personWithFive])
          None None))
    (Fulfilled (Some projectP3, mkListResponse true fiveProjects None None)).

(** The card of the person on page 2 is opened; then "Learn More" on one
    of the projects of the person; then the grid toggle.  Each handler is
    followed by the effects of the route change. *)
Definition personOpened : PageState :=
  slugEffect answersOf17 (pathnameEffect (clickProfileCard personWithFive gridOf17Page2)).
Definition projectOpened : PageState :=
  slugEffect answersOf17 (pathnameEffect (clickLearnMore projectP3 personOpened)).
Definition backInGrid : PageState :=
  slugEffectStart (pathnameEffect (clickGridToggle projectOpened)).

(** The answer to the request that [fetchData] sends from [backInGrid]:
    no record at offset 16 of 5. *)
Definition emptyGridPage : PageState :=
  commitProjectsFetch (Fulfilled (mkListResponse true [] (Some 5) None)) backInGrid.

(** The same answer from a source that reports no total with an empty
    page: the stored total falls back to the number of records, 0. *)
Definition emptyGridPageNoTotal : PageState :=
  commitProjectsFetch (Fulfilled (mkListResponse true [] None None)) backInGrid.

(** * Properties *)

(** ** The scenarios of the filter model *)

Example search_ada :
  let ada := Profile.mk "ada" (Some "Ada Lovelace") None (Some ["Math"]) None false None in
  let bo := Profile.mk "bo" (Some "Bo Diaz") None (Some ["Rust"]) None false None in
  filteredProfiles [ada; bo] "ada" defaultPeopleFilters = [ada].
Proof. reflexivity. Qed.

Example facet_intersection :
  let pr sl sk := Project.mk sl None None None (Some sk) None in
  let all := [pr "a" ["Go"]; pr "b" ["Rust"; "Go"]; pr "c" ["Python"]] in
  filteredProjects all "" (mkProjectFilters "" ["Go"] [])
  = [pr "a" ["Go"]; pr "b" ["Rust"; "Go"]].
Proof. reflexivity. Qed.

(** ** Helper lemmas on the JavaScript primitives *)

Section ListFacts.
Context {A : Type}.

Lemma filter_sublist (f : A -> bool) (l : list A) : sublist (List.filter f l) l.
Proof.
  induction l as [|x l IH]; simpl.
  - constructor.
  - destruct (f x); [apply sublist_skip | apply sublist_cons]; exact IH.
Qed.

Lemma filter_all_true (f : A -> bool) (l : list A) :
  (forall x, f x = true) -> List.filter f l = l.
Proof.
  intros Hf. induction l as [|x l IH]; simpl; [reflexivity|].
  rewrite Hf, IH. reflexivity.
Qed.

Lemma existsb_snoc (f : A -> bool) (l : list A) (x : A) :
  existsb f l = true -> existsb f (l ++ [x]) = true.
Proof.
  intros H. rewrite existsb_app, H. reflexivity.
Qed.
End ListFacts.

Lemma length_pos_nonempty {A} (l : list A) :
  (0 <? Z.of_nat (length l)) = true <-> l <> [].
Proof.
  destruct l as [|x l]; simpl.
  - split; [discriminate | congruence].
  - split; [discriminate | intros _; apply Z.ltb_lt; lia].
Qed.

Lemma length_pos_snoc {A} (l : list A) (x : A) :
  (0 <? Z.of_nat (length (l ++ [x]))) = true.
Proof. apply length_pos_nonempty. destruct l; discriminate. Qed.

(** ** Identity law of the filters *)

Lemma profilePredicate_default (search : string) (R : Profile.t) :
  profilePredicate "" (mkPeopleFilters search [] [] false) R = true.
Proof. reflexivity. Qed.

Lemma projectPredicate_default (search : string) (R : Project.t) :
  projectPredicate "" (mkProjectFilters search [] []) R = true.
Proof. reflexivity. Qed.

(** C4. With an empty (debounced) search string, no selected skills, no
    selected industries or sectors and openToWork off, the predicate of
    [filteredProfiles] and the predicate of [filteredProjects] accept
    every record, and both filtered collections are the unfiltered ones. *)
Theorem filter_identity_law :
  (forall R, profilePredicate "" defaultPeopleFilters R = true)
  /\ (forall R, projectPredicate "" defaultProjectFilters R = true)
  /\ (forall allProfiles,
        filteredProfiles allProfiles "" defaultPeopleFilters = allProfiles)
  /\ (forall allProjects,
        filteredProjects allProjects "" defaultProjectFilters = allProjects).
Proof.
  split; [|split; [|split]]; intros.
  - apply profilePredicate_default.
  - apply projectPredicate_default.
  - apply filter_all_true. intros x. apply profilePredicate_default.
  - apply filter_all_true. intros x. apply projectPredicate_default.
Qed.

(** ** Monotonicity in the skills facet *)

(** C5, as stated, fails when nothing is selected yet: a profile whose
    only skill is Rust passes the empty selection and is rejected once
    Go is checked. *)
Lemma skills_monotone_fails_from_empty :
  let R := Profile.mk "bo" (Some "Bo Diaz") None (Some ["Rust"]) None false None in
  ~ (profilePredicate "" defaultPeopleFilters R = true ->
     profilePredicate "" (checkPeopleSkill "Go" defaultPeopleFilters) R = true).
Proof.
  intros R H. specialize (H eq_refl). vm_compute in H. discriminate.
Qed.

(** C5 (amended). When at least one skill is already selected, a profile
    accepted under the selection is still accepted after one more skill
    is checked, the search string, the industries and openToWork being
    unchanged. *)
Theorem skills_monotone_nonempty
    (debouncedPeopleSearch : string) (peopleFilters : PeopleFilters)
    (skill : string) (R : Profile.t) :
  pf_skills peopleFilters <> [] ->
  profilePredicate debouncedPeopleSearch peopleFilters R = true ->
  profilePredicate debouncedPeopleSearch (checkPeopleSkill skill peopleFilters) R = true.
Proof.
  intros Hne. apply length_pos_nonempty in Hne.
  unfold profilePredicate, checkPeopleSkill; simpl.
  rewrite Hne, length_pos_snoc.
  destruct (Js.truthy debouncedPeopleSearch && _); [discriminate|].
  unfold someSelectedIn.
  destruct (existsb _ (pf_skills peopleFilters)) eqn:Hsel; simpl; [|discriminate].
  rewrite (existsb_snoc _ _ _ Hsel). simpl. trivial.
Qed.

Lemma skills_monotone_nonempty_witness :
  let R := Profile.mk "bo" (Some "Bo Diaz") None (Some ["Rust"]) None false None in
  let F := mkPeopleFilters "" ["Rust"] [] false in
  profilePredicate "" (checkPeopleSkill "Go" F) R = true.
Proof.
  intros R F.
  apply (skills_monotone_nonempty "" F "Go" R); [discriminate | reflexivity].
Defined.

(** The same holds for the skills facet of the project filter. *)
Lemma project_skills_monotone_nonempty
    (debouncedProjectSearch : string) (projectFilters : ProjectFilters)
    (skill : string) (R : Project.t) :
  jf_skills projectFilters <> [] ->
  projectPredicate debouncedProjectSearch projectFilters R = true ->
  projectPredicate debouncedProjectSearch (checkProjectSkill skill projectFilters) R = true.
Proof.
  intros Hne. apply length_pos_nonempty in Hne.
  unfold projectPredicate, checkProjectSkill; simpl.
  rewrite Hne, length_pos_snoc.
  destruct (Js.truthy debouncedProjectSearch && _); [discriminate|].
  unfold someSelectedIn.
  destruct (existsb _ (jf_skills projectFilters)) eqn:Hsel; simpl; [|discriminate].
  rewrite (existsb_snoc _ _ _ Hsel). simpl. trivial.
Qed.

(** ** The derived cross-filter *)

Lemma hasSearch_empty : hasSearch "" = false.
Proof. reflexivity. Qed.

Lemma hasSearch_blank : hasSearch "   " = false.
Proof. reflexivity. Qed.

(** C6. For a displayed person whose [projects] field is the list
    [projectsArray]: when there is no project-search term (the debounced
    term is empty or blank) and neither project skills nor project
    sectors are selected, [filteredPersonProjects] is [projectsArray]
    itself; and whenever the result differs from [projectsArray], a
    search term, a skills selection or a sectors selection is active. *)
Theorem person_projects_default
    (p : Profile.t) (projectsArray : list Project.t)
    (debouncedProjectSearch : string) (projectFilters : ProjectFilters) :
  Profile.projects p = Some projectsArray ->
  (hasSearch debouncedProjectSearch = false ->
   jf_skills projectFilters = [] ->
   jf_sectors projectFilters = [] ->
   filteredPersonProjects (Some p) debouncedProjectSearch projectFilters
   = projectsArray)
  /\ (filteredPersonProjects (Some p) debouncedProjectSearch projectFilters
      <> projectsArray ->
      hasSearch debouncedProjectSearch = true
      \/ jf_skills projectFilters <> []
      \/ jf_sectors projectFilters <> []).
Proof.
  intros Hp. unfold filteredPersonProjects. rewrite Hp. split.
  - intros Hs Hk Hc. rewrite Hs, Hk, Hc. reflexivity.
  - intros Hdiff.
    destruct (hasSearch debouncedProjectSearch) eqn:Hs; [left; reflexivity|].
    destruct (jf_skills projectFilters) as [|k ks] eqn:Hk;
      [|right; left; discriminate].
    destruct (jf_sectors projectFilters) as [|c cs] eqn:Hc;
      [|right; right; discriminate].
    simpl in Hdiff. congruence.
Qed.

Lemma person_projects_default_witness :
  filteredPersonProjects (Some personWithFive) "   " defaultProjectFilters
  = fiveProjects.
Proof.
  apply (proj1 (person_projects_default personWithFive fiveProjects "   "
                  defaultProjectFilters eq_refl));
    reflexivity.
Defined.

(** ** Filtering yields sub-sequences *)

Lemma filteredProfiles_sublist allProfiles debouncedPeopleSearch peopleFilters :
  sublist (filteredProfiles allProfiles debouncedPeopleSearch peopleFilters)
    allProfiles.
Proof. apply filter_sublist. Qed.

Lemma filteredProjects_sublist allProjects debouncedProjectSearch projectFilters :
  sublist (filteredProjects allProjects debouncedProjectSearch projectFilters)
    allProjects.
Proof. apply filter_sublist. Qed.

Lemma filteredPersonProjects_sublist person debouncedProjectSearch projectFilters :
  sublist (filteredPersonProjects person debouncedProjectSearch projectFilters)
    (embeddedProjects person).
Proof.
  unfold filteredPersonProjects, embeddedProjects.
  destruct person as [p|]; [|constructor].
  destruct (Profile.projects p) as [projectsArray|]; simpl; [|constructor].
  destruct (negb (hasSearch debouncedProjectSearch) && _ && _).
  - reflexivity.
  - apply filter_sublist.
Qed.

(** C10. Whatever the filter state, [filteredProfiles] is a sub-sequence
    of [allProfiles], [filteredProjects] a sub-sequence of [allProjects]
    and [filteredPersonProjects] a sub-sequence of the list embedded in
    the displayed person: elements are only dropped, never reordered,
    repeated or made up. *)
Theorem filtered_sublists :
  (forall allProfiles debouncedPeopleSearch peopleFilters,
      sublist (filteredProfiles allProfiles debouncedPeopleSearch peopleFilters)
        allProfiles)
  /\ (forall allProjects debouncedProjectSearch projectFilters,
        sublist (filteredProjects allProjects debouncedProjectSearch projectFilters)
          allProjects)
  /\ (forall person debouncedProjectSearch projectFilters,
        sublist (filteredPersonProjects person debouncedProjectSearch projectFilters)
          (embeddedProjects person)).
Proof.
  split; [|split]; intros.
  - apply filteredProfiles_sublist.
  - apply filteredProjects_sublist.
  - apply filteredPersonProjects_sublist.
Qed.

(** Consequences on the memoised values of a render: membership and
    absence of repetitions carry over from the source lists. *)
Lemma filtered_of_state (s : PageState) :
  filteredProfilesOf s ⊆ allProfiles s
  /\ filteredProjectsOf s ⊆ allProjects s
  /\ filteredPersonProjectsOf s ⊆ embeddedProjects (person s)
  /\ (NoDup (allProfiles s) -> NoDup (filteredProfilesOf s))
  /\ (NoDup (allProjects s) -> NoDup (filteredProjectsOf s))
  /\ (NoDup (embeddedProjects (person s)) -> NoDup (filteredPersonProjectsOf s)).
Proof.
  unfold filteredProfilesOf, filteredProjectsOf, filteredPersonProjectsOf.
  repeat split.
  - apply sublist_subseteq, filteredProfiles_sublist.
  - apply sublist_subseteq, filteredProjects_sublist.
  - apply sublist_subseteq, filteredPersonProjects_sublist.
  - intros H. eapply sublist_NoDup; [exact H | apply filteredProfiles_sublist].
  - intros H. eapply sublist_NoDup; [exact H | apply filteredProjects_sublist].
  - intros H. eapply sublist_NoDup; [exact H | apply filteredPersonProjects_sublist].
Qed.

(** ** [findIndex] *)

Section FindIndex.
Context {A : Type} (f : A -> bool).

Lemma findIndex_lower (l : list A) : -1 <= Js.findIndex f l.
Proof.
  induction l as [|x l IH]; simpl; [lia|].
  destruct (f x); [lia|].
  destruct (Js.findIndex f l <? 0) eqn:E; [lia|].
  apply Z.ltb_ge in E. lia.
Qed.

(** No element satisfies [f]: the result is -1. *)
Lemma findIndex_none (l : list A) :
  (forall x, x ∈ l -> f x = false) -> Js.findIndex f l = -1.
Proof.
  induction l as [|x l IH]; intros H; simpl; [reflexivity|].
  rewrite (H x) by (left; reflexivity).
  rewrite IH by (intros y Hy; apply H; right; exact Hy).
  reflexivity.
Qed.

(** The first element that satisfies [f] sits at index [i]: the result
    is [i]. *)
Lemma findIndex_first (l : list A) (i : nat) (x : A) :
  l !! i = Some x -> f x = true ->
  (forall j y, (j < i)%nat -> l !! j = Some y -> f y = false) ->
  Js.findIndex f l = Z.of_nat i.
Proof.
  revert i. induction l as [|h l IH]; intros i Hi Hx Hbefore.
  - destruct i; discriminate.
  - destruct i as [|i]; simpl in *.
    + injection Hi as ->. rewrite Hx. reflexivity.
    + rewrite (Hbefore 0%nat h) by (simpl; try lia; reflexivity).
      rewrite (IH i Hi Hx).
      * destruct (Z.of_nat i <? 0) eqn:E; [apply Z.ltb_lt in E; lia | lia].
      * intros j y Hj Hy. apply (Hbefore (S j) y); [lia | exact Hy].
Qed.

(** A non-negative result is the index of an element that satisfies
    [f]. *)
Lemma findIndex_found (l : list A) :
  0 <= Js.findIndex f l ->
  exists x, l !! Z.to_nat (Js.findIndex f l) = Some x /\ f x = true.
Proof.
  induction l as [|h l IH]; simpl; [lia|].
  destruct (f h) eqn:Hh.
  - intros _. exists h. split; [reflexivity | exact Hh].
  - destruct (Js.findIndex f l <? 0) eqn:E; [lia|].
    apply Z.ltb_ge in E. intros _.
    destruct (IH E) as (x & Hx & Hfx). exists x. split; [|exact Hfx].
    replace (Z.to_nat (Js.findIndex f l + 1)) with (S (Z.to_nat (Js.findIndex f l)))
      by lia.
    exact Hx.
Qed.
End FindIndex.

(** ** Retention of [currentIndex] *)

Lemma applyRefresh_frame (rf : Refresh) (s : PageState) :
  currentIndex (applyRefresh rf s) = currentIndex s
  /\ viewMode (applyRefresh rf s) = viewMode s
  /\ layoutView (applyRefresh rf s) = layoutView s
  /\ location (applyRefresh rf s) = location s
  /\ person (applyRefresh rf s) = person s
  /\ project (applyRefresh rf s) = project s.
Proof.
  destruct rf as [[resp|]|[resp|]]; simpl;
    try destruct (lr_success resp); simpl; repeat split; reflexivity.
Qed.

(** The effect writes [currentIndex] and nothing else. *)
Lemma currentIndexEffect_cases (s : PageState) :
  currentIndexEffect s = s
  \/ exists index, currentIndexEffect s = set_currentIndex index s.
Proof.
  unfold currentIndexEffect.
  destruct (_ && _); [|left; reflexivity].
  destruct (viewMode s), (person s), (project s);
    try (left; reflexivity);
    (destruct (_ >? 0); [|left; reflexivity]);
    (destruct (_ >=? 0); [right; eexists; reflexivity | left; reflexivity]).
Qed.

Lemma slug_lookup_profiles (l : list Profile.t) (i : nat) (x : string) :
  (Profile.slug <$> l) !! i = Some x ->
  exists q, l !! i = Some q /\ Profile.slug q = x.
Proof.
  rewrite list_lookup_fmap. destruct (l !! i) as [q|]; simpl; [|discriminate].
  intros [= <-]. exists q. split; reflexivity.
Qed.

Lemma slug_lookup_projects (l : list Project.t) (i : nat) (x : string) :
  (Project.slug <$> l) !! i = Some x ->
  exists q, l !! i = Some q /\ Project.slug q = x.
Proof.
  rewrite list_lookup_fmap. destruct (l !! i) as [q|]; simpl; [|discriminate].
  intros [= <-]. exists q. split; reflexivity.
Qed.

(** When the displayed slug is missing from the loaded list, or nothing
    is displayed, the effect leaves the state as it is. *)
Lemma currentIndexEffect_absent (s : PageState) :
  (forall x, displayedSlug s = Some x -> x ∉ activeSlugs s) ->
  currentIndexEffect s = s.
Proof.
  intros Habs. unfold currentIndexEffect.
  destruct (_ && _); [|reflexivity].
  unfold displayedSlug, activeSlugs in Habs.
  destruct (viewMode s), (person s) as [p|], (project s) as [j|];
    simpl in Habs; try reflexivity.
  all: destruct (_ >? 0); [|reflexivity].
  all: rewrite findIndex_none; [reflexivity|].
  all: intros q Hq; apply String.eqb_neq; intros Heq;
       apply (Habs _ eq_refl); rewrite <- Heq;
       apply list_elem_of_fmap; exists q; split; [reflexivity | exact Hq].
Qed.

(** In detail layout with a slug in the route, when the displayed slug
    first occurs at position [i] of the loaded list, the effect writes
    [i]. *)
Lemma currentIndexEffect_present (s : PageState) (x : string) (i : nat) :
  layoutView s = LDetail -> Js.truthyOpt (slugParam s) = true ->
  displayedSlug s = Some x ->
  activeSlugs s !! i = Some x ->
  (forall j, (j < i)%nat -> activeSlugs s !! j <> Some x) ->
  currentIndex (currentIndexEffect s) = Z.of_nat i.
Proof.
  intros Hl Hs Hd Hi Hfirst. unfold currentIndexEffect. rewrite Hl, Hs. simpl.
  unfold displayedSlug, activeSlugs in *.
  destruct (viewMode s).
  - destruct (person s) as [p|]; [|discriminate]. injection Hd as Hd.
    destruct (slug_lookup_profiles _ _ _ Hi) as (q & Hq & Hqx).
    assert (Hlen : (Z.of_nat (length (allProfiles s)) >? 0) = true).
    { apply Z.gtb_lt. apply lookup_lt_Some in Hq. lia. }
    rewrite Hlen.
    rewrite (findIndex_first _ (allProfiles s) i q Hq).
    + destruct (Z.of_nat i >=? 0) eqn:E; [reflexivity|].
      rewrite Z.geb_leb in E. apply Z.leb_gt in E. lia.
    + apply String.eqb_eq. congruence.
    + intros j y Hj Hy. apply String.eqb_neq. intros Heq.
      apply (Hfirst j Hj). rewrite list_lookup_fmap, Hy. simpl. congruence.
  - destruct (project s) as [p|]; [|destruct (person s); discriminate].
    assert (Hd' : Project.slug p = x) by (destruct (person s); simpl in Hd; congruence).
    destruct (slug_lookup_projects _ _ _ Hi) as (q & Hq & Hqx).
    assert (Hlen : (Z.of_nat (length (allProjects s)) >? 0) = true).
    { apply Z.gtb_lt. apply lookup_lt_Some in Hq. lia. }
    assert (Hgoal :
      currentIndex
        (if Z.of_nat (length (allProjects s)) >? 0
         then
           let index := Js.findIndex
                          (fun q0 => String.eqb (Project.slug q0) (Project.slug p))
                          (allProjects s) in
           if index >=? 0 then set_currentIndex index s else s
         else s) = Z.of_nat i).
    { rewrite Hlen. cbv zeta.
      rewrite (findIndex_first _ (allProjects s) i q Hq).
      + destruct (Z.of_nat i >=? 0) eqn:E; [reflexivity|].
        rewrite Z.geb_leb in E. apply Z.leb_gt in E. lia.
      + apply String.eqb_eq. congruence.
      + intros j y Hj Hy. apply String.eqb_neq. intros Heq.
        apply (Hfirst j Hj). rewrite list_lookup_fmap, Hy. simpl. congruence. }
    destruct (person s); exact Hgoal.
Qed.

Lemma findIndex_fmap {A B} (g : A -> B) (f : B -> bool) (l : list A) :
  Js.findIndex (fun a => f (g a)) l = Js.findIndex f (g <$> l).
Proof.
  induction l as [|x l IH]; simpl; [reflexivity|].
  rewrite IH. reflexivity.
Qed.

(** A detail load that resolves the slug and brings the list writes the
    result of [findIndex] for the requested slug on the list it brought,
    and -1 for a negative result. *)
Lemma detail_load_index (s : PageState) (slug : string) (answers : DetailAnswers) :
  slugParam s = Some slug -> Js.truthy slug = true ->
  resolvedWithList (viewMode s) answers = true ->
  let loaded := slugEffect answers s in
  layoutView loaded = LDetail
  /\ location loaded = location s
  /\ currentIndex loaded
     = (let index := Js.findIndex (fun sl => String.eqb sl slug) (activeSlugs loaded) in
        if index >=? 0 then index else -1).
Proof.
  intros Hslug Ht Hres loaded.
  unfold loaded, slugEffect, slugEffectStart. rewrite Hslug. simpl. rewrite Ht. simpl.
  unfold resolvedWithList in Hres.
  destruct (viewMode s) eqn:Hvm.
  - destruct (personAnswer answers) as [[[data|] allData]|]; try discriminate.
    unfold commitPersonAndList. rewrite Hres.
    unfold activeSlugs. simpl. rewrite Hvm.
    rewrite <- (findIndex_fmap Profile.slug (fun sl => String.eqb sl slug)).
    repeat split; reflexivity.
  - destruct (projectAnswer answers) as [[[data|] allData]|]; try discriminate.
    unfold commitProjectAndList. rewrite Hres.
    unfold activeSlugs. simpl. rewrite Hvm.
    rewrite <- (findIndex_fmap Project.slug (fun sl => String.eqb sl slug)).
    repeat split; reflexivity.
Qed.

(** The first occurrence of an element of a list. *)
Lemma first_occurrence (x : string) (l : list string) :
  x ∈ l ->
  exists i, l !! i = Some x /\ forall j, (j < i)%nat -> l !! j <> Some x.
Proof.
  intros Hin.
  destruct (list_find_elem_of (fun y => y = x) l x Hin eq_refl) as [[i y] Hfind].
  apply list_find_Some in Hfind as (Hi & -> & Hbefore).
  exists i. split; [exact Hi|].
  intros j Hj Hat. apply (Hbefore j x Hat Hj). reflexivity.
Qed.

(** C1, as stated, fails on the detail load.  From the detail view of
    "x" at index 2 the route moves to "z"; the request resolves "z" and
    replaces the collection by a list without "z" (and without "x"): the
    slug on display is missing from the refreshed list, and
    [currentIndex] is -1, not 2. *)
Lemma retention_fails_on_detail_load :
  layoutView openingZ = LDetail
  /\ currentIndex openingZ = 2
  /\ layoutView loadedZ = LDetail
  /\ displayedSlug loadedZ = Some "z"
  /\ activeSlugs loadedZ = ["a"; "b"]
  /\ currentIndex loadedZ = -1
  /\ ~ retentionClaim openingZ loadedZ.
Proof.
  repeat (split; [reflexivity|]).
  intros Hclaim.
  assert (Hkeep : currentIndex loadedZ = currentIndex openingZ).
  { apply (Hclaim "z"); [reflexivity|].
    apply (bool_decide_unpack _). vm_compute. exact I. }
  vm_compute in Hkeep. discriminate.
Qed.

(** C1 (amended). In detail layout there are two events that replace
    the collection of the active entity mode.

    After a list request of [fetchData] has replaced it and the index
    effect has run: if the slug on display is missing from the loaded
    list, [currentIndex] still has the value it had before; it changes
    only if the slug on display occurs in the loaded list; and when the
    slug occurs (and the route carries a slug) it becomes the position of
    the first occurrence.

    After a detail load that resolved the slug of the route and brought
    the list: [currentIndex] is -1 when that slug is missing from the
    list and the position of its first occurrence otherwise, and the
    index effect that follows does not change it when the loaded entity
    carries the requested slug. *)
Theorem stale_index_retention (s : PageState) :
  layoutView s = LDetail ->
  (forall rf : Refresh,
     let refreshed := applyRefresh rf s in
     let s' := currentIndexEffect refreshed in
     (forall x, displayedSlug refreshed = Some x -> x ∉ activeSlugs refreshed ->
                currentIndex s' = currentIndex s)
     /\ (currentIndex s' <> currentIndex s ->
         exists x, displayedSlug refreshed = Some x /\ x ∈ activeSlugs refreshed)
     /\ (forall x i,
           Js.truthyOpt (slugParam s) = true ->
           displayedSlug refreshed = Some x ->
           activeSlugs refreshed !! i = Some x ->
           (forall j, (j < i)%nat -> activeSlugs refreshed !! j <> Some x) ->
           currentIndex s' = Z.of_nat i))
  /\ (forall (slug : string) (answers : DetailAnswers),
        slugParam s = Some slug -> Js.truthy slug = true ->
        resolvedWithList (viewMode s) answers = true ->
        let loaded := slugEffect answers s in
        let s' := currentIndexEffect loaded in
        layoutView loaded = LDetail
        /\ (slug ∉ activeSlugs loaded -> currentIndex loaded = -1)
        /\ (forall i,
              activeSlugs loaded !! i = Some slug ->
              (forall j, (j < i)%nat -> activeSlugs loaded !! j <> Some slug) ->
              currentIndex loaded = Z.of_nat i)
        /\ (displayedSlug loaded = Some slug ->
            currentIndex s' = currentIndex loaded)).
Proof.
  intros Hl. split.
  - intros rf refreshed s'.
    destruct (applyRefresh_frame rf s) as (Hci & Hvm & Hlv & Hloc & Hp & Hj).
    fold refreshed in Hci, Hvm, Hlv, Hloc, Hp, Hj.
    split; [|split].
    + intros x Hd Habs. unfold s'.
      rewrite currentIndexEffect_absent; [exact Hci|].
      intros y Hy. rewrite Hd in Hy. injection Hy as <-. exact Habs.
    + intros Hchg.
      destruct (displayedSlug refreshed) as [x|] eqn:Hd.
      * destruct (decide (x ∈ activeSlugs refreshed)) as [Hin|Hout].
        -- exists x. split; [reflexivity | exact Hin].
        -- exfalso. apply Hchg. unfold s'.
           rewrite currentIndexEffect_absent; [exact Hci|].
           intros y Hy. rewrite Hd in Hy. injection Hy as <-. exact Hout.
      * exfalso. apply Hchg. unfold s'.
        rewrite currentIndexEffect_absent; [exact Hci|].
        intros y Hy. rewrite Hd in Hy. discriminate.
    + intros x i Hs Hd Hi Hfirst. unfold s'.
      apply (currentIndexEffect_present refreshed x i); try assumption.
      * rewrite Hlv. exact Hl.
      * unfold slugParam in *. rewrite Hloc. exact Hs.
  - intros slug answers Hslug Ht Hres loaded s'.
    destruct (detail_load_index s slug answers Hslug Ht Hres)
      as (Hlv & Hloc & Hidx).
    fold loaded in Hlv, Hloc, Hidx. cbv zeta in Hidx.
    assert (Habsent : slug ∉ activeSlugs loaded -> currentIndex loaded = -1).
    { intros Hout. rewrite Hidx, findIndex_none; [reflexivity|].
      intros y Hy. apply String.eqb_neq. intros ->. exact (Hout Hy). }
    assert (Hpresent : forall i,
              activeSlugs loaded !! i = Some slug ->
              (forall j, (j < i)%nat -> activeSlugs loaded !! j <> Some slug) ->
              currentIndex loaded = Z.of_nat i).
    { intros i Hi Hfirst.
      rewrite Hidx, (findIndex_first _ (activeSlugs loaded) i slug Hi).
      - destruct (Z.geb_spec (Z.of_nat i) 0); [reflexivity | lia].
      - apply String.eqb_refl.
      - intros j y Hj Hy. apply String.eqb_neq. intros ->. exact (Hfirst j Hj Hy). }
    split; [exact Hlv|]. split; [exact Habsent|]. split; [exact Hpresent|].
    intros Hd. unfold s'.
    destruct (decide (slug ∈ activeSlugs loaded)) as [Hin|Hout].
    + destruct (first_occurrence slug (activeSlugs loaded) Hin) as (i & Hi & Hfirst).
      rewrite (Hpresent i Hi Hfirst).
      apply (currentIndexEffect_present loaded slug i); try assumption.
      unfold slugParam in *. rewrite Hloc, Hslug. exact Ht.
    + rewrite currentIndexEffect_absent; [reflexivity|].
      intros y Hy. rewrite Hd in Hy. injection Hy as <-. exact Hout.
Qed.

(** The scenario of the spec (a filtered list request under the detail
    view of "x" keeps index 2), and the detail load of "b" from the same
    view, which assigns the position of "b". *)
Lemma stale_index_retention_witness :
  currentIndex (currentIndexEffect (applyRefresh withoutX showingX)) = 2
  /\ currentIndex
       (slugEffect
          (mkAnswers
             (Fulfilled (Some (profileOf "b"),
                         mkListResponse true (map profileOf ["a"; "b"; "c"]) None None))
             Rejected)
          (navigate (mkRoute People (Some "b")) showingX)) = 1.
Proof.
  split.
  - apply (proj1 (proj1 (stale_index_retention showingX eq_refl) withoutX) "x").
    + reflexivity.
    + apply (bool_decide_unpack _). vm_compute. exact I.
  - destruct (proj2 (stale_index_retention
                       (navigate (mkRoute People (Some "b")) showingX) eq_refl)
                "b"
                (mkAnswers
                   (Fulfilled (Some (profileOf "b"),
                               mkListResponse true (map profileOf ["a"; "b"; "c"])
                                 None None))
                   Rejected)
                eq_refl eq_refl eq_refl)
      as (_ & _ & Hpresent & _).
    apply (Hpresent 1%nat); [reflexivity|].
    intros j Hj. assert (j = 0%nat) as -> by lia. discriminate.
Defined.

(** With "x" in the refreshed list the index follows it. *)
Example index_follows_slug :
  currentIndex
    (currentIndexEffect
       (applyRefresh
          (RefreshProfiles
             (Fulfilled (mkListResponse true (map profileOf ["x"; "a"]) None None)))
          showingX)) = 0.
Proof. reflexivity. Qed.

(** The detail load is a different event: it displays the entity it
    fetched and assigns the position of the requested slug in the list it
    fetched, -1 when the slug is not there. *)
Example detail_load_assigns_index :
  let answers :=
    mkAnswers
      (Fulfilled (Some (profileOf "z"),
                  mkListResponse true (map profileOf ["a"; "b"]) None None))
      Rejected in
  let s' := slugEffect answers (set_location (mkRoute People (Some "z")) showingX) in
  person s' = Some (profileOf "z") /\ currentIndex s' = -1
  /\ currentIndex (currentIndexEffect s') = -1.
Proof. repeat split. Qed.

(** ** Previous and next *)

(** C3, as stated, fails for an index kept from a longer list: with one
    item loaded and [currentIndex] 2, [canGoPrevious] holds although
    N <= 1.  The state is the one the index effect leaves when a
    one-item list without the displayed slug arrives. *)
Lemma can_go_previous_with_one_item :
  let s := currentIndexEffect
             (applyRefresh
                (RefreshProfiles
                   (Fulfilled (mkListResponse true [profileOf "a"] (Some 1) None)))
                showingX) in
  currentLength s = 1 /\ currentIndex s = 2
  /\ ~ (currentLength s <= 1 ->
        canGoNext (currentIndex s) (currentLength s) = false
        /\ canGoPrevious (currentIndex s) = false).
Proof.
  split; [reflexivity|]. split; [reflexivity|].
  intros H. destruct H as [_ H]; [vm_compute; discriminate|].
  vm_compute in H. discriminate.
Qed.

(** C3 (amended). For every length N and index i: [canGoNext] holds
    exactly when 0 <= i < N-1 and [canGoPrevious] exactly when i > 0;
    both are false when i = -1; [canGoNext] is false when N <= 1, and so
    is [canGoPrevious] when moreover the index lies inside the list
    (i < N). *)
Theorem can_go_spec (i N : Z) :
  (canGoNext i N = true <-> 0 <= i < N - 1)
  /\ (canGoPrevious i = true <-> i > 0)
  /\ (i = -1 -> canGoNext i N = false /\ canGoPrevious i = false)
  /\ (N <= 1 -> canGoNext i N = false)
  /\ (N <= 1 -> i < N -> canGoPrevious i = false).
Proof.
  unfold canGoNext, canGoPrevious.
  assert (Hgt : (i >? 0) = true <-> i > 0).
  { rewrite Z.gtb_ltb, Z.ltb_lt. split; lia. }
  split; [|split; [exact Hgt|split; [|split]]].
  - rewrite andb_true_iff, Z.geb_leb, Z.leb_le, Z.ltb_lt. reflexivity.
  - intros ->. split; reflexivity.
  - intros HN. destruct ((i >=? 0) && (i <? N - 1)) eqn:E; [|reflexivity].
    rewrite andb_true_iff, Z.geb_leb, Z.leb_le, Z.ltb_lt in E. lia.
  - intros HN Hi. rewrite Z.gtb_ltb. apply Z.ltb_ge. lia.
Qed.

Lemma can_go_spec_witness :
  canGoNext 0 1 = false /\ canGoPrevious 0 = false.
Proof.
  destruct (can_go_spec 0 1) as (_ & _ & _ & Hn & Hp).
  split; [apply Hn; lia | apply Hp; lia].
Defined.

(** ** Tab switch *)

(** C9. The tab switch sets [currentIndex] to -1 and the grid page to 0
    and leaves the people filters, the project filters and the two
    debounced search values as they were; the same holds once the route
    effects that follow the navigation have run, which also put the
    layout on grid. *)
Theorem tab_switch_resets (tab : ViewMode) (s : PageState) :
  let s' := handleTabSwitch tab s in
  let s'' := slugEffectStart (pathnameEffect s') in
  (currentIndex s' = -1 /\ gridPage s' = 0
   /\ peopleFilters s' = peopleFilters s
   /\ projectFilters s' = projectFilters s
   /\ debouncedPeopleSearch s' = debouncedPeopleSearch s
   /\ debouncedProjectSearch s' = debouncedProjectSearch s
   /\ viewMode s' = tab /\ location s' = mkRoute tab None)
  /\ (currentIndex s'' = -1 /\ gridPage s'' = 0
      /\ peopleFilters s'' = peopleFilters s
      /\ projectFilters s'' = projectFilters s
      /\ debouncedPeopleSearch s'' = debouncedPeopleSearch s
      /\ debouncedProjectSearch s'' = debouncedProjectSearch s
      /\ viewMode s'' = tab /\ layoutView s'' = LGrid).
Proof.
  repeat split.
Qed.

(** ** A slug that does not resolve *)

(** Whenever it lands, the commit of an unresolved request writes the
    error and the loading flag and nothing else. *)
Lemma commitPersonAndList_unresolved slug closure r s :
  resolves r = false ->
  commitPersonAndList slug closure r s
  = set_loading false (set_error (Some "Person not found") s).
Proof.
  destruct r as [[[data|] allData]|]; simpl; intros H;
    [discriminate | reflexivity | reflexivity].
Qed.

Lemma commitProjectAndList_unresolved slug closure r s :
  resolves r = false ->
  commitProjectAndList slug closure r s
  = set_loading false (set_error (Some "Project not found") s).
Proof.
  destruct r as [[[data|] allData]|]; simpl; intros H;
    [discriminate | reflexivity | reflexivity].
Qed.

(** No commit of a detail request, resolved or not, touches the layout. *)
Lemma commit_keeps_layout slug closure s :
  (forall r, layoutView (commitPersonAndList slug closure r s) = layoutView s)
  /\ (forall r, layoutView (commitProjectAndList slug closure r s) = layoutView s).
Proof.
  split; intros [[[data|] allData]|]; simpl; try reflexivity;
    destruct (lr_success allData); reflexivity.
Qed.

(** C8. When the route carries a slug and the detail request of the
    active entity mode does not resolve it (it is rejected or answered
    without success), the state the slug effect leaves has the detail
    layout, holds the not-found error of that mode and renders the error
    screen. *)
Theorem unresolved_slug_stays_detail
    (s : PageState) (slug : string) (answers : DetailAnswers) :
  slugParam s = Some slug -> Js.truthy slug = true ->
  unresolvedFor (viewMode s) answers = true ->
  let s' := slugEffect answers s in
  layoutView s' = LDetail
  /\ error s' = Some (notFoundMessage (viewMode s))
  /\ loading s' = false
  /\ render s' = ErrorScreen (notFoundMessage (viewMode s)).
Proof.
  intros Hslug Ht Hun s'. unfold s', slugEffect, slugEffectStart.
  rewrite Hslug. simpl. rewrite Ht. simpl.
  unfold unresolvedFor in Hun.
  destruct (viewMode s); apply negb_true_iff in Hun.
  - rewrite commitPersonAndList_unresolved by exact Hun.
    unfold render, slugParam. simpl. unfold slugParam in Hslug.
    rewrite Hslug. simpl. rewrite Ht. repeat split; reflexivity.
  - rewrite commitProjectAndList_unresolved by exact Hun.
    unfold render, slugParam. simpl. unfold slugParam in Hslug.
    rewrite Hslug. simpl. rewrite Ht. repeat split; reflexivity.
Qed.

Lemma unresolved_slug_stays_detail_witness :
  let s' := slugEffect (mkAnswers Rejected Rejected) openingNobody in
  layoutView s' = LDetail
  /\ error s' = Some "Person not found"
  /\ loading s' = false
  /\ render s' = ErrorScreen "Person not found".
Proof.
  apply (unresolved_slug_stays_detail openingNobody "nobody"
           (mkAnswers Rejected Rejected));
    reflexivity.
Defined.

(** ** Page arithmetic *)

Section CeilDiv.
Variable d : Z.
Hypothesis d_pos : 0 < d.

(** [ceilDiv n d] is the least [c] with [n <= d * c]. *)
Lemma ceilDiv_bounds (n : Z) :
  d * (Js.ceilDiv n d - 1) < n <= d * Js.ceilDiv n d.
Proof.
  unfold Js.ceilDiv.
  pose proof (Z.div_mod (- n) d ltac:(lia)) as Hdm.
  pose proof (Z.mod_pos_bound (- n) d d_pos) as Hmod.
  nia.
Qed.

Lemma ceilDiv_unique (n c : Z) :
  d * (c - 1) < n <= d * c -> Js.ceilDiv n d = c.
Proof.
  intros Hc. pose proof (ceilDiv_bounds n) as Hb. nia.
Qed.

Lemma ceilDiv_mono (n m : Z) : n <= m -> Js.ceilDiv n d <= Js.ceilDiv m d.
Proof.
  intros Hnm.
  pose proof (ceilDiv_bounds n) as Hn. pose proof (ceilDiv_bounds m) as Hm. nia.
Qed.

Lemma ceilDiv_zero : Js.ceilDiv 0 d = 0.
Proof. apply ceilDiv_unique. lia. Qed.

Lemma ceilDiv_nonneg (n : Z) : 0 <= n -> 0 <= Js.ceilDiv n d.
Proof.
  intros Hn. rewrite <- ceilDiv_zero. apply ceilDiv_mono. exact Hn.
Qed.
End CeilDiv.

Example pages_of_17 : pageCount gridPageSize 17 = 3.
Proof. reflexivity. Qed.

(** Case analysis on the integer comparisons of a goal. *)
Ltac zcases :=
  repeat match goal with
    | |- context [?a >? ?b] => destruct (Z.gtb_spec a b)
    | |- context [?a >=? ?b] => destruct (Z.geb_spec a b)
    | |- context [?a <? ?b] => destruct (Z.ltb_spec a b)
    | |- context [?a =? ?b] => destruct (Z.eqb_spec a b)
    end; simpl.

(** ** The grid pager *)

Section PagerFacts.
Variables size total : Z.
Hypothesis size_pos : 0 < size.
Hypothesis total_nonneg : 0 <= total.

Local Abbreviation maxPage := (Z.max 0 (pageCount size total - 1)).

Lemma pageCount_nonneg : 0 <= pageCount size total.
Proof. apply ceilDiv_nonneg; assumption. Qed.

Lemma pressNextPage_below (p : Z) :
  0 <= p < maxPage -> pressNextPage size total p = p + 1.
Proof.
  unfold pressNextPage, pagerRendered, nextPageDisabled, nextPageOnClick.
  intros Hp. zcases; lia.
Qed.

Lemma pressNextPage_at_max (p : Z) :
  maxPage <= p -> pressNextPage size total p = p.
Proof.
  unfold pressNextPage, pagerRendered, nextPageDisabled, nextPageOnClick.
  intros Hp. zcases; lia.
Qed.

Lemma nextPageOnClick_clamps (p : Z) :
  pagerRendered size total = true -> maxPage <= p ->
  nextPageOnClick size total p = maxPage.
Proof.
  unfold pagerRendered, nextPageOnClick.
  intros Hr Hp. apply Z.gtb_lt in Hr. lia.
Qed.

Lemma arrowRightPage_at_max (n p : Z) :
  0 <= n <= total -> maxPage <= p -> arrowRightPage size n p = p.
Proof.
  unfold arrowRightPage. intros Hn Hp.
  pose proof (ceilDiv_mono size size_pos n total (proj2 Hn)) as Hmono.
  unfold pageCount in *. zcases; lia.
Qed.

Lemma no_pager_without_records :
  total = 0 ->
  maxPage = 0
  /\ (forall p, pressNextPage size total p = p /\ pressPrevPage size total p = p)
  /\ arrowLeftPage 0 = 0.
Proof.
  intros ->.
  unfold pressNextPage, pressPrevPage, pagerRendered, pageCount.
  rewrite (ceilDiv_zero size size_pos). split; [reflexivity|].
  split; [|reflexivity]. intros p. split; reflexivity.
Qed.
End PagerFacts.

(** C2. The page is kept when the entity changes without the tab
    switch.  From page 2 of the grid of 17 people: the card of a person,
    "Learn More" on one of the person's five projects, the grid toggle.
    The grid of projects is then on page 2, although the largest page of
    a total of 5 is page 0: [fetchData] asks for 8 records from offset 16,
    the answer holds no record, the page controls are not rendered, and
    the left arrow still pages back; when the answer reports no total
    the stored total is 0, on page 2, and the left arrow pages back to
    page 1.  The tab switch from the same detail view resets the page
    to 0. *)
Theorem stale_page_after_mode_switch :
  gridPage gridOf17Page2 = 2
  /\ Z.max 0 (pageCount gridPageSize (activeTotal gridOf17Page2) - 1) = 2
  /\ viewMode backInGrid = Projects
  /\ layoutView backInGrid = LGrid
  /\ activeTotal backInGrid = 5
  /\ Z.max 0 (pageCount gridPageSize (activeTotal backInGrid) - 1) = 0
  /\ gridPage backInGrid = 2
  /\ fetchDataQuery backInGrid = Some (Projects, mkQuery 8 (Some 16) "" None None None)
  /\ allProjects emptyGridPage = []
  /\ activeTotal emptyGridPage = 5
  /\ pagerRendered gridPageSize (activeTotal emptyGridPage) = false
  /\ clickPrevPage emptyGridPage = emptyGridPage
  /\ handleKeyDown ArrowLeft emptyGridPage = Ok (set_gridPage 1 emptyGridPage)
  /\ activeTotal emptyGridPageNoTotal = 0
  /\ gridPage emptyGridPageNoTotal = 2
  /\ handleKeyDown ArrowLeft emptyGridPageNoTotal
     = Ok (set_gridPage 1 emptyGridPageNoTotal)
  /\ gridPage (handleTabSwitch Projects personOpened) = 0.
Proof. repeat split. Qed.

(** The buttons and the key handler of the page use the arithmetic above
    at page size 8. *)
Lemma grid_controls_use_pager (s : PageState) :
  layoutView s = LGrid ->
  gridPage (clickNextPage s) = pressNextPage gridPageSize (activeTotal s) (gridPage s)
  /\ gridPage (clickPrevPage s) = pressPrevPage gridPageSize (activeTotal s) (gridPage s)
  /\ (exists s', handleKeyDown ArrowLeft s = Ok s'
                 /\ gridPage s' = arrowLeftPage (gridPage s))
  /\ (exists s', handleKeyDown ArrowRight s = Ok s'
                 /\ gridPage s' =
                    arrowRightPage gridPageSize
                      (match viewMode s with
                       | People => Z.of_nat (length (filteredProfilesOf s))
                       | Projects => Z.of_nat (length (filteredProjectsOf s))
                       end) (gridPage s)).
Proof.
  intros Hl. unfold clickNextPage, clickPrevPage, handleKeyDown, arrowLeftPage,
    arrowRightPage. rewrite Hl.
  split; [reflexivity|]. split; [reflexivity|]. split.
  - destruct (gridPage s >? 0); eexists; split; reflexivity.
  - destruct (viewMode s);
      match goal with |- context [gridPage s <? ?m] => destruct (gridPage s <? m) end;
      eexists; split; reflexivity.
Qed.

(** ** Arrow keys *)

Lemma at_fmap {A B} (f : A -> B) (l : list A) (i : Z) :
  Js.at_ (f <$> l) i = f <$> Js.at_ l i.
Proof.
  unfold Js.at_. destruct (i <? 0); [reflexivity|]. apply list_lookup_fmap.
Qed.

(** [handlePrevious] navigates to the slug of the item before
    [currentIndex], and does nothing at index 0 or below. *)
Lemma handlePrevious_steps (s : PageState) (sl : string) :
  currentIndex s > 0 ->
  Js.at_ (activeSlugs s) (currentIndex s - 1) = Some sl ->
  handlePrevious s = Ok (navigate (mkRoute (viewMode s) (Some sl)) s).
Proof.
  intros Hi Hat. unfold handlePrevious, activeSlugs in *.
  assert (E : (currentIndex s >? 0) = true) by (apply Z.gtb_lt; lia).
  rewrite E. destruct (viewMode s); rewrite at_fmap in Hat.
  - destruct (Js.at_ (allProfiles s) _) as [q|]; [|discriminate].
    simpl in Hat. injection Hat as <-. reflexivity.
  - destruct (Js.at_ (allProjects s) _) as [q|]; [|discriminate].
    simpl in Hat. injection Hat as <-. reflexivity.
Qed.

Lemma handlePrevious_first (s : PageState) :
  currentIndex s <= 0 -> handlePrevious s = Ok s.
Proof.
  intros Hi. unfold handlePrevious.
  destruct (Z.gtb_spec (currentIndex s) 0); [lia | reflexivity].
Qed.

(** [handleNext] navigates to the slug of the item after [currentIndex],
    and does nothing at the last index or beyond. *)
Lemma handleNext_steps (s : PageState) (sl : string) :
  currentIndex s < currentLength s - 1 ->
  Js.at_ (activeSlugs s) (currentIndex s + 1) = Some sl ->
  handleNext s = Ok (navigate (mkRoute (viewMode s) (Some sl)) s).
Proof.
  intros Hi Hat. unfold handleNext, activeSlugs, currentLength in *.
  destruct (viewMode s); rewrite at_fmap in Hat.
  - assert (E : (currentIndex s <? Z.of_nat (length (allProfiles s)) - 1) = true)
      by (apply Z.ltb_lt; lia).
    rewrite E.
    destruct (Js.at_ (allProfiles s) _) as [q|]; [|discriminate].
    simpl in Hat. injection Hat as <-. reflexivity.
  - assert (E : (currentIndex s <? Z.of_nat (length (allProjects s)) - 1) = true)
      by (apply Z.ltb_lt; lia).
    rewrite E.
    destruct (Js.at_ (allProjects s) _) as [q|]; [|discriminate].
    simpl in Hat. injection Hat as <-. reflexivity.
Qed.

Lemma handleNext_last (s : PageState) :
  currentLength s - 1 <= currentIndex s -> handleNext s = Ok s.
Proof.
  intros Hi. unfold handleNext, currentLength in *.
  destruct (viewMode s);
    match goal with |- context [?a <? ?b] => destruct (Z.ltb_spec a b) end;
    (lia || reflexivity).
Qed.

(** What the key handler does, layout by layout: in grid layout the left
    arrow pages back above page 0 and the right arrow pages forward below
    [ceil(n / 8) - 1], with [n] the number of filtered records in memory;
    in every other layout, list included, the arrows run [handlePrevious]
    and [handleNext]. *)
Lemma handleKeyDown_by_layout (s : PageState) :
  (layoutView s = LGrid ->
   handleKeyDown ArrowLeft s
   = Ok (if gridPage s >? 0 then set_gridPage (gridPage s - 1) s else s)
   /\ handleKeyDown ArrowRight s
      = Ok (if gridPage s
               <? pageCount gridPageSize
                    (match viewMode s with
                     | People => Z.of_nat (length (filteredProfilesOf s))
                     | Projects => Z.of_nat (length (filteredProjectsOf s))
                     end) - 1
            then set_gridPage (gridPage s + 1) s else s))
  /\ (layoutView s <> LGrid ->
      handleKeyDown ArrowLeft s = handlePrevious s
      /\ handleKeyDown ArrowRight s = handleNext s).
Proof.
  split; intros Hl; unfold handleKeyDown.
  - rewrite Hl. split.
    + destruct (gridPage s >? 0); reflexivity.
    + destruct (viewMode s);
        match goal with |- context [gridPage s <? ?m] => destruct (gridPage s <? m) end;
        reflexivity.
  - destruct (layoutView s); [contradiction| |]; split; reflexivity.
Qed.

(** With no more than one page of records in memory, which is what a
    grid request brings, the right arrow never leaves the page. *)
Lemma arrow_right_dead_on_one_page (s : PageState) :
  layoutView s = LGrid -> 0 <= gridPage s ->
  (length (allProfiles s) <= 8)%nat -> (length (allProjects s) <= 8)%nat ->
  handleKeyDown ArrowRight s = Ok s.
Proof.
  intros Hl Hp Hprofiles Hprojects.
  rewrite (proj2 (proj1 (handleKeyDown_by_layout s) Hl)).
  assert (Hsize : 0 < gridPageSize) by reflexivity.
  assert (Hone : forall n, 0 <= n <= 8 -> pageCount gridPageSize n - 1 <= 0).
  { intros n Hn. pose proof (ceilDiv_bounds gridPageSize Hsize n) as Hb.
    unfold pageCount, gridPageSize in *. lia. }
  destruct (viewMode s).
  - assert (Hn : (length (filteredProfilesOf s) <= 8)%nat).
    { etransitivity; [|exact Hprofiles].
      apply sublist_length, filteredProfiles_sublist. }
    destruct (Z.ltb_spec (gridPage s)
                (pageCount gridPageSize (Z.of_nat (length (filteredProfilesOf s))) - 1))
      as [Hlt|_]; [|reflexivity].
    specialize (Hone (Z.of_nat (length (filteredProfilesOf s))) ltac:(lia)). lia.
  - assert (Hn : (length (filteredProjectsOf s) <= 8)%nat).
    { etransitivity; [|exact Hprojects].
      apply sublist_length, filteredProjects_sublist. }
    destruct (Z.ltb_spec (gridPage s)
                (pageCount gridPageSize (Z.of_nat (length (filteredProjectsOf s))) - 1))
      as [Hlt|_]; [|reflexivity].
    specialize (Hone (Z.of_nat (length (filteredProjectsOf s))) ltac:(lia)). lia.
Qed.

(** C7. The handler at two states.  On the first grid page of 17 people
    (8 in memory) the right arrow stays on page 0, where the claim and
    the next-page button, both bounded by the server total, go to page 1:
    the handler bounds the page by the records in memory.  In list
    layout, entered from the detail view of "b", the arrows do not page:
    the handler has no case for the list layout and runs the navigator,
    which moves the route to "a" and to "c". *)
Theorem arrow_keys_diverge :
  layoutView gridOf17 = LGrid
  /\ handleKeyDown ArrowRight gridOf17 = Ok gridOf17
  /\ claimedArrowPage ArrowRight (activeTotal gridOf17) (gridPage gridOf17) = 1
  /\ gridPage (clickNextPage gridOf17) = 1
  /\ ~ arrowKeyClaim ArrowRight gridOf17
  /\ layoutView listAtB = LList
  /\ handleKeyDown ArrowLeft listAtB
     = Ok (navigate (mkRoute People (Some "a")) listAtB)
  /\ handleKeyDown ArrowRight listAtB
     = Ok (navigate (mkRoute People (Some "c")) listAtB)
  /\ ~ arrowKeyClaim ArrowLeft listAtB
  /\ ~ arrowKeyClaim ArrowRight listAtB.
Proof.
  repeat (split; [reflexivity|]).
  split; [|repeat (split; [reflexivity|]); split].
  - intros (s' & Hkey & Hpage & _).
    injection Hkey as <-. vm_compute in Hpage. discriminate.
  - intros (s' & Hkey & _ & Hloc).
    injection Hkey as <-. vm_compute in Hloc. discriminate.
  - intros (s' & Hkey & _ & Hloc).
    injection Hkey as <-. vm_compute in Hloc. discriminate.
Qed.

(** * Further properties *)

(** ** Search and facets *)

Lemma lowerAscii_idem (c : ascii) : Js.lowerAscii (Js.lowerAscii c) = Js.lowerAscii c.
Proof.
  destruct c as [[] [] [] [] [] [] [] []]; reflexivity.
Qed.

Lemma toLowerCase_idem (s : string) : Js.toLowerCase (Js.toLowerCase s) = Js.toLowerCase s.
Proof.
  induction s as [|c t IH]; simpl; [reflexivity|].
  rewrite lowerAscii_idem, IH. reflexivity.
Qed.

Lemma truthy_toLowerCase (s : string) : Js.truthy (Js.toLowerCase s) = Js.truthy s.
Proof. destruct s; reflexivity. Qed.

(** The predicates read the search term through its truthiness and its
    lower-casing only. *)
Lemma truthy_of_lower (d1 d2 : string) :
  Js.toLowerCase d1 = Js.toLowerCase d2 -> Js.truthy d1 = Js.truthy d2.
Proof.
  intros H. rewrite <- (truthy_toLowerCase d1), <- (truthy_toLowerCase d2), H.
  reflexivity.
Qed.

(** X1. Search terms that differ only in letter case select the same
    profiles and the same projects. *)
Theorem search_term_case_insensitive
    (d1 d2 : string) (peopleFilters : PeopleFilters)
    (projectFilters : ProjectFilters) :
  Js.toLowerCase d1 = Js.toLowerCase d2 ->
  (forall R, profilePredicate d1 peopleFilters R = profilePredicate d2 peopleFilters R)
  /\ (forall R, projectPredicate d1 projectFilters R = projectPredicate d2 projectFilters R)
  /\ (forall allProfiles,
        filteredProfiles allProfiles d1 peopleFilters
        = filteredProfiles allProfiles d2 peopleFilters)
  /\ (forall allProjects,
        filteredProjects allProjects d1 projectFilters
        = filteredProjects allProjects d2 projectFilters).
Proof.
  intros H. pose proof (truthy_of_lower d1 d2 H) as Ht.
  assert (Hp : forall R, profilePredicate d1 peopleFilters R
                         = profilePredicate d2 peopleFilters R).
  { intros R. unfold profilePredicate. rewrite H, Ht. reflexivity. }
  assert (Hj : forall R, projectPredicate d1 projectFilters R
                         = projectPredicate d2 projectFilters R).
  { intros R. unfold projectPredicate. rewrite H, Ht. reflexivity. }
  split; [exact Hp|]. split; [exact Hj|]. split; intros l.
  - unfold filteredProfiles. apply filter_ext. exact Hp.
  - unfold filteredProjects. apply filter_ext. exact Hj.
Qed.

Lemma search_term_case_insensitive_witness :
  filteredProfiles (map profileOf ["a"; "b"]) "ADA Love" defaultPeopleFilters
  = filteredProfiles (map profileOf ["a"; "b"]) "ada love" defaultPeopleFilters.
Proof.
  apply (search_term_case_insensitive "ADA Love" "ada love"
           defaultPeopleFilters defaultProjectFilters).
  reflexivity.
Defined.

(** A facet passes when some selected value occurs in the record. *)
Lemma arrIncludes_elem (l : list string) (x : string) :
  Js.arrIncludes l x = true <-> x ∈ l.
Proof.
  unfold Js.arrIncludes. rewrite existsb_exists. split.
  - intros (y & Hy & Heq). apply String.eqb_eq in Heq. subst y.
    apply list_elem_of_In. exact Hy.
  - intros Hx. exists x. split; [apply list_elem_of_In; exact Hx|].
    apply String.eqb_refl.
Qed.

Lemma someSelectedIn_spec (selected : list string) (field : option (list string)) :
  someSelectedIn selected field = true
  <-> exists x l, x ∈ selected /\ field = Some l /\ x ∈ l.
Proof.
  unfold someSelectedIn. rewrite existsb_exists. split.
  - intros (x & Hx & Hin). destruct field as [l|]; [|discriminate].
    exists x, l. split; [apply list_elem_of_In; exact Hx|].
    split; [reflexivity|]. apply arrIncludes_elem. exact Hin.
  - intros (x & l & Hx & -> & Hl). exists x.
    split; [apply list_elem_of_In; exact Hx|]. apply arrIncludes_elem. exact Hl.
Qed.

Lemma someSelectedIn_same_set (s1 s2 : list string) (field : option (list string)) :
  (forall x, x ∈ s1 <-> x ∈ s2) ->
  someSelectedIn s1 field = someSelectedIn s2 field.
Proof.
  intros Hset. apply eq_true_iff_eq. rewrite !someSelectedIn_spec.
  split; intros (x & l & Hx & Hf & Hl); exists x, l;
    (split; [apply Hset; exact Hx|]); split; assumption.
Qed.

Lemma length_pos_same_set {A} (s1 s2 : list A) :
  (forall x, x ∈ s1 <-> x ∈ s2) ->
  (0 <? Z.of_nat (length s1)) = (0 <? Z.of_nat (length s2)).
Proof.
  intros Hset. destruct s1 as [|a s1], s2 as [|b s2]; try reflexivity.
  - exfalso. apply (not_elem_of_nil b). apply Hset. left.
  - exfalso. apply (not_elem_of_nil a). apply Hset. left.
Qed.

(** X2. The facets work on sets: two filter values whose selected
    skills hold the same elements, whose selected industries hold the
    same elements and whose openToWork flags agree accept the same
    profiles, whatever the order and the repetitions in the selections. *)
Theorem facets_depend_on_sets
    (debouncedPeopleSearch : string) (f1 f2 : PeopleFilters) (R : Profile.t) :
  (forall x, x ∈ pf_skills f1 <-> x ∈ pf_skills f2) ->
  (forall x, x ∈ pf_industries f1 <-> x ∈ pf_industries f2) ->
  pf_openToWork f1 = pf_openToWork f2 ->
  profilePredicate debouncedPeopleSearch f1 R
  = profilePredicate debouncedPeopleSearch f2 R.
Proof.
  intros Hs Hi Ho. unfold profilePredicate.
  rewrite (length_pos_same_set _ _ Hs), (length_pos_same_set _ _ Hi).
  rewrite (someSelectedIn_same_set _ _ (Profile.skills R) Hs).
  rewrite (someSelectedIn_same_set _ _ (Profile.industry_expertise R) Hi).
  rewrite Ho. reflexivity.
Qed.

Lemma facets_depend_on_sets_witness :
  profilePredicate "" (mkPeopleFilters "" ["Go"; "Rust"] [] false) (profileOf "a")
  = profilePredicate "" (mkPeopleFilters "x" ["Rust"; "Go"; "Go"] [] false)
      (profileOf "a").
Proof.
  apply facets_depend_on_sets; simpl.
  - intros x. rewrite !elem_of_cons. rewrite elem_of_nil. tauto.
  - intros x. reflexivity.
  - reflexivity.
Defined.

(** ** The derived cross-filter and the project filter *)

Lemma someSelectedIn_missingOrEmpty (selected : list string)
    (field : option (list string)) :
  missingOrEmpty field = true -> someSelectedIn selected field = false.
Proof.
  intros Hm. apply not_true_is_false. rewrite someSelectedIn_spec.
  intros (x & l & _ & -> & Hl). destruct l; [|discriminate].
  apply not_elem_of_nil in Hl. exact Hl.
Qed.

Lemma hasSearch_truthy (d : string) : hasSearch d = true -> Js.truthy d = true.
Proof. unfold hasSearch. intros H. apply andb_true_iff in H. tauto. Qed.

Lemma personProjectPredicate_agrees
    (debouncedProjectSearch : string) (projectFilters : ProjectFilters)
    (R : Project.t) :
  personProjectPredicate debouncedProjectSearch projectFilters R
  = projectPredicate (effectiveSearch debouncedProjectSearch) projectFilters R.
Proof.
  unfold personProjectPredicate, projectPredicate, effectiveSearch.
  destruct (hasSearch debouncedProjectSearch) eqn:Hs.
  - rewrite (hasSearch_truthy _ Hs). simpl.
    destruct (negb _ && negb _ && negb _ && negb _); [reflexivity|].
    destruct (0 <? Z.of_nat (length (jf_skills projectFilters))); simpl.
    + destruct (missingOrEmpty (Project.skills R)) eqn:Hm; simpl.
      * rewrite (someSelectedIn_missingOrEmpty _ _ Hm). reflexivity.
      * destruct (someSelectedIn (jf_skills projectFilters) (Project.skills R));
          simpl; [|reflexivity].
        destruct (0 <? Z.of_nat (length (jf_sectors projectFilters))); simpl;
          [|reflexivity].
        destruct (missingOrEmpty (Project.sectors R)) eqn:Hc; simpl;
          [rewrite (someSelectedIn_missingOrEmpty _ _ Hc)|]; reflexivity.
    + destruct (0 <? Z.of_nat (length (jf_sectors projectFilters))); simpl;
        [|reflexivity].
      destruct (missingOrEmpty (Project.sectors R)) eqn:Hc; simpl;
        [rewrite (someSelectedIn_missingOrEmpty _ _ Hc)|]; reflexivity.
  - simpl.
    destruct (0 <? Z.of_nat (length (jf_skills projectFilters))); simpl.
    + destruct (missingOrEmpty (Project.skills R)) eqn:Hm; simpl.
      * rewrite (someSelectedIn_missingOrEmpty _ _ Hm). reflexivity.
      * destruct (someSelectedIn (jf_skills projectFilters) (Project.skills R));
          simpl; [|reflexivity].
        destruct (0 <? Z.of_nat (length (jf_sectors projectFilters))); simpl;
          [|reflexivity].
        destruct (missingOrEmpty (Project.sectors R)) eqn:Hc; simpl;
          [rewrite (someSelectedIn_missingOrEmpty _ _ Hc)|]; reflexivity.
    + destruct (0 <? Z.of_nat (length (jf_sectors projectFilters))); simpl;
        [|reflexivity].
      destruct (missingOrEmpty (Project.sectors R)) eqn:Hc; simpl;
        [rewrite (someSelectedIn_missingOrEmpty _ _ Hc)|]; reflexivity.
Qed.

(** X3. The filter applied to the projects embedded in a person is the
    filter of the project list, except that a blank search term is
    ignored: on the embedded list [filteredPersonProjects] returns what
    [filteredProjects] returns for the effective search term. *)
Theorem person_filter_is_project_filter
    (p : Profile.t) (projectsArray : list Project.t)
    (debouncedProjectSearch : string) (projectFilters : ProjectFilters) :
  Profile.projects p = Some projectsArray ->
  filteredPersonProjects (Some p) debouncedProjectSearch projectFilters
  = filteredProjects projectsArray (effectiveSearch debouncedProjectSearch)
      projectFilters.
Proof.
  intros Hp. unfold filteredPersonProjects, filteredProjects. rewrite Hp.
  destruct (negb (hasSearch debouncedProjectSearch) && _ && _) eqn:Hnone.
  - symmetry. apply filter_all_true. intros R.
    apply andb_true_iff in Hnone as [Hnone Hc].
    apply andb_true_iff in Hnone as [Hs Hk].
    apply negb_true_iff in Hs, Hk, Hc.
    unfold projectPredicate, effectiveSearch. rewrite Hs, Hk, Hc. reflexivity.
  - apply filter_ext. intros R. apply personProjectPredicate_agrees.
Qed.

Lemma person_filter_is_project_filter_witness :
  filteredPersonProjects (Some personWithFive) "P3" defaultProjectFilters
  = filteredProjects fiveProjects (effectiveSearch "P3") defaultProjectFilters.
Proof.
  apply (person_filter_is_project_filter personWithFive fiveProjects).
  reflexivity.
Defined.

(** A blank term really differs between the two filters: the project
    list searches for the blanks, the embedded list does not search. *)
Example blank_term_differs :
  filteredProjects fiveProjects "  " defaultProjectFilters = []
  /\ filteredPersonProjects (Some personWithFive) "  " defaultProjectFilters
     = fiveProjects.
Proof. split; reflexivity. Qed.

(** ** Relaxing a filter *)

Lemma filter_sublist_impl {A} (f g : A -> bool) (l : list A) :
  (forall x, f x = true -> g x = true) ->
  sublist (List.filter f l) (List.filter g l).
Proof.
  intros Himpl. induction l as [|x l IH]; simpl; [constructor|].
  destruct (f x) eqn:Hf.
  - rewrite (Himpl x Hf). apply sublist_skip. exact IH.
  - destruct (g x); [apply sublist_cons|]; exact IH.
Qed.

(** The profile predicate as a conjunction of its four guards. *)
Lemma profilePredicate_true_iff d pf R :
  profilePredicate d pf R = true <->
  (Js.truthy d
   && (negb (fieldMatches (Profile.name R) (Js.toLowerCase d))
       && negb (fieldMatches (Profile.bio R) (Js.toLowerCase d))
       && negb (someSkillMatches (Profile.skills R) (Js.toLowerCase d))) = false)
  /\ ((0 <? Z.of_nat (length (pf_skills pf)))
      && negb (someSelectedIn (pf_skills pf) (Profile.skills R)) = false)
  /\ ((0 <? Z.of_nat (length (pf_industries pf)))
      && negb (someSelectedIn (pf_industries pf) (Profile.industry_expertise R))
      = false)
  /\ (pf_openToWork pf && negb (Profile.open_to_work R) = false).
Proof.
  unfold profilePredicate.
  destruct (Js.truthy d && _); [split; [discriminate | intros [H _]; discriminate]|].
  destruct ((0 <? Z.of_nat (length (pf_skills pf))) && _);
    [split; [discriminate | intros (_ & H & _); discriminate]|].
  destruct ((0 <? Z.of_nat (length (pf_industries pf))) && _);
    [split; [discriminate | intros (_ & _ & H & _); discriminate]|].
  destruct (pf_openToWork pf && _);
    [split; [discriminate | intros (_ & _ & _ & H); discriminate]|].
  split; [intros _; repeat split | reflexivity].
Qed.

(** X4. Clearing one component of the people filter never removes a
    profile: a profile accepted by a filter is accepted after the search
    term is emptied, after the skill selection is emptied, after the
    industry selection is emptied, and after openToWork is switched off;
    so every filtered list is a sub-sequence of each relaxed one. *)
Theorem relaxing_keeps_profiles
    (d : string) (pf : PeopleFilters) (allProfiles : list Profile.t) :
  let noSkills := mkPeopleFilters (pf_search pf) [] (pf_industries pf) (pf_openToWork pf) in
  let noIndustries := mkPeopleFilters (pf_search pf) (pf_skills pf) [] (pf_openToWork pf) in
  let anyAvailability := mkPeopleFilters (pf_search pf) (pf_skills pf) (pf_industries pf) false in
  sublist (filteredProfiles allProfiles d pf) (filteredProfiles allProfiles "" pf)
  /\ sublist (filteredProfiles allProfiles d pf) (filteredProfiles allProfiles d noSkills)
  /\ sublist (filteredProfiles allProfiles d pf) (filteredProfiles allProfiles d noIndustries)
  /\ sublist (filteredProfiles allProfiles d pf) (filteredProfiles allProfiles d anyAvailability).
Proof.
  intros noSkills noIndustries anyAvailability. unfold filteredProfiles.
  split; [|split; [|split]]; apply filter_sublist_impl; intros R;
    rewrite !profilePredicate_true_iff; simpl;
    intros (H1 & H2 & H3 & H4); repeat split; assumption.
Qed.

(** ** Facet checkboxes *)

Lemma elem_of_filter_neq (x y : string) (l : list string) :
  y ∈ List.filter (fun s => negb (String.eqb s x)) l <-> y ∈ l /\ y <> x.
Proof.
  rewrite !list_elem_of_In, filter_In, negb_true_iff, String.eqb_neq. reflexivity.
Qed.

Lemma filter_neq_absent (x : string) (l : list string) :
  x ∉ l -> List.filter (fun s => negb (String.eqb s x)) l = l.
Proof.
  induction l as [|y l IH]; intros Hx; simpl; [reflexivity|].
  apply not_elem_of_cons in Hx as [Hne Hx].
  assert (E : String.eqb y x = false) by (apply String.eqb_neq; congruence).
  rewrite E, (IH Hx). reflexivity.
Qed.

Lemma filter_neq_NoDup (x : string) (l : list string) :
  NoDup l -> NoDup (List.filter (fun s => negb (String.eqb s x)) l).
Proof.
  intros Hnd. eapply sublist_NoDup; [exact Hnd | apply filter_sublist].
Qed.

(** X5. A click on a facet checkbox flips the membership of its value in
    the selection and leaves every other value as it was; it keeps a
    repetition-free selection repetition-free; and two clicks on a value
    that was not selected give back the selection. *)
Theorem checkbox_click (x : string) (selected : list string) :
  (x ∈ clickCheckbox x selected <-> x ∉ selected)
  /\ (forall y, y <> x -> (y ∈ clickCheckbox x selected <-> y ∈ selected))
  /\ (NoDup selected -> NoDup (clickCheckbox x selected))
  /\ (x ∉ selected -> clickCheckbox x (clickCheckbox x selected) = selected).
Proof.
  unfold clickCheckbox, onCheckedChange.
  destruct (Js.arrIncludes selected x) eqn:Hin; simpl.
  - apply arrIncludes_elem in Hin.
    split; [|split; [|split]].
    + rewrite elem_of_filter_neq. split; [intros [_ H]; congruence | tauto].
    + intros y Hy. rewrite elem_of_filter_neq. tauto.
    + apply filter_neq_NoDup.
    + intros Hout. contradiction.
  - assert (Hout : x ∉ selected).
    { intros H. apply arrIncludes_elem in H. congruence. }
    split; [|split; [|split]].
    + rewrite elem_of_app, list_elem_of_singleton. tauto.
    + intros y Hy. rewrite elem_of_app, list_elem_of_singleton. tauto.
    + intros Hnd. apply NoDup_app. split; [exact Hnd|]. split.
      * intros y Hy Hy'. apply list_elem_of_singleton in Hy'. subst y. contradiction.
      * apply NoDup_singleton.
    + intros _.
      assert (Hin' : Js.arrIncludes (selected ++ [x]) x = true).
      { apply arrIncludes_elem. rewrite elem_of_app, list_elem_of_singleton. tauto. }
      rewrite Hin'. simpl. rewrite List.filter_app. simpl.
      rewrite String.eqb_refl. simpl. rewrite filter_neq_absent by exact Hout.
      apply app_nil_r.
Qed.

Lemma checkbox_click_witness :
  NoDup (clickCheckbox "Go" ["Rust"; "Python"])
  /\ clickCheckbox "Go" (clickCheckbox "Go" ["Rust"; "Python"]) = ["Rust"; "Python"].
Proof.
  destruct (checkbox_click "Go" ["Rust"; "Python"]) as (_ & _ & Hnd & Hrt).
  split.
  - apply Hnd. apply (bool_decide_unpack _). vm_compute. exact I.
  - apply Hrt. apply (bool_decide_unpack _). vm_compute. exact I.
Defined.

(** ** The navigator at the edges *)

Lemma at_None_iff {A} (l : list A) (i : Z) :
  Js.at_ l i = None <-> i < 0 \/ Z.of_nat (length l) <= i.
Proof.
  unfold Js.at_. destruct (Z.ltb_spec i 0) as [Hneg|Hpos].
  - split; [intros _; left; exact Hneg | reflexivity].
  - rewrite lookup_ge_None. split; [intros H; right; lia | intros [H|H]; lia].
Qed.

Lemma handlePrevious_throws_iff (s : PageState) :
  handlePrevious s = TypeError
  <-> currentIndex s > 0 /\ currentLength s < currentIndex s.
Proof.
  unfold handlePrevious, currentLength.
  destruct (Z.gtb_spec (currentIndex s) 0) as [Hpos|Hle].
  - destruct (viewMode s).
    + destruct (Js.at_ (allProfiles s) (currentIndex s - 1)) eqn:E.
      * split; [discriminate|]. intros [_ H].
        assert (Js.at_ (allProfiles s) (currentIndex s - 1) = None)
          by (apply at_None_iff; lia). congruence.
      * apply at_None_iff in E. split; [intros _; lia | reflexivity].
    + destruct (Js.at_ (allProjects s) (currentIndex s - 1)) eqn:E.
      * split; [discriminate|]. intros [_ H].
        assert (Js.at_ (allProjects s) (currentIndex s - 1) = None)
          by (apply at_None_iff; lia). congruence.
      * apply at_None_iff in E. split; [intros _; lia | reflexivity].
  - split; [discriminate | intros [H _]; lia].
Qed.

Lemma handleNext_throws_iff (s : PageState) :
  handleNext s = TypeError <-> currentIndex s < -1.
Proof.
  unfold handleNext.
  destruct (viewMode s).
  - destruct (Z.ltb_spec (currentIndex s) (Z.of_nat (length (allProfiles s)) - 1))
      as [Hlt|Hge].
    + destruct (Js.at_ (allProfiles s) (currentIndex s + 1)) eqn:E.
      * split; [discriminate|]. intros H.
        assert (Js.at_ (allProfiles s) (currentIndex s + 1) = None)
          by (apply at_None_iff; lia). congruence.
      * apply at_None_iff in E. split; [intros _; lia | reflexivity].
    + split; [discriminate | intros H; lia].
  - destruct (Z.ltb_spec (currentIndex s) (Z.of_nat (length (allProjects s)) - 1))
      as [Hlt|Hge].
    + destruct (Js.at_ (allProjects s) (currentIndex s + 1)) eqn:E.
      * split; [discriminate|]. intros H.
        assert (Js.at_ (allProjects s) (currentIndex s + 1) = None)
          by (apply at_None_iff; lia). congruence.
      * apply at_None_iff in E. split; [intros _; lia | reflexivity].
    + split; [discriminate | intros H; lia].
Qed.

Lemma navigator_safe_in_range (s : PageState) :
  -1 <= currentIndex s <= currentLength s ->
  handlePrevious s <> TypeError /\ handleNext s <> TypeError.
Proof.
  intros Hrange. split; intros H.
  - apply handlePrevious_throws_iff in H. lia.
  - apply handleNext_throws_iff in H. lia.
Qed.

(** X6. The navigator throws exactly at indexes outside the list:
    [handlePrevious] throws a TypeError if and only if [currentIndex] is
    positive and larger than the length of the list, [handleNext] if and
    only if [currentIndex] is below -1; with -1 <= currentIndex <=
    length neither throws. *)
Theorem navigator_throws_iff (s : PageState) :
  (handlePrevious s = TypeError
   <-> currentIndex s > 0 /\ currentLength s < currentIndex s)
  /\ (handleNext s = TypeError <-> currentIndex s < -1)
  /\ (-1 <= currentIndex s <= currentLength s ->
      handlePrevious s <> TypeError /\ handleNext s <> TypeError).
Proof.
  split; [apply handlePrevious_throws_iff|].
  split; [apply handleNext_throws_iff | apply navigator_safe_in_range].
Qed.

Lemma navigator_throws_iff_witness :
  handlePrevious showingX <> TypeError /\ handleNext showingX <> TypeError.
Proof.
  apply (navigator_throws_iff showingX). vm_compute. split; discriminate.
Defined.

(** An index kept from a longer list makes the left arrow throw. *)
Example previous_throws_on_retained_index :
  handlePrevious
    (currentIndexEffect
       (applyRefresh
          (RefreshProfiles
             (Fulfilled (mkListResponse true [profileOf "a"] (Some 1) None)))
          showingX)) = TypeError.
Proof. reflexivity. Qed.

(** X7. With an unknown index (-1) and a list that is not empty,
    [handleNext], which the right arrow runs outside the grid layout,
    opens the first item of the list, although [canGoNext] is false and
    the Next button is disabled. *)
Theorem next_from_unknown_index (s : PageState) (first : string) :
  currentIndex s = -1 ->
  head (activeSlugs s) = Some first ->
  handleNext s = Ok (navigate (mkRoute (viewMode s) (Some first)) s)
  /\ canGoNext (currentIndex s) (currentLength s) = false
  /\ (layoutView s <> LGrid ->
      handleKeyDown ArrowRight s
      = Ok (navigate (mkRoute (viewMode s) (Some first)) s)).
Proof.
  intros Hi Hfirst.
  assert (Hnext : handleNext s = Ok (navigate (mkRoute (viewMode s) (Some first)) s)).
  { apply handleNext_steps.
    - rewrite Hi. unfold activeSlugs, currentLength in *.
      destruct (viewMode s).
      + destruct (allProfiles s); [discriminate | simpl; lia].
      + destruct (allProjects s); [discriminate | simpl; lia].
    - rewrite Hi. unfold Js.at_. simpl.
      destruct (activeSlugs s); [discriminate | exact Hfirst]. }
  split; [exact Hnext|]. split.
  - rewrite Hi. reflexivity.
  - intros Hl. unfold handleKeyDown.
    destruct (layoutView s); [contradiction | exact Hnext | exact Hnext].
Qed.

Lemma next_from_unknown_index_witness :
  handleNext (set_currentIndex (-1) showingX)
  = Ok (navigate (mkRoute People (Some "a")) (set_currentIndex (-1) showingX)).
Proof.
  apply (proj1 (next_from_unknown_index (set_currentIndex (-1) showingX) "a"
                  eq_refl eq_refl)).
Defined.

(** ** A detail load that resolves *)

Lemma findIndex_slug_profiles (slug : string) (l : list Profile.t) :
  let index := Js.findIndex (fun p => String.eqb (Profile.slug p) slug) l in
  (index = -1 /\ slug ∉ map Profile.slug l)
  \/ (0 <= index < Z.of_nat (length l)
      /\ map Profile.slug l !! Z.to_nat index = Some slug).
Proof.
  intros index.
  pose proof (findIndex_lower (fun p => String.eqb (Profile.slug p) slug) l) as Hlow.
  fold index in Hlow.
  destruct (Z.eq_dec index (-1)) as [Hneg|Hpos].
  - left. split; [exact Hneg|]. intros Hin.
    apply list_elem_of_fmap in Hin as (q & Hq & Hin).
    destruct (list_find (fun z => String.eqb (Profile.slug z) slug = true) l)
      as [[j y]|] eqn:Hfind.
    + apply list_find_Some in Hfind as (Hj & Hy & Hbefore).
      assert (Hfi : Js.findIndex (fun p => String.eqb (Profile.slug p) slug) l
                    = Z.of_nat j).
      { apply (findIndex_first _ l j y Hj Hy).
        intros k z Hk Hz. apply not_true_is_false. apply (Hbefore k z Hz Hk). }
      unfold index in Hneg. lia.
    + apply list_find_None in Hfind.
      rewrite Forall_forall in Hfind. apply (Hfind q Hin).
      apply String.eqb_eq. congruence.
  - right. assert (H0 : 0 <= index) by lia.
    destruct (findIndex_found _ l H0) as (x & Hx & Hfx). fold index in Hx.
    split.
    + split; [exact H0|]. apply lookup_lt_Some in Hx. lia.
    + rewrite list_lookup_fmap, Hx. simpl. f_equal. apply String.eqb_eq. exact Hfx.
Qed.

Lemma findIndex_slug_projects (slug : string) (l : list Project.t) :
  let index := Js.findIndex (fun p => String.eqb (Project.slug p) slug) l in
  (index = -1 /\ slug ∉ map Project.slug l)
  \/ (0 <= index < Z.of_nat (length l)
      /\ map Project.slug l !! Z.to_nat index = Some slug).
Proof.
  intros index.
  pose proof (findIndex_lower (fun p => String.eqb (Project.slug p) slug) l) as Hlow.
  fold index in Hlow.
  destruct (Z.eq_dec index (-1)) as [Hneg|Hpos].
  - left. split; [exact Hneg|]. intros Hin.
    apply list_elem_of_fmap in Hin as (q & Hq & Hin).
    destruct (list_find (fun z => String.eqb (Project.slug z) slug = true) l)
      as [[j y]|] eqn:Hfind.
    + apply list_find_Some in Hfind as (Hj & Hy & Hbefore).
      assert (Hfi : Js.findIndex (fun p => String.eqb (Project.slug p) slug) l
                    = Z.of_nat j).
      { apply (findIndex_first _ l j y Hj Hy).
        intros k z Hk Hz. apply not_true_is_false. apply (Hbefore k z Hz Hk). }
      unfold index in Hneg. lia.
    + apply list_find_None in Hfind.
      rewrite Forall_forall in Hfind. apply (Hfind q Hin).
      apply String.eqb_eq. congruence.
  - right. assert (H0 : 0 <= index) by lia.
    destruct (findIndex_found _ l H0) as (x & Hx & Hfx). fold index in Hx.
    split.
    + split; [exact H0|]. apply lookup_lt_Some in Hx. lia.
    + rewrite list_lookup_fmap, Hx. simpl. f_equal. apply String.eqb_eq. exact Hfx.
Qed.


(** X8. When the route carries a slug and the detail request of the
    active entity mode resolves it and brings the full list, the slug
    effect leaves a consistent detail state: detail layout, no error, not
    loading, the page body rendered; the total equals the length of the
    list; [currentIndex] is -1 when the slug is not in the list and
    otherwise a position of the list that holds the slug; and neither
    navigator handler throws. *)
Theorem resolved_detail_load
    (s : PageState) (slug : string) (answers : DetailAnswers) :
  slugParam s = Some slug -> Js.truthy slug = true ->
  resolvedWithList (viewMode s) answers = true ->
  let s' := slugEffect answers s in
  layoutView s' = LDetail /\ loading s' = false /\ error s' = None
  /\ render s' = BrowseScreen
  /\ viewMode s' = viewMode s
  /\ activeTotal s' = currentLength s'
  /\ ((currentIndex s' = -1 /\ slug ∉ activeSlugs s')
      \/ (0 <= currentIndex s' < currentLength s'
          /\ activeSlugs s' !! Z.to_nat (currentIndex s') = Some slug))
  /\ handlePrevious s' <> TypeError /\ handleNext s' <> TypeError.
Proof.
  intros Hslug Ht Hres s'.
  assert (Hcore :
    layoutView s' = LDetail /\ loading s' = false /\ error s' = None
    /\ render s' = BrowseScreen
    /\ viewMode s' = viewMode s
    /\ activeTotal s' = currentLength s'
    /\ ((currentIndex s' = -1 /\ slug ∉ activeSlugs s')
        \/ (0 <= currentIndex s' < currentLength s'
            /\ activeSlugs s' !! Z.to_nat (currentIndex s') = Some slug))).
  { unfold s', slugEffect, slugEffectStart. rewrite Hslug. simpl. rewrite Ht. simpl.
    unfold resolvedWithList in Hres.
    destruct (viewMode s) eqn:Hvm.
    - destruct (personAnswer answers) as [[[data|] allData]|]; try discriminate.
      unfold commitPersonAndList. rewrite Hres.
      unfold render, activeTotal, currentLength, activeSlugs, slugParam. simpl.
      rewrite Hvm.
      repeat (split; [reflexivity|]).
      pose proof (findIndex_slug_profiles slug (lr_data allData)) as Hidx.
      cbv zeta in Hidx.
      destruct Hidx as [[Hneg Hout]|[Hrange Hat]].
      + left. rewrite Hneg. simpl. split; [reflexivity | exact Hout].
      + right.
        destruct (Z.geb_spec
                    (Js.findIndex (fun p => String.eqb (Profile.slug p) slug)
                       (lr_data allData)) 0); [|lia].
        split; [exact Hrange | exact Hat].
    - destruct (projectAnswer answers) as [[[data|] allData]|]; try discriminate.
      unfold commitProjectAndList. rewrite Hres.
      unfold render, activeTotal, currentLength, activeSlugs, slugParam. simpl.
      rewrite Hvm.
      repeat (split; [reflexivity|]).
      pose proof (findIndex_slug_projects slug (lr_data allData)) as Hidx.
      cbv zeta in Hidx.
      destruct Hidx as [[Hneg Hout]|[Hrange Hat]].
      + left. rewrite Hneg. simpl. split; [reflexivity | exact Hout].
      + right.
        destruct (Z.geb_spec
                    (Js.findIndex (fun p => String.eqb (Project.slug p) slug)
                       (lr_data allData)) 0); [|lia].
        split; [exact Hrange | exact Hat]. }
  destruct Hcore as (H1 & H2 & H3 & H4 & H5 & H6 & H7).
  repeat (split; [assumption|]).
  apply navigator_safe_in_range. destruct H7 as [[Hi _]|[Hi _]]; [|lia].
  rewrite Hi. unfold currentLength. destruct (viewMode s'); lia.
Qed.

Lemma resolved_detail_load_witness :
  let answers :=
    mkAnswers
      (Fulfilled (Some (profileOf "b"),
                  mkListResponse true (map profileOf ["a"; "b"; "c"]) None None))
      Rejected in
  let s' := slugEffect answers (set_location (mkRoute People (Some "b")) gridOf17) in
  currentIndex s' = 1 /\ render s' = BrowseScreen.
Proof.
  intros answers s'.
  destruct (resolved_detail_load
              (set_location (mkRoute People (Some "b")) gridOf17) "b" answers
              eq_refl eq_refl eq_refl)
    as (_ & _ & _ & Hrender & _).
  split; [reflexivity | exact Hrender].
Defined.

(** ** What is rendered *)

(** X9. The four screens are told apart as follows: while loading, the
    page is blank; without a slug in the route, and not loading, the page
    body is rendered, never the error or the not-found screen; and in
    detail layout with a slug the page body is rendered only when a
    person or a project is loaded. *)
Theorem render_screens (s : PageState) :
  (loading s = true -> render s = BlankScreen)
  /\ (loading s = false -> Js.truthyOpt (slugParam s) = false ->
      render s = BrowseScreen)
  /\ (render s = BrowseScreen -> layoutView s = LDetail ->
      Js.truthyOpt (slugParam s) = true ->
      person s <> None \/ project s <> None)
  /\ (render s = NotFoundScreen ->
      person s = None /\ project s = None /\ layoutView s = LDetail
      /\ Js.truthyOpt (error s) = false).
Proof.
  unfold render. split; [|split; [|split]].
  - intros ->. reflexivity.
  - intros -> ->. rewrite !andb_false_r. reflexivity.
  - intros Hr Hl Hs. rewrite Hl, Hs in Hr.
    destruct (loading s); [discriminate|].
    destruct (Js.truthyOpt (error s)); simpl in Hr; [discriminate|].
    destruct (person s); [left; discriminate|].
    destruct (project s); [right; discriminate|]. discriminate.
  - intros Hr. destruct (loading s); [discriminate|].
    destruct (Js.truthyOpt (error s)) eqn:He; simpl in Hr.
    + destruct (Js.truthyOpt (slugParam s)); simpl in Hr; [discriminate|].
      rewrite !andb_false_r in Hr. discriminate.
    + destruct (person s), (project s); simpl in Hr; try discriminate.
      destruct (Js.truthyOpt (slugParam s)); simpl in Hr; [|discriminate].
      destruct (layoutView s); try discriminate. repeat split.
Qed.

Lemma render_screens_witness :
  render (set_loading true showingX) = BlankScreen.
Proof.
  apply (proj1 (render_screens (set_loading true showingX))). reflexivity.
Defined.

(** ** Prefetch *)

Lemma truthySlugAt_elem (slugs : list string) (i : Z) (sl : string) :
  sl ∈ truthySlugAt slugs i <-> Js.at_ slugs i = Some sl /\ Js.truthy sl = true.
Proof.
  unfold truthySlugAt. destruct (Js.at_ slugs i) as [x|].
  - destruct (Js.truthy x) eqn:Hx.
    + rewrite list_elem_of_singleton. split.
      * intros ->. split; [reflexivity | exact Hx].
      * intros [[= ->] _]. reflexivity.
    + rewrite elem_of_nil. split; [contradiction|].
      intros [[= ->] H]. congruence.
  - rewrite elem_of_nil. split; [contradiction | intros [H _]; discriminate].
Qed.

Lemma truthySlugAt_length (slugs : list string) (i : Z) :
  (length (truthySlugAt slugs i) <= 1)%nat.
Proof.
  unfold truthySlugAt. destruct (Js.at_ slugs i) as [x|]; [|simpl; lia].
  destruct (Js.truthy x); simpl; lia.
Qed.

(** X10. The prefetch asks for what the navigator can open, and nothing
    else: a request for [(mode, sl)] is issued if and only if the layout
    is detail, [currentIndex] is known, [mode] is the active entity mode,
    [sl] is truthy and [sl] is the slug after [currentIndex] with
    [canGoNext], or the slug before it with [canGoPrevious].  At most two
    requests are issued. *)
Theorem prefetch_targets (s : PageState) (mode : ViewMode) (sl : string) :
  ((mode, sl) ∈ prefetchAdjacent s
   <-> layoutView s = LDetail /\ 0 <= currentIndex s /\ mode = viewMode s
       /\ Js.truthy sl = true
       /\ ((canGoNext (currentIndex s) (currentLength s) = true
            /\ Js.at_ (activeSlugs s) (currentIndex s + 1) = Some sl)
           \/ (canGoPrevious (currentIndex s) = true
               /\ Js.at_ (activeSlugs s) (currentIndex s - 1) = Some sl)))
  /\ (length (prefetchAdjacent s) <= 2)%nat.
Proof.
  unfold prefetchAdjacent, canGoNext, canGoPrevious, currentLength, activeSlugs.
  destruct (Z.ltb_spec (currentIndex s) 0) as [Hneg|Hpos]; simpl.
  { split; [|lia]. rewrite elem_of_nil. split; [contradiction|].
    intros (_ & H & _). lia. }
  destruct (layoutView s) eqn:Hl; simpl;
    try (split; [|lia]; rewrite elem_of_nil; split;
         [contradiction | intros (H & _); discriminate]).
  assert (Hge : (currentIndex s >=? 0) = true) by (apply Z.geb_le; lia).
  rewrite Hge. simpl.
  destruct (viewMode s).
  - split.
    + rewrite list_elem_of_fmap. split.
      * intros (x & [= -> ->] & Hx). split; [reflexivity|]. split; [exact Hpos|].
        split; [reflexivity|].
        apply elem_of_app in Hx as [Hx|Hx].
        -- destruct (currentIndex s <? _) eqn:E; [|apply elem_of_nil in Hx; contradiction].
           apply truthySlugAt_elem in Hx as [Hat Htr].
           split; [exact Htr|]. left. split; [reflexivity | exact Hat].
        -- destruct (currentIndex s >? 0) eqn:E; [|apply elem_of_nil in Hx; contradiction].
           apply truthySlugAt_elem in Hx as [Hat Htr].
           split; [exact Htr|]. right. split; [reflexivity | exact Hat].
      * intros (_ & _ & -> & Htr & [[Hc Hat]|[Hc Hat]]); exists sl;
          (split; [reflexivity|]); apply elem_of_app.
        -- left. rewrite Hc. apply truthySlugAt_elem. split; assumption.
        -- right. rewrite Hc. apply truthySlugAt_elem. split; assumption.
    + rewrite length_map, length_app.
      pose proof (truthySlugAt_length (map Profile.slug (allProfiles s))
                    (currentIndex s + 1)).
      pose proof (truthySlugAt_length (map Profile.slug (allProfiles s))
                    (currentIndex s - 1)).
      destruct (currentIndex s <? _), (currentIndex s >? 0); simpl; lia.
  - split.
    + rewrite list_elem_of_fmap. split.
      * intros (x & [= -> ->] & Hx). split; [reflexivity|]. split; [exact Hpos|].
        split; [reflexivity|].
        apply elem_of_app in Hx as [Hx|Hx].
        -- destruct (currentIndex s <? _) eqn:E; [|apply elem_of_nil in Hx; contradiction].
           apply truthySlugAt_elem in Hx as [Hat Htr].
           split; [exact Htr|]. left. split; [reflexivity | exact Hat].
        -- destruct (currentIndex s >? 0) eqn:E; [|apply elem_of_nil in Hx; contradiction].
           apply truthySlugAt_elem in Hx as [Hat Htr].
           split; [exact Htr|]. right. split; [reflexivity | exact Hat].
      * intros (_ & _ & -> & Htr & [[Hc Hat]|[Hc Hat]]); exists sl;
          (split; [reflexivity|]); apply elem_of_app.
        -- left. rewrite Hc. apply truthySlugAt_elem. split; assumption.
        -- right. rewrite Hc. apply truthySlugAt_elem. split; assumption.
    + rewrite length_map, length_app.
      pose proof (truthySlugAt_length (map Project.slug (allProjects s))
                    (currentIndex s + 1)).
      pose proof (truthySlugAt_length (map Project.slug (allProjects s))
                    (currentIndex s - 1)).
      destruct (currentIndex s <? _), (currentIndex s >? 0); simpl; lia.
Qed.

Example prefetch_around_x :
  prefetchAdjacent showingX = [(People, "c"); (People, "b")].
Proof. reflexivity. Qed.

(** ** The detail toggle *)

Lemma filter_head {A} (f : A -> bool) (l : list A) (x : A) (rest : list A) :
  List.filter f l = x :: rest ->
  exists before after : list A,
    l = (before ++ x :: after)%list
    /\ (forall y, y ∈ before -> f y = false)
    /\ f x = true.
Proof.
  induction l as [|h l IH]; simpl; [discriminate|].
  destruct (f h) eqn:Hh.
  - intros [= -> _]. exists [], l. split; [reflexivity|].
    split; [intros y Hy; apply elem_of_nil in Hy; contradiction | exact Hh].
  - intros Hf. destruct (IH Hf) as (before & after & -> & Hb & Hx).
    exists (h :: before), after. split; [reflexivity|]. split; [|exact Hx].
    intros y Hy. apply elem_of_cons in Hy as [->|Hy]; [exact Hh | apply Hb, Hy].
Qed.

(** X11. Without a slug in the route, the detail toggle opens the first
    record of the loaded list that passes the active filters (every
    record before it is rejected), and does nothing when no record
    passes; with a slug it only switches the layout to detail. *)
Theorem detail_toggle_target (s : PageState) :
  (Js.truthyOpt (slugParam s) = true -> clickDetailToggle s = set_layoutView LDetail s)
  /\ (Js.truthyOpt (slugParam s) = false -> viewMode s = People ->
      (filteredProfilesOf s = [] -> clickDetailToggle s = s)
      /\ forall first rest,
          filteredProfilesOf s = first :: rest ->
          clickDetailToggle s
          = navigate (mkRoute People (Some (Profile.slug first))) s
          /\ exists before after : list Profile.t,
              allProfiles s = (before ++ first :: after)%list
              /\ (forall R, R ∈ before ->
                    profilePredicate (debouncedPeopleSearch s) (peopleFilters s) R
                    = false)
              /\ profilePredicate (debouncedPeopleSearch s) (peopleFilters s) first
                 = true)
  /\ (Js.truthyOpt (slugParam s) = false -> viewMode s = Projects ->
      (filteredProjectsOf s = [] -> clickDetailToggle s = s)
      /\ forall first rest,
          filteredProjectsOf s = first :: rest ->
          clickDetailToggle s
          = navigate (mkRoute Projects (Some (Project.slug first))) s
          /\ exists before after : list Project.t,
              allProjects s = (before ++ first :: after)%list
              /\ (forall R, R ∈ before ->
                    projectPredicate (debouncedProjectSearch s) (projectFilters s) R
                    = false)
              /\ projectPredicate (debouncedProjectSearch s) (projectFilters s) first
                 = true).
Proof.
  unfold clickDetailToggle. split; [|split].
  - intros ->. reflexivity.
  - intros -> ->. simpl. split.
    + intros ->. reflexivity.
    + intros first rest Hf. rewrite Hf. split; [reflexivity|].
      apply (filter_head _ _ _ _ Hf).
  - intros -> ->. simpl. split.
    + intros ->. reflexivity.
    + intros first rest Hf. rewrite Hf. split; [reflexivity|].
      apply (filter_head _ _ _ _ Hf).
Qed.

Lemma detail_toggle_target_witness :
  clickDetailToggle gridOf17 = navigate (mkRoute People (Some "p1")) gridOf17.
Proof.
  destruct (detail_toggle_target gridOf17) as (_ & Hpeople & _).
  destruct (Hpeople eq_refl eq_refl) as (_ & Hfirst).
  apply (Hfirst (profileOf "p1") (map profileOf ["p2"; "p3"; "p4"; "p5"; "p6"; "p7"; "p8"])).
  reflexivity.
Defined.

(** ** Opening a card and coming back *)

(** X12. Opening a card from the grid and returning with the grid
    toggle brings back the page the user left: whatever the detail
    request answered, the state after the return is in grid layout, on
    the same page, with the same filters, and [fetchData] sends the same
    request as before the card was opened. *)
Theorem card_excursion_returns (s : PageState) (answers : DetailAnswers) :
  layoutView s = LGrid ->
  (forall prof,
      viewMode s = People ->
      let opened := slugEffect answers (pathnameEffect (clickProfileCard prof s)) in
      let back := slugEffectStart (pathnameEffect (clickGridToggle opened)) in
      layoutView back = LGrid /\ gridPage back = gridPage s
      /\ peopleFilters back = peopleFilters s
      /\ projectFilters back = projectFilters s
      /\ fetchDataQuery back = fetchDataQuery s)
  /\ (forall proj,
        viewMode s = Projects ->
        let opened := slugEffect answers (pathnameEffect (clickProjectCard proj s)) in
        let back := slugEffectStart (pathnameEffect (clickGridToggle opened)) in
        layoutView back = LGrid /\ gridPage back = gridPage s
        /\ peopleFilters back = peopleFilters s
        /\ projectFilters back = projectFilters s
        /\ fetchDataQuery back = fetchDataQuery s).
Proof.
  intros Hl. split.
  - intros prof Hvm opened back.
    unfold back, opened, slugEffect, slugEffectStart, clickGridToggle,
      clickProfileCard, pathnameEffect, fetchDataQuery. simpl.
    rewrite Hl, Hvm.
    destruct (Js.truthy (Profile.slug prof)); simpl.
    + destruct (personAnswer answers) as [[[data|] allData]|]; simpl;
        try destruct (lr_success allData); simpl; repeat split; reflexivity.
    + repeat split; reflexivity.
  - intros proj Hvm opened back.
    unfold back, opened, slugEffect, slugEffectStart, clickGridToggle,
      clickProjectCard, pathnameEffect, fetchDataQuery. simpl.
    rewrite Hl, Hvm.
    destruct (Js.truthy (Project.slug proj)); simpl.
    + destruct (projectAnswer answers) as [[[data|] allData]|]; simpl;
        try destruct (lr_success allData); simpl; repeat split; reflexivity.
    + repeat split; reflexivity.
Qed.

Lemma card_excursion_returns_witness :
  let opened :=
    slugEffect (mkAnswers Rejected Rejected)
      (pathnameEffect (clickProfileCard (profileOf "p3") gridPage1)) in
  let back := slugEffectStart (pathnameEffect (clickGridToggle opened)) in
  fetchDataQuery back = fetchDataQuery gridPage1.
Proof.
  intros opened back.
  destruct (card_excursion_returns gridPage1 (mkAnswers Rejected Rejected) eq_refl)
    as (Hpeople & _).
  destruct (Hpeople (profileOf "p3") eq_refl) as (_ & _ & _ & _ & Hq).
  exact Hq.
Defined.

(** ** Grid requests *)

(** X13. In grid layout [fetchData] asks for 8 records of the active
    entity mode from offset page * 8.  A press on the next-page button
    changes the page exactly when the offset of the following page is
    below the server total (for a page that is not negative), and then
    moves one page forward: the button never asks for an offset at or
    past the total.  A press on the previous-page button that changes the
    page moves to the larger of 0 and page - 1.  With a total of at most
    8 neither button changes the page. *)
Theorem page_buttons_and_offset (s : PageState) :
  layoutView s = LGrid ->
  (exists q,
     fetchDataQuery s = Some (viewMode s, q)
     /\ q_limit q = 8 /\ q_offset q = Some (gridPage s * 8))
  /\ (0 <= gridPage s ->
      (gridPage (clickNextPage s) <> gridPage s
       <-> (gridPage s + 1) * 8 < activeTotal s))
  /\ (gridPage (clickNextPage s) <> gridPage s ->
      gridPage (clickNextPage s) = gridPage s + 1
      /\ gridPage (clickNextPage s) * 8 < activeTotal s)
  /\ (gridPage (clickPrevPage s) <> gridPage s ->
      8 < activeTotal s
      /\ gridPage (clickPrevPage s) = Z.max 0 (gridPage s - 1))
  /\ (activeTotal s <= 8 ->
      gridPage (clickNextPage s) = gridPage s
      /\ gridPage (clickPrevPage s) = gridPage s).
Proof.
  intros Hl.
  assert (Hsize : 0 < gridPageSize) by reflexivity.
  pose proof (ceilDiv_bounds gridPageSize Hsize (activeTotal s)) as Hceil.
  split.
  { unfold fetchDataQuery. rewrite Hl.
    destruct (viewMode s); eexists; repeat split; reflexivity. }
  unfold clickNextPage, clickPrevPage. rewrite Hl. simpl.
  unfold pressNextPage, pressPrevPage, pagerRendered, nextPageDisabled,
    nextPageOnClick, prevPageDisabled, prevPageOnClick, pageCount.
  unfold gridPageSize in *.
  set (c := Js.ceilDiv (activeTotal s) 8) in *.
  split; [|split; [|split]].
  - intros Hp. zcases; lia.
  - zcases; lia.
  - zcases; lia.
  - zcases; lia.
Qed.

Lemma page_buttons_and_offset_witness :
  gridPage (clickNextPage gridOf17) = gridPage gridOf17 + 1
  /\ gridPage (clickNextPage gridOf17) * 8 < activeTotal gridOf17.
Proof.
  destruct (page_buttons_and_offset gridOf17 eq_refl) as (_ & _ & Hnext & _).
  apply Hnext. vm_compute. discriminate.
Defined.

(** ** List commits *)

Lemma orNum_zero (a : option Z) (b : Z) :
  orNum a b = 0 <-> (a = None \/ a = Some 0) /\ b = 0.
Proof.
  unfold orNum. destruct a as [x|].
  - destruct (Z.eqb_spec x 0) as [->|Hx].
    + split; [intros ->; split; [right; reflexivity | reflexivity] | intros [_ H]; exact H].
    + split; [intros H; contradiction|].
      intros [[H|H] _]; [discriminate | injection H as ->; contradiction].
  - split; [intros ->; split; [left; reflexivity | reflexivity] | intros [_ H]; exact H].
Qed.

Lemma reportedTotal_zero {A} (response : ListResponse A) :
  reportedTotal response = 0
  <-> (lr_pagination_total response = None \/ lr_pagination_total response = Some 0)
      /\ (lr_total response = None \/ lr_total response = Some 0)
      /\ lr_data response = [].
Proof.
  unfold reportedTotal. rewrite !orNum_zero.
  destruct (lr_data response); simpl; [tauto|].
  split; [intros (_ & _ & H); lia | intros (_ & _ & H); discriminate].
Qed.

(** [a || b || c] on the three candidates of the total. *)
Lemma reportedTotal_cases {A} (response : ListResponse A) :
  (forall t, lr_pagination_total response = Some t -> t <> 0 ->
             reportedTotal response = t)
  /\ (forall t,
        lr_pagination_total response = None \/ lr_pagination_total response = Some 0 ->
        lr_total response = Some t -> t <> 0 ->
        reportedTotal response = t)
  /\ (lr_pagination_total response = None \/ lr_pagination_total response = Some 0 ->
      lr_total response = None \/ lr_total response = Some 0 ->
      reportedTotal response = Z.of_nat (length (lr_data response))).
Proof.
  unfold reportedTotal, orNum. split; [|split].
  - intros t -> Ht. destruct (Z.eqb_spec t 0); [contradiction | reflexivity].
  - intros t [-> | ->] -> Ht; simpl;
      (destruct (Z.eqb_spec t 0); [contradiction | reflexivity]).
  - intros [-> | ->] [-> | ->]; reflexivity.
Qed.

(** X14. After a successful list commit the stored list is the data of
    the response and the stored total is the first non-zero of the
    pagination total, the response total and the number of records: a
    non-zero pagination total is stored as it is; without one, a
    non-zero response total is stored; without either, the number of
    records.  So a stored total of 0, which is what brings up the
    empty-result screen of the grid, means that no record is loaded. *)
Theorem committed_total
    (rp : ListResponse Profile.t) (rj : ListResponse Project.t) (s : PageState) :
  lr_success rp = true -> lr_success rj = true ->
  let sp := commitProfilesFetch (Fulfilled rp) s in
  let sj := commitProjectsFetch (Fulfilled rj) s in
  (allProfiles sp = lr_data rp /\ allProjects sj = lr_data rj)
  /\ (totalProfiles sp = 0 -> allProfiles sp = [])
  /\ (totalProjects sj = 0 -> allProjects sj = [])
  /\ (lr_pagination_total rp = None -> lr_total rp = None ->
      totalProfiles sp = Z.of_nat (length (allProfiles sp)))
  /\ (lr_pagination_total rj = None -> lr_total rj = None ->
      totalProjects sj = Z.of_nat (length (allProjects sj)))
  /\ (forall t, lr_pagination_total rp = Some t -> t <> 0 -> totalProfiles sp = t)
  /\ (forall t, lr_pagination_total rj = Some t -> t <> 0 -> totalProjects sj = t)
  /\ (forall t,
        lr_pagination_total rp = None \/ lr_pagination_total rp = Some 0 ->
        lr_total rp = Some t -> t <> 0 -> totalProfiles sp = t)
  /\ (forall t,
        lr_pagination_total rj = None \/ lr_pagination_total rj = Some 0 ->
        lr_total rj = Some t -> t <> 0 -> totalProjects sj = t)
  /\ (lr_pagination_total rp = None \/ lr_pagination_total rp = Some 0 ->
      lr_total rp = None \/ lr_total rp = Some 0 ->
      totalProfiles sp = Z.of_nat (length (lr_data rp)))
  /\ (lr_pagination_total rj = None \/ lr_pagination_total rj = Some 0 ->
      lr_total rj = None \/ lr_total rj = Some 0 ->
      totalProjects sj = Z.of_nat (length (lr_data rj))).
Proof.
  intros Hp Hj sp sj. unfold sp, sj, commitProfilesFetch, commitProjectsFetch.
  rewrite Hp, Hj. simpl.
  destruct (reportedTotal_cases rp) as (Hp1 & Hp2 & Hp3).
  destruct (reportedTotal_cases rj) as (Hj1 & Hj2 & Hj3).
  split; [split; reflexivity|].
  split; [intros H; apply reportedTotal_zero in H; tauto|].
  split; [intros H; apply reportedTotal_zero in H; tauto|].
  split; [intros H1 H2; unfold reportedTotal; rewrite H1, H2; reflexivity|].
  split; [intros H1 H2; unfold reportedTotal; rewrite H1, H2; reflexivity|].
  split; [exact Hp1|]. split; [exact Hj1|].
  split; [exact Hp2|]. split; [exact Hj2|].
  split; [exact Hp3 | exact Hj3].
Qed.

(** A page of 2 records of 17: the stored total is the reported one; a
    response that reports no total stores the number of records. *)
Lemma committed_total_witness :
  totalProfiles
    (commitProfilesFetch
       (Fulfilled (mkListResponse true (map profileOf ["a"; "b"]) (Some 17) None))
       gridOf17) = 17
  /\ totalProjects
       (commitProjectsFetch
          (Fulfilled (mkListResponse true fiveProjects None (Some 0))) gridOf17) = 5.
Proof.
  destruct (committed_total
              (mkListResponse true (map profileOf ["a"; "b"]) (Some 17) None)
              (mkListResponse true fiveProjects None (Some 0)) gridOf17
              eq_refl eq_refl)
    as (_ & _ & _ & _ & _ & Hpag & _ & _ & _ & _ & Hlen).
  split.
  - apply (Hpag 17); [reflexivity | discriminate].
  - apply Hlen; [left | right]; reflexivity.
Defined.

(** The request failed: it was rejected, or answered without success. *)
Lemma failed_profiles_fetch (r : Settled (ListResponse Profile.t)) (s : PageState) :
  match r with Fulfilled response => lr_success response = false | Rejected => True end ->
  commitProfilesFetch r s = set_gridListLoading false s.
Proof.
  unfold commitProfilesFetch. destruct r as [response|]; [intros ->|]; reflexivity.
Qed.

Lemma failed_projects_fetch (r : Settled (ListResponse Project.t)) (s : PageState) :
  match r with Fulfilled response => lr_success response = false | Rejected => True end ->
  commitProjectsFetch r s = set_gridListLoading false s.
Proof.
  unfold commitProjectsFetch. destruct r as [response|]; [intros ->|]; reflexivity.
Qed.

(** X15. A list commit stays within its own entity: whatever the
    response, the commit of a people request leaves the projects and
    their total as they were and the commit of a projects request leaves
    the profiles and their total; neither touches the layout, the page,
    [currentIndex], the filters, the route or the displayed entity; and a
    request that fails leaves both collections and both totals intact. *)
Theorem list_commit_frame (rf : Refresh) (s : PageState) :
  let s' := applyRefresh rf s in
  (match rf with
   | RefreshProfiles _ =>
       allProjects s' = allProjects s /\ totalProjects s' = totalProjects s
   | RefreshProjects _ =>
       allProfiles s' = allProfiles s /\ totalProfiles s' = totalProfiles s
   end)
  /\ layoutView s' = layoutView s /\ gridPage s' = gridPage s
  /\ currentIndex s' = currentIndex s
  /\ peopleFilters s' = peopleFilters s /\ projectFilters s' = projectFilters s
  /\ location s' = location s /\ person s' = person s /\ project s' = project s
  /\ error s' = error s
  /\ gridListLoading s' = false
  /\ (match rf with
      | RefreshProfiles (Fulfilled r) => lr_success r = false
      | RefreshProjects (Fulfilled r) => lr_success r = false
      | _ => True
      end ->
      allProfiles s' = allProfiles s /\ totalProfiles s' = totalProfiles s
      /\ allProjects s' = allProjects s /\ totalProjects s' = totalProjects s).
Proof.
  destruct rf as [[r|]|[r|]]; simpl;
    try destruct (lr_success r) eqn:E; simpl;
    repeat match goal with |- _ /\ _ => split end;
    try reflexivity; try (intros Hfail; discriminate Hfail);
    intros _; repeat split; reflexivity.
Qed.

Lemma list_commit_frame_witness :
  allProfiles (applyRefresh (RefreshProfiles Rejected) showingX) = allProfiles showingX.
Proof.
  destruct (list_commit_frame (RefreshProfiles Rejected) showingX)
    as (_ & _ & _ & _ & _ & _ & _ & _ & _ & _ & _ & Hfail).
  apply (Hfail I).
Defined.

(** ** Project carousel *)

Lemma arraySlice_window {A} (l : list A) (i : Z) (j : nat) :
  0 <= i -> (j < 3)%nat ->
  arraySlice l i (i + 3) !! j = l !! (Z.to_nat i + j)%nat.
Proof.
  intros Hi Hj. unfold arraySlice.
  destruct (Z.ltb_spec i 0); [lia|]. destruct (Z.ltb_spec (i + 3) 0); [lia|].
  destruct (Z_le_gt_dec (Z.of_nat (length l)) i) as [Hout|Hin].
  - rewrite (Z.min_r i) by lia. rewrite (Z.min_r (i + 3)) by lia.
    rewrite Z.sub_diag. simpl. symmetry. apply lookup_ge_None. lia.
  - rewrite (Z.min_l i) by lia.
    destruct (Z_le_gt_dec (i + 3) (Z.of_nat (length l))) as [Hfull|Hpart].
    + rewrite (Z.min_l (i + 3)) by lia.
      replace (Z.to_nat (i + 3 - i)) with 3%nat by lia.
      rewrite lookup_take_lt by exact Hj. apply lookup_drop.
    + rewrite (Z.min_r (i + 3)) by lia.
      destruct (le_lt_dec (Z.to_nat (Z.of_nat (length l) - i)) j) as [Hge|Hlt].
      * rewrite lookup_take_ge by exact Hge. symmetry. apply lookup_ge_None. lia.
      * rewrite lookup_take_lt by exact Hlt. apply lookup_drop.
Qed.

Lemma arraySlice_window_length {A} (l : list A) (i : Z) :
  0 <= i ->
  Z.of_nat (length (arraySlice l i (i + 3)))
  = Z.max 0 (Z.min 3 (Z.of_nat (length l) - i)).
Proof.
  intros Hi. unfold arraySlice.
  destruct (Z.ltb_spec i 0); [lia|]. destruct (Z.ltb_spec (i + 3) 0); [lia|].
  rewrite length_take, length_drop. lia.
Qed.

Lemma carouselMaxIndex_bounds (len : Z) :
  carouselMaxIndex len <= len - 1 < carouselMaxIndex len + 3.
Proof.
  unfold carouselMaxIndex.
  pose proof (Z.div_mod (len - 1) 3 ltac:(lia)).
  pose proof (Z.mod_pos_bound (len - 1) 3 ltac:(lia)). lia.
Qed.

Lemma carousel_reachable_multiple (len i : Z) :
  carouselReachable len i ->
  exists k, i = 3 * k /\ 0 <= k /\ 3 * k <= Z.max 0 (carouselMaxIndex len).
Proof.
  induction 1 as [|i Hr (k & -> & Hk & Hmax)|i Hr (k & -> & Hk & Hmax)].
  - exists 0. lia.
  - unfold pressCarouselPrev, carouselRendered, carouselPrevDisabled,
      carouselPrevOnClick.
    destruct (Z.gtb_spec len 3); simpl; [|exists k; lia].
    destruct (Z.eqb_spec (3 * k) 0); simpl; [exists k; lia|].
    exists (k - 1). lia.
  - unfold pressCarouselNext, carouselRendered, carouselNextDisabled,
      carouselNextOnClick.
    destruct (Z.gtb_spec len 3); simpl; [|exists k; lia].
    destruct (Z.geb_spec (3 * k) (carouselMaxIndex len)); simpl; [exists k; lia|].
    exists (k + 1). unfold carouselMaxIndex in *. lia.
Qed.

Lemma carousel_multiple_reachable (len k : Z) :
  0 <= k -> 3 * k <= Z.max 0 (carouselMaxIndex len) ->
  carouselReachable len (3 * k).
Proof.
  intros Hk. pattern k. apply natlike_ind; [| |exact Hk].
  - intros _. apply carousel_start.
  - intros q Hq IH Hle.
    assert (Hstep : pressCarouselNext len (3 * q) = 3 * Z.succ q).
    { pose proof (carouselMaxIndex_bounds len) as Hb.
      unfold pressCarouselNext, carouselRendered, carouselNextDisabled,
        carouselNextOnClick.
      destruct (Z.gtb_spec len 3); simpl; [|lia].
      destruct (Z.geb_spec (3 * q) (carouselMaxIndex len)); simpl; lia. }
    rewrite <- Hstep. apply carousel_next, IH. lia.
Qed.

(** X16. From index 0 the carousel buttons lead exactly to the
    multiples of 3 from 0 up to [floor((len - 1) / 3) * 3] (only to 0 when
    there are at most 3 projects); hence at every reachable index of a
    list that is not empty the carousel shows at least one and at most
    three projects. *)
Theorem carousel_indexes {A} (filteredPersonProjects : list A) (i : Z) :
  let len := Z.of_nat (length filteredPersonProjects) in
  (carouselReachable len i
   <-> exists k, i = 3 * k /\ 0 <= k /\ 3 * k <= Z.max 0 (carouselMaxIndex len))
  /\ (carouselReachable len i -> filteredPersonProjects <> [] ->
      (1 <= length (carouselVisible filteredPersonProjects i) <= 3)%nat).
Proof.
  intros len. split.
  - split; [apply carousel_reachable_multiple|].
    intros (k & -> & Hk & Hmax). apply carousel_multiple_reachable; assumption.
  - intros Hr Hne. apply carousel_reachable_multiple in Hr as (k & -> & Hk & Hmax).
    pose proof (carouselMaxIndex_bounds len) as Hb.
    pose proof (arraySlice_window_length filteredPersonProjects (3 * k) ltac:(lia))
      as Hlen.
    fold len in Hlen. unfold carouselVisible.
    assert (0 < len).
    { unfold len. destruct filteredPersonProjects; [contradiction | simpl; lia]. }
    lia.
Qed.

Lemma carousel_indexes_witness :
  (1 <= length (carouselVisible fiveProjects 3) <= 3)%nat.
Proof.
  apply (proj2 (carousel_indexes fiveProjects 3)).
  - apply (carousel_next 5 0), carousel_start.
  - discriminate.
Defined.

(** X17. Every project of the filtered list is shown on exactly one
    reachable page of the carousel: the project at position k appears at
    index 3 * floor(k / 3), in slot k mod 3, and no other reachable index
    and slot show that position. *)
Theorem carousel_covers {A} (filteredPersonProjects : list A) (k : nat) (x : A) :
  filteredPersonProjects !! k = Some x ->
  let len := Z.of_nat (length filteredPersonProjects) in
  let i := 3 * (Z.of_nat k / 3) in
  carouselReachable len i
  /\ carouselVisible filteredPersonProjects i !! (k mod 3)%nat = Some x
  /\ forall i' j,
       carouselReachable len i' -> (j < 3)%nat ->
       (Z.to_nat i' + j)%nat = k -> i' = i /\ j = (k mod 3)%nat.
Proof.
  intros Hk len i.
  assert (Hlt : Z.of_nat k < len) by (apply lookup_lt_Some in Hk; unfold len; lia).
  pose proof (Z.div_mod (Z.of_nat k) 3 ltac:(lia)) as Hdm.
  pose proof (Z.mod_pos_bound (Z.of_nat k) 3 ltac:(lia)) as Hmod.
  assert (Hq : 0 <= Z.of_nat k / 3) by (apply Z.div_pos; lia).
  assert (Hmodnat : Z.of_nat (k mod 3) = Z.of_nat k mod 3).
  { rewrite Nat2Z.inj_mod. reflexivity. }
  split; [|split].
  - apply carousel_multiple_reachable; [exact Hq|].
    pose proof (carouselMaxIndex_bounds len) as Hb. unfold carouselMaxIndex in *.
    assert (Z.of_nat k / 3 <= (len - 1) / 3) by (apply Z.div_le_mono; lia).
    lia.
  - unfold carouselVisible, i. rewrite arraySlice_window.
    + rewrite <- Hk. f_equal. lia.
    + lia.
    + apply Nat.mod_upper_bound. discriminate.
  - intros i' j Hr Hj Hsum.
    apply carousel_reachable_multiple in Hr as (q & -> & Hq0 & _).
    assert (Hkq : Z.of_nat k = 3 * q + Z.of_nat j) by lia.
    assert (Hdiv : Z.of_nat k / 3 = q).
    { symmetry. apply (Z.div_unique_pos (Z.of_nat k) 3 q (Z.of_nat j)); lia. }
    split; [unfold i; lia|]. lia.
Qed.

Lemma carousel_covers_witness :
  carouselVisible fiveProjects 3 !! 1%nat = fiveProjects !! 4%nat.
Proof.
  destruct (carousel_covers fiveProjects 4
              (Project.mk "p5" (Some "p5") None None (Some ["Go"]) None) eq_refl)
    as (_ & Hslot & _).
  exact Hslot.
Defined.

(** ** [useDebounce] *)

Lemma debounce_invariant (initial : string) (events : list DebounceEvent) :
  let st := debounceRun initial events in
  (forall c, db_timer st = Some c -> c = db_value st)
  /\ (db_timer st = None -> db_debouncedValue st = db_value st)
  /\ (db_debouncedValue st = initial \/ Render (db_debouncedValue st) ∈ events).
Proof.
  unfold debounceRun.
  induction events as [|e events IH] using rev_ind; simpl.
  - split; [intros c [= <-]; reflexivity|]. split; [discriminate | left; reflexivity].
  - rewrite fold_left_app. simpl.
    set (st := fold_left debounceStep events (debounceMount initial)) in *.
    destruct IH as (Htimer & Hidle & Horigin).
    destruct e as [value|]; simpl.
    + unfold debounceRender. destruct (String.eqb_spec value (db_value st)) as [->|Hne].
      * split; [exact Htimer|]. split; [exact Hidle|].
        destruct Horigin as [H|H]; [left; exact H | right; apply elem_of_app; left; exact H].
      * simpl. split; [intros c [= <-]; reflexivity|]. split; [discriminate|].
        destruct Horigin as [H|H]; [left; exact H | right; apply elem_of_app; left; exact H].
    + unfold debounceFire. destruct (db_timer st) as [captured|] eqn:Ht; simpl.
      * pose proof (Htimer captured eq_refl) as Hc.
        split; [discriminate|]. split; [intros _; exact Hc|].
        subst captured.
        assert (Hv : db_value st = initial \/ Render (db_value st) ∈ events).
        { clear -st. unfold st. clear st.
          induction events as [|e events IH] using rev_ind; simpl; [left; reflexivity|].
          rewrite fold_left_app. simpl.
          destruct e as [value|]; simpl.
          - unfold debounceRender.
            destruct (String.eqb_spec value
                        (db_value (fold_left debounceStep events (debounceMount initial))))
              as [Heq|Hne].
            + destruct IH as [H|H]; [left; exact H|].
              right. apply elem_of_app. left. exact H.
            + simpl. right. apply elem_of_app. right. apply list_elem_of_singleton.
              reflexivity.
          - unfold debounceFire.
            destruct (db_timer (fold_left debounceStep events (debounceMount initial)));
              simpl; (destruct IH as [H|H]; [left; exact H|]);
              right; apply elem_of_app; left; exact H. }
        destruct Hv as [H|H]; [left; exact H | right; apply elem_of_app; left; exact H].
      * split; [intros c Hc; rewrite Ht in Hc; discriminate|].
        split; [intros _; apply Hidle; reflexivity|].
        destruct Horigin as [H|H]; [left; exact H | right; apply elem_of_app; left; exact H].
Qed.

(** X18. At every moment of a run of the hook: a pending timer holds
    the current input, so when a timer fires the debounced value becomes
    the latest input and never a superseded one; with no timer pending
    the debounced value is the current input; and the debounced value is
    always the initial value or a value that was rendered. *)
Theorem debounce_latest_input (initial : string) (events : list DebounceEvent) :
  let st := debounceRun initial events in
  (forall c, db_timer st = Some c -> c = db_value st)
  /\ (db_timer st = None -> db_debouncedValue st = db_value st)
  /\ db_debouncedValue (debounceFire st) = db_value st
  /\ (db_debouncedValue st = initial \/ Render (db_debouncedValue st) ∈ events).
Proof.
  intros st. destruct (debounce_invariant initial events) as (Htimer & Hidle & Horigin).
  fold st in Htimer, Hidle, Horigin.
  split; [exact Htimer|]. split; [exact Hidle|]. split; [|exact Horigin].
  unfold debounceFire. destruct (db_timer st) as [c|] eqn:Ht; simpl.
  - apply Htimer. reflexivity.
  - apply Hidle. reflexivity.
Qed.

Lemma debounce_latest_input_witness :
  let st := debounceRun "" [Render "a"; Render "ad"; TimerFires] in
  db_debouncedValue st = db_value st.
Proof.
  intros st.
  apply (proj1 (proj2 (debounce_latest_input "" [Render "a"; Render "ad"; TimerFires]))).
  reflexivity.
Defined.

(** A timer that fires between two inputs publishes the first of them;
    the input typed before it, superseded within the delay, is never
    published. *)
Example debounce_skips_superseded :
  map db_debouncedValue
    [debounceRun "" [Render "a"];
     debounceRun "" [Render "a"; Render "ad"];
     debounceRun "" [Render "a"; Render "ad"; TimerFires];
     debounceRun "" [Render "a"; Render "ad"; TimerFires; Render "ada"]]
  = [""; ""; "ad"; "ad"].
Proof. reflexivity. Qed.

(** ** Loading progress *)

Lemma progress_step_invariant (st : ProgressState) (e : ProgressEvent) :
  (0 <= lp_progress st <= 100
   /\ (lp_isCollapsing st = true -> lp_timeoutRef st <> None)
   /\ (lp_timeoutRef st = Some ResetTimer -> lp_isCollapsing st = true)) ->
  let st' := progressStep st e in
  0 <= lp_progress st' <= 100
  /\ (lp_isCollapsing st' = true -> lp_timeoutRef st' <> None)
  /\ (lp_timeoutRef st' = Some ResetTimer -> lp_isCollapsing st' = true).
Proof.
  intros (Hp & Hc & Hr). destruct e as [|value| |]; simpl.
  - split; [lia|]. split; [discriminate | discriminate].
  - split; [lia|]. split; assumption.
  - split; [lia|]. split; [discriminate | discriminate].
  - unfold progressTimerFires. destruct (lp_timeoutRef st) as [[|]|] eqn:Ht; simpl.
    + split; [exact Hp|]. split; [discriminate | reflexivity].
    + split; [lia|]. split; discriminate.
    + rewrite Ht. split; [exact Hp|]. split; [exact Hc | discriminate].
Qed.

(** X19. Whatever the order of the calls and of the timers, from the
    initial state of the provider: the progress stays between 0 and 100;
    whenever the bar is collapsing a timer is pending, so a collapsing
    bar is always followed by its reset; and the reset timer is pending
    only while the bar is collapsing. *)
Theorem progress_invariant (events : list ProgressEvent) :
  let st := progressRun progressInitial events in
  0 <= lp_progress st <= 100
  /\ (lp_isCollapsing st = true -> lp_timeoutRef st <> None)
  /\ (lp_timeoutRef st = Some ResetTimer -> lp_isCollapsing st = true).
Proof.
  unfold progressRun.
  induction events as [|e events IH] using rev_ind; simpl.
  - split; [lia|]. split; discriminate.
  - rewrite fold_left_app. simpl. apply progress_step_invariant. exact IH.
Qed.

(** X20. From any state of the provider: [completeLoading] followed by
    its two timers ends in the idle state, with the bar hidden; a
    [startLoading] that arrives after [completeLoading] cancels the
    pending timer, so the timer of the finished load cannot hide the bar
    of the new one; and the calls of a list request of [fetchData] leave
    the bar shown at 100 with the collapse timer pending. *)
Theorem progress_cycle (st : ProgressState) :
  progressRun st [CompleteLoading; ProgressTimerFires; ProgressTimerFires]
  = progressInitial
  /\ progressBarShown progressInitial = false
  /\ (forall later,
        progressRun st (CompleteLoading :: StartLoading :: later)
        = progressRun (startLoading st) later)
  /\ progressTimerFires (startLoading st) = startLoading st
  /\ progressBarShown (startLoading st) = true
  /\ progressRun st fetchDataProgress = mkProgress 100 true false (Some CollapseTimer).
Proof.
  repeat split.
Qed.

(** ** PeoplePage: filters in the address *)

Lemma paramsGetAll_app (name : string) (p1 p2 : list (string * string)) :
  paramsGetAll name (p1 ++ p2) = (paramsGetAll name p1 ++ paramsGetAll name p2)%list.
Proof.
  unfold paramsGetAll. rewrite List.filter_app, map_app. reflexivity.
Qed.

Lemma paramsGet_app_l (name : string) (p1 p2 : list (string * string)) (v : string) :
  paramsGet name p1 = Some v -> paramsGet name (p1 ++ p2) = Some v.
Proof.
  unfold paramsGet. induction p1 as [|e p1 IH]; simpl; [discriminate|].
  destruct (String.eqb (fst e) name); [intros H; exact H | exact IH].
Qed.

Lemma paramsGet_app_r (name : string) (p1 p2 : list (string * string)) :
  paramsGet name p1 = None -> paramsGet name (p1 ++ p2) = paramsGet name p2.
Proof.
  unfold paramsGet. induction p1 as [|e p1 IH]; simpl; [reflexivity|].
  destruct (String.eqb (fst e) name); [discriminate | exact IH].
Qed.

(** The entries appended for one facet. *)
Lemma fold_paramsAppend (name : string) (values : list string)
    (params : list (string * string)) :
  fold_left (fun ps v => paramsAppend name v ps) values params
  = (params ++ map (pair name) values)%list.
Proof.
  revert params. induction values as [|v values IH]; intros params; simpl.
  - symmetry. apply app_nil_r.
  - rewrite IH. unfold paramsAppend. rewrite <- app_assoc. reflexivity.
Qed.

Lemma paramsGetAll_same (name : string) (values : list string) :
  paramsGetAll name (map (pair name) values) = values.
Proof.
  unfold paramsGetAll. induction values as [|v values IH]; simpl; [reflexivity|].
  rewrite String.eqb_refl. simpl. f_equal. exact IH.
Qed.

Lemma paramsGetAll_other (name other : string) (values : list string) :
  String.eqb other name = false ->
  paramsGetAll name (map (pair other) values) = [].
Proof.
  intros Hne. unfold paramsGetAll.
  induction values as [|v values IH]; simpl; [reflexivity|].
  rewrite Hne. exact IH.
Qed.

Lemma paramsGet_other (name other : string) (values : list string) :
  String.eqb other name = false ->
  paramsGet name (map (pair other) values) = None.
Proof.
  intros Hne. unfold paramsGet.
  induction values as [|v values IH]; simpl; [reflexivity|].
  rewrite Hne. exact IH.
Qed.

Lemma paramsOfFilters_shape (filters : PeopleFilters) :
  paramsOfFilters filters
  = ((if Js.truthy (pf_search filters) then [("search", pf_search filters)] else [])
     ++ (if pf_openToWork filters then [("openToWork", "true")] else [])
     ++ map (pair "skills") (pf_skills filters)
     ++ map (pair "industries") (pf_industries filters))%list.
Proof.
  unfold paramsOfFilters. rewrite !fold_paramsAppend.
  destruct (Js.truthy (pf_search filters)), (pf_openToWork filters); simpl;
    rewrite <- ?app_assoc; reflexivity.
Qed.

Lemma filters_url_round_trip_aux (filters : PeopleFilters) :
  filtersOfParams (paramsOfFilters filters) = filters.
Proof.
  rewrite paramsOfFilters_shape. destruct filters as [search skills industries otw].
  unfold filtersOfParams. simpl.
  assert (Hskills :
    paramsGetAll "skills"
      ((if Js.truthy search then [("search", search)] else [])
       ++ (if otw then [("openToWork", "true")] else [])
       ++ map (pair "skills") skills ++ map (pair "industries") industries)
    = skills).
  { rewrite !paramsGetAll_app, paramsGetAll_same.
    rewrite (paramsGetAll_other "skills" "industries") by reflexivity.
    destruct (Js.truthy search), otw; simpl; rewrite ?app_nil_r; reflexivity. }
  assert (Hind :
    paramsGetAll "industries"
      ((if Js.truthy search then [("search", search)] else [])
       ++ (if otw then [("openToWork", "true")] else [])
       ++ map (pair "skills") skills ++ map (pair "industries") industries)
    = industries).
  { rewrite !paramsGetAll_app, paramsGetAll_same.
    rewrite (paramsGetAll_other "industries" "skills") by reflexivity.
    destruct (Js.truthy search), otw; simpl; reflexivity. }
  assert (Hfacets : forall name,
    String.eqb "skills" name = false -> String.eqb "industries" name = false ->
    paramsGet name (map (pair "skills") skills ++ map (pair "industries") industries)
    = None).
  { intros name H1 H2. rewrite paramsGet_app_r by (apply paramsGet_other; exact H1).
    apply paramsGet_other. exact H2. }
  rewrite Hskills, Hind. f_equal.
  - destruct search as [|c search]; simpl.
    + destruct otw; simpl.
      * change (paramsGet "search" (("openToWork", "true") :: ?l))
          with (paramsGet "search" l).
        rewrite Hfacets by reflexivity. reflexivity.
      * rewrite Hfacets by reflexivity. reflexivity.
    + unfold paramsGet. simpl. reflexivity.
  - destruct otw; simpl.
    + destruct (Js.truthy search); simpl; unfold paramsGet; simpl; reflexivity.
    + destruct (Js.truthy search); simpl.
      * change (paramsGet "openToWork" (("search", search) :: ?l))
          with (paramsGet "openToWork" l).
        rewrite Hfacets by reflexivity. reflexivity.
      * rewrite Hfacets by reflexivity. reflexivity.
Qed.

(** X21. Writing the filters to the address and reading them back gives
    the same filters: the people filters survive a reload of the page. *)
Theorem filters_url_round_trip (filters : PeopleFilters) :
  filtersOfParams (paramsOfFilters filters) = filters.
Proof. apply filters_url_round_trip_aux. Qed.

(** The state written by [handleClearFilters]. *)
Lemma hasActiveFilters_false_iff (filters : PeopleFilters) :
  hasActiveFilters filters = false <-> filters = defaultPeopleFilters.
Proof.
  unfold hasActiveFilters, defaultPeopleFilters.
  destruct filters as [search skills industries otw]; simpl. split.
  - intros H. apply orb_false_iff in H as [H Hotw].
    apply orb_false_iff in H as [H Hind]. apply orb_false_iff in H as [Hs Hsk].
    destruct search; [|discriminate]. destruct skills; [|discriminate].
    destruct industries; [|discriminate]. subst otw. reflexivity.
  - intros [= -> -> -> ->]. reflexivity.
Qed.

(** X22. No filter is active exactly in the state that the clear button
    writes, and exactly then the address carries no filter parameter. *)
Theorem active_filters_and_address (filters : PeopleFilters) :
  (hasActiveFilters filters = false <-> filters = defaultPeopleFilters)
  /\ (paramsOfFilters filters = [] <-> filters = defaultPeopleFilters).
Proof.
  split; [apply hasActiveFilters_false_iff|]. split.
  - intros H. rewrite <- (filters_url_round_trip_aux filters), H. reflexivity.
  - intros ->. reflexivity.
Qed.

(** ** PeoplePage: pages *)

Section PeoplePagerFacts.
Variables limit total : Z.
Hypothesis limit_pos : 0 < limit.
Hypothesis total_nonneg : 0 <= total.

Local Abbreviation lastPage := (Z.max 1 (Js.ceilDiv total limit)).

Lemma ceilDiv_above_limit : limit < total -> 2 <= Js.ceilDiv total limit.
Proof.
  intros H. pose proof (ceilDiv_bounds limit limit_pos total) as Hb. nia.
Qed.

Lemma peopleNavigable_in_range (p : Z) :
  peopleNavigable limit total p -> 1 <= p <= lastPage.
Proof.
  induction 1 as [|shown p Hnav IH|shown p Hnav IH].
  - lia.
  - unfold pressPeoplePrev, peoplePagerRendered, peoplePrevDisabled.
    destruct shown; simpl; [|exact IH]. zcases; lia.
  - unfold pressPeopleNext, peoplePagerRendered, peopleNextDisabled.
    destruct shown; simpl; [|exact IH]. zcases; lia.
Qed.

Lemma range_peopleNavigable (p : Z) :
  1 <= p <= lastPage -> peopleNavigable limit total p.
Proof.
  intros [H1 Hp].
  replace p with (1 + (p - 1)) in * by lia.
  assert (H0 : 0 <= p - 1) by lia. revert Hp. generalize dependent (p - 1).
  intros q _ H0. pattern q. apply natlike_ind; [| |exact H0].
  - intros _. apply people_first.
  - intros r Hr IH Hle.
    assert (Hstep : pressPeopleNext limit true total (1 + r) = 1 + Z.succ r).
    { pose proof (ceilDiv_bounds limit limit_pos total) as Hb.
      unfold pressPeopleNext, peoplePagerRendered, peopleNextDisabled. simpl.
      destruct (Z.gtb_spec total limit); simpl.
      - destruct (Z.geb_spec (1 + r) (Js.ceilDiv total limit)); simpl; lia.
      - assert (Js.ceilDiv total limit <= 1) by nia. lia. }
    rewrite <- Hstep. apply people_next, IH. lia.
Qed.
End PeoplePagerFacts.

(** X23. On the people page, for a page size [limit > 0] and a server
    total [total >= 0], the pages that the two buttons lead to from page
    1 are exactly 1 .. max(1, ceil(total / limit)): the page never drops
    below 1 and never passes the last page, and with [total <= limit]
    there is only page 1. *)
Theorem people_pages (limit total : Z) :
  0 < limit -> 0 <= total ->
  (forall p, peopleNavigable limit total p
             <-> 1 <= p <= Z.max 1 (Js.ceilDiv total limit))
  /\ (total <= limit -> forall p, peopleNavigable limit total p -> p = 1).
Proof.
  intros Hl Ht.
  assert (Hiff : forall p, peopleNavigable limit total p
                           <-> 1 <= p <= Z.max 1 (Js.ceilDiv total limit)).
  { intros p. split.
    - apply peopleNavigable_in_range; assumption.
    - apply range_peopleNavigable; assumption. }
  split; [exact Hiff|].
  intros Hle p Hp. apply Hiff in Hp.
  pose proof (ceilDiv_bounds limit Hl total) as Hb.
  assert (Js.ceilDiv total limit <= 1) by nia. lia.
Qed.

Lemma people_pages_witness :
  peopleNavigable 12 30 3 /\ ~ peopleNavigable 12 30 4.
Proof.
  destruct (people_pages 12 30) as (Hiff & _); [reflexivity | discriminate |].
  split.
  - apply Hiff. vm_compute. split; discriminate.
  - intros H. apply Hiff in H. vm_compute in H. destruct H as [_ H]. apply H. reflexivity.
Defined.

(** ** HomePage: rotating avatars *)

Lemma arraySlice_prefix_length {A} (l : list A) (n : Z) :
  0 <= n <= Z.of_nat (length l) ->
  length (arraySlice l 0 n) = Z.to_nat n.
Proof.
  intros Hn. unfold arraySlice. simpl.
  destruct (Z.ltb_spec n 0); [lia|].
  rewrite (Z.min_l 0) by lia. rewrite Z.min_l by lia.
  rewrite Z.sub_0_r. rewrite length_take, length_drop. lia.
Qed.

Lemma arraySlice_elem {A} (l : list A) (i n : Z) (x : A) :
  x ∈ arraySlice l i n -> x ∈ l.
Proof.
  unfold arraySlice. intros H.
  eapply sublist_subseteq; [|exact H].
  etransitivity; [apply sublist_take | apply sublist_drop].
Qed.

Lemma rotationTick_ok {A} (profiles : list A) (st : Rotation A) (pos : Z) :
  rotationOk profiles st -> 0 <= pos < 5 ->
  rotationOk profiles (rotationTick profiles st pos).
Proof.
  intros (Hlen & Helem & Hnext) Hpos. unfold rotationOk, rotationTick. simpl.
  assert (Hat : exists x, Js.at_ profiles (rot_next st) = Some x /\ x ∈ profiles).
  { unfold Js.at_. destruct (Z.ltb_spec (rot_next st) 0); [lia|].
    destruct (lookup_lt_is_Some_2 profiles (Z.to_nat (rot_next st)) ltac:(lia))
      as (x & Hx).
    exists x. split; [exact Hx|]. apply list_elem_of_lookup. eauto. }
  destruct Hat as (x & Hx & Hin). rewrite Hx.
  unfold arrayAssign. destruct (Z.ltb_spec pos 0); [lia|].
  destruct (Z.ltb_spec pos (Z.of_nat (length (rot_visible st)))); [|lia].
  split; [rewrite length_insert; exact Hlen|]. split.
  - intros o Ho. apply list_elem_of_lookup in Ho as (j & Hj).
    apply list_lookup_insert_Some in Hj as [(_ & <- & _)|(_ & Hj)].
    + exists x. split; [reflexivity | exact Hin].
    + apply Helem. apply list_elem_of_lookup. eauto.
  - apply Z.mod_pos_bound. lia.
Qed.

(** X24. With at least six profiles loaded, whatever positions the
    random draws pick among 0..4, the home page always shows exactly
    five avatars, each of them a loaded profile (never a gap), and after
    n ticks the next profile to enter is the one at index (5 + n) modulo
    the number of profiles. *)
Theorem rotation_invariant {A} (profiles : list A) (positions : list Z) :
  (6 <= length profiles)%nat ->
  Forall (fun pos => 0 <= pos < 5) positions ->
  let st := rotationRun profiles positions in
  length (rot_visible st) = 5%nat
  /\ (forall o, o ∈ rot_visible st -> exists x, o = Some x /\ x ∈ profiles)
  /\ 0 <= rot_next st < Z.of_nat (length profiles)
  /\ rot_next st
     = (5 + Z.of_nat (length positions)) mod Z.of_nat (length profiles).
Proof.
  intros Hsix Hpos. unfold rotationRun.
  induction positions as [|pos positions IH] using rev_ind; simpl.
  - split; [rewrite length_map, arraySlice_prefix_length; lia|]. split; [|split].
    + intros o Ho. apply list_elem_of_fmap in Ho as (x & -> & Hx).
      exists x. split; [reflexivity|]. apply (arraySlice_elem _ 0 5). exact Hx.
    + lia.
    + rewrite Z.add_0_r. symmetry. apply Z.mod_small. lia.
  - rewrite fold_left_app. simpl.
    apply Forall_app in Hpos as [Hpos Hlast]. apply Forall_inv in Hlast.
    destruct (IH Hpos) as (Hlen & Helem & Hnext & Hformula).
    destruct (rotationTick_ok profiles _ pos (conj Hlen (conj Helem Hnext)) Hlast)
      as (Hlen' & Helem' & Hnext').
    split; [exact Hlen'|]. split; [exact Helem'|]. split; [exact Hnext'|].
    simpl. rewrite Hformula, length_app. simpl.
    rewrite Z.add_mod_idemp_l by lia. f_equal. lia.
Qed.

Lemma rotation_invariant_witness :
  length (rot_visible (rotationRun ["a"; "b"; "c"; "d"; "e"; "f"; "g"] [0; 0; 4; 2]))
  = 5%nat.
Proof.
  apply (rotation_invariant ["a"; "b"; "c"; "d"; "e"; "f"; "g"] [0; 0; 4; 2]).
  - simpl. lia.
  - repeat constructor; lia.
Defined.

(** The rotation may show a profile twice. *)
Example rotation_repeats :
  rot_visible (rotationRun ["a"; "b"; "c"; "d"; "e"; "f"] [0; 0; 0])
  = [Some "b"; Some "b"; Some "c"; Some "d"; Some "e"].
Proof. reflexivity. Qed.

(** ** Route changes across entity modes *)

(** When the [viewMode] of the render already is the one of the route,
    the commit after a route change is the slug effect run on the state
    that the pathname effect leaves. *)
Lemma routeChange_same_mode (s : PageState) (answers : DetailAnswers) :
  viewMode s = r_mode (location s) ->
  commitDetail s answers (routeChangeStart s)
  = slugEffect answers (pathnameEffect s).
Proof.
  intros Hvm. unfold commitDetail, detailRequest, routeChangeStart, slugEffect,
    slugEffectStartOn, slugEffectStart, slugParam.
  change (location (pathnameEffect s)) with (location s).
  change (viewMode (pathnameEffect s)) with (r_mode (location s)).
  rewrite <- Hvm.
  destruct (r_slug (location s)) as [slug|]; simpl; [|reflexivity].
  destruct (Js.truthy slug); simpl; [|reflexivity].
  destruct (viewMode s).
  - destruct (personAnswer answers) as [[[data|] allData]|]; reflexivity.
  - destruct (projectAnswer answers) as [[[data|] allData]|]; reflexivity.
Qed.

(** X25. When the route moves from the people side to a project without
    a handler setting [viewMode] (the browser's back and forward), the
    first commit still asks the people source for the project's slug, and
    the render that follows asks the projects source.  Neither request
    is cancelled: if the people request fails after the project request
    has resolved, the page shows "Person not found" over the loaded
    project; in the other order the project is shown.  After "Learn
    More", which sets [viewMode] itself, only the project is asked. *)
Theorem stale_mode_on_route_change
    (s : PageState) (slug : string) (answers : DetailAnswers) :
  viewMode s = People ->
  location s = mkRoute Projects (Some slug) -> Js.truthy slug = true ->
  resolves (personAnswer answers) = false ->
  resolves (projectAnswer answers) = true ->
  let first := routeChangeStart s in
  let second := slugEffectStartOn first first in
  detailRequest s = Some (People, slug)
  /\ detailRequest first = Some (Projects, slug)
  /\ (let final := commitDetail s answers (commitDetail first answers second) in
      project final <> None
      /\ render final = ErrorScreen "Person not found")
  /\ (let final := commitDetail first answers (commitDetail s answers second) in
      project final <> None /\ error final = None
      /\ render final = BrowseScreen).
Proof.
  intros Hvm Hloc Ht Hp Hj first second.
  assert (Hreq1 : detailRequest s = Some (People, slug)).
  { unfold detailRequest, slugParam. rewrite Hloc, Hvm. simpl. rewrite Ht. reflexivity. }
  assert (Hreq2 : detailRequest first = Some (Projects, slug)).
  { unfold detailRequest, first, routeChangeStart, slugEffectStartOn, slugParam.
    rewrite Hloc. simpl. rewrite Ht. simpl. rewrite Hloc. simpl. rewrite Ht.
    reflexivity. }
  split; [exact Hreq1|]. split; [exact Hreq2|].
  unfold commitDetail. rewrite Hreq1, Hreq2.
  destruct (projectAnswer answers) as [[[data|] allData]|]; try discriminate.
  rewrite (commitPersonAndList_unresolved _ _ _ _ Hp).
  assert (Hloc2 : location second = location s).
  { unfold second, first, routeChangeStart, slugEffectStartOn.
    repeat match goal with |- context [if ?c then _ else _] => destruct c end;
      reflexivity. }
  split.
  - unfold commitProjectAndList, render, slugParam.
    destruct (lr_success allData); simpl; rewrite Hloc2, Hloc; simpl; rewrite Ht;
      split; (discriminate || reflexivity).
  - unfold commitProjectAndList, render, slugParam.
    destruct (lr_success allData); simpl; repeat split; discriminate.
Qed.

(** A person's page, reached again with the browser while the address
    already is that of the project "y". *)
Lemma stale_mode_on_route_change_witness :
  let s := set_location (mkRoute Projects (Some "y")) showingX in
  let answers :=
    mkAnswers Rejected
      (Fulfilled (Some (Project.mk "y" None None None None None),
                  mkListResponse true [] None None)) in
  let first := routeChangeStart s in
  let second := slugEffectStartOn first first in
  render (commitDetail s answers (commitDetail first answers second))
  = ErrorScreen "Person not found".
Proof.
  intros s answers first second.
  destruct (stale_mode_on_route_change s "y" answers
              eq_refl eq_refl eq_refl eq_refl eq_refl)
    as (_ & _ & (_ & Hrender) & _).
  exact Hrender.
Defined.

(** After "Learn More" the first commit already asks the projects
    source. *)
Example learn_more_asks_project (project : Project.t) (s : PageState) :
  Js.truthy (Project.slug project) = true ->
  detailRequest (clickLearnMore project s) = Some (Projects, Project.slug project).
Proof.
  intros Ht. unfold detailRequest, clickLearnMore, slugParam. simpl. rewrite Ht.
  reflexivity.
Qed.


(** ** Card colours *)

Lemma clamp_range (val : Z) : 0 <= clamp val <= 255.
Proof. unfold clamp. lia. Qed.

Lemma clamp_id (val : Z) : 0 <= val <= 255 -> clamp val = val.
Proof. unfold clamp. lia. Qed.

Lemma hex_digit_cases (d : Z) :
  0 <= d < 16 ->
  d = 0 \/ d = 1 \/ d = 2 \/ d = 3 \/ d = 4 \/ d = 5 \/ d = 6 \/ d = 7 \/
  d = 8 \/ d = 9 \/ d = 10 \/ d = 11 \/ d = 12 \/ d = 13 \/ d = 14 \/ d = 15.
Proof. lia. Qed.

Ltac hex_cases d H :=
  let C := fresh "C" in
  pose proof (hex_digit_cases d H) as C;
  repeat (destruct C as [C | C]; [subst d|]); [..|subst d].

Lemma hexValue_hexDigit (d : Z) : 0 <= d < 16 -> hexValue (hexDigit d) = Some d.
Proof. intros H. hex_cases d H; reflexivity. Qed.

Lemma toString16Fuel_step (fuel : nat) (m d : Z) (acc : string) :
  0 <= d < 16 -> 0 < m ->
  toString16Fuel (S fuel) (16 * m + d) acc
  = toString16Fuel fuel m (String (hexDigit d) acc).
Proof.
  intros Hd Hm. cbn [toString16Fuel].
  replace ((16 * m + d) mod 16) with d by (apply (Z.mod_unique _ _ m); lia).
  replace ((16 * m + d) / 16) with m by (apply (Z.div_unique _ _ _ d); lia).
  destruct (Z.eqb_spec m 0); [lia | reflexivity].
Qed.

Lemma toString16Fuel_last (fuel : nat) (d : Z) (acc : string) :
  0 <= d < 16 ->
  toString16Fuel (S fuel) d acc = String (hexDigit d) acc.
Proof.
  intros Hd. cbn [toString16Fuel].
  rewrite (Z.mod_small d 16), (Z.div_small d 16) by lia. reflexivity.
Qed.

Lemma channel_digits (c : Z) :
  0 <= c <= 255 -> 0 <= c / 16 < 16 /\ 0 <= c mod 16 < 16 /\ c = 16 * (c / 16) + c mod 16.
Proof.
  intros H. pose proof (Z.div_mod c 16 ltac:(lia)).
  pose proof (Z.mod_pos_bound c 16 ltac:(lia)).
  assert (0 <= c / 16) by (apply Z.div_pos; lia).
  assert (c / 16 < 16) by (apply Z.div_lt_upper_bound; lia).
  lia.
Qed.

Lemma toString16_channels (r g b : Z) :
  0 <= r <= 255 -> 0 <= g <= 255 -> 0 <= b <= 255 ->
  toString16 (16777216 + r * 65536 + g * 256 + b)
  = String "1" (hex2 r ++ hex2 g ++ hex2 b)%string.
Proof.
  intros Hr Hg Hb.
  destruct (channel_digits r Hr) as (Hr1 & Hr2 & Er).
  destruct (channel_digits g Hg) as (Hg1 & Hg2 & Eg).
  destruct (channel_digits b Hb) as (Hb1 & Hb2 & Eb).
  unfold toString16, hex2.
  set (r1 := r / 16) in *. set (r2 := r mod 16) in *.
  set (g1 := g / 16) in *. set (g2 := g mod 16) in *.
  set (b1 := b / 16) in *. set (b2 := b mod 16) in *.
  assert (Hlog : Z.log2 (16777216 + r * 65536 + g * 256 + b) = 24).
  { apply Z.log2_unique; [lia|]. change (2 ^ 24) with 16777216.
    change (2 ^ (24 + 1)) with 33554432. lia. }
  rewrite Hlog. change (S (Z.to_nat 24)) with (S (S (S (S (S (S (S 18))))))).
  replace (16777216 + r * 65536 + g * 256 + b)
    with (16 * (16 * (16 * (16 * (16 * (16 * 1 + r1) + r2) + g1) + g2) + b1) + b2)
    by lia.
  rewrite !toString16Fuel_step by lia.
  rewrite toString16Fuel_last by lia.
  reflexivity.
Qed.

Lemma hexDigit_plain (d : Z) :
  0 <= d < 16 ->
  Js.isSpace (hexDigit d) = false /\
  Ascii.eqb (hexDigit d) "-" = false /\
  Ascii.eqb (hexDigit d) "+" = false /\
  Ascii.eqb (hexDigit d) "x" = false /\
  Ascii.eqb (hexDigit d) "X" = false /\
  Ascii.eqb (hexDigit d) "#" = false.
Proof. intros H. hex_cases d H; repeat split; reflexivity. Qed.

Lemma trimStart_nonspace (c : ascii) (t : string) :
  Js.isSpace c = false -> Js.trimStart (String c t) = String c t.
Proof. intros H. change (Js.trimStart (String c t))
  with (if Js.isSpace c then Js.trimStart t else String c t).
  rewrite H. reflexivity.
Qed.

Lemma parseInt16_channels (r g b : Z) :
  0 <= r <= 255 -> 0 <= g <= 255 -> 0 <= b <= 255 ->
  parseInt16 (hex2 r ++ hex2 g ++ hex2 b) = Some (r * 65536 + g * 256 + b).
Proof.
  intros Hr Hg Hb.
  destruct (channel_digits r Hr) as (Hr1 & Hr2 & Er).
  destruct (channel_digits g Hg) as (Hg1 & Hg2 & Eg).
  destruct (channel_digits b Hb) as (Hb1 & Hb2 & Eb).
  unfold hex2.
  set (r1 := r / 16) in *. set (r2 := r mod 16) in *.
  set (g1 := g / 16) in *. set (g2 := g mod 16) in *.
  set (b1 := b / 16) in *. set (b2 := b mod 16) in *.
  destruct (hexDigit_plain r1 Hr1) as (Hsp & Hminus & Hplus & _).
  destruct (hexDigit_plain r2 Hr2) as (_ & _ & _ & Hx & HX & _).
  unfold parseInt16.
  change (String (hexDigit r1) (String (hexDigit r2) EmptyString) +:+
          String (hexDigit g1) (String (hexDigit g2) EmptyString) +:+
          String (hexDigit b1) (String (hexDigit b2) EmptyString))
    with (String (hexDigit r1) (String (hexDigit r2) (String (hexDigit g1)
           (String (hexDigit g2) (String (hexDigit b1)
             (String (hexDigit b2) EmptyString)))))).
  rewrite (trimStart_nonspace _ _ Hsp), Hminus, Hplus. cbn [snd fst].
  rewrite Hx, HX, andb_false_r.
  cbn [parseHexDigits].
  rewrite !hexValue_hexDigit by assumption. cbn [parseHexDigits default].
  unfold id. f_equal. lia.
Qed.


Lemma toInt32_small (n : Z) : 0 <= n < 2147483648 -> toInt32 n = n.
Proof. intros H. unfold toInt32. rewrite Z.mod_small by lia. lia. Qed.

Lemma channels_of_number (r g b : Z) :
  0 <= r <= 255 -> 0 <= g <= 255 -> 0 <= b <= 255 ->
  let num := r * 65536 + g * 256 + b in
  shiftRight num 16 = r /\
  bitAnd (shiftRight num 8) 255 = g /\
  bitAnd num 255 = b.
Proof.
  intros Hr Hg Hb num.
  assert (Hnum : 0 <= num < 16777216) by (unfold num; lia).
  assert (H8 : shiftRight num 8 = r * 256 + g).
  { unfold shiftRight. rewrite toInt32_small by lia.
    rewrite Z.shiftr_div_pow2 by lia. change (2 ^ 8) with 256.
    symmetry. apply (Z.div_unique _ _ _ b); unfold num; lia. }
  split; [|split].
  - unfold shiftRight. rewrite toInt32_small by lia.
    rewrite Z.shiftr_div_pow2 by lia. change (2 ^ 16) with 65536.
    symmetry. apply (Z.div_unique _ _ _ (g * 256 + b)); unfold num; lia.
  - rewrite H8. unfold bitAnd. rewrite !toInt32_small by lia.
    change 255 with (Z.ones 8). rewrite Z.land_ones by lia.
    change (2 ^ 8) with 256.
    symmetry. apply (Z.mod_unique _ _ r); lia.
  - unfold bitAnd. rewrite !toInt32_small by lia.
    change 255 with (Z.ones 8). rewrite Z.land_ones by lia.
    change (2 ^ 8) with 256.
    symmetry. apply (Z.mod_unique _ _ (r * 256 + g)); unfold num; lia.
Qed.

Lemma adjustColor_print (r g b : Z) :
  0 <= r <= 255 -> 0 <= g <= 255 -> 0 <= b <= 255 ->
  String "#" (stringSlice1 (toString16 (16777216 + r * 65536 + g * 256 + b)))
  = colourOf r g b.
Proof.
  intros Hr Hg Hb. rewrite toString16_channels by assumption. reflexivity.
Qed.

Lemma adjustColor_channels (r g b amount : Z) :
  0 <= r <= 255 -> 0 <= g <= 255 -> 0 <= b <= 255 ->
  adjustColor (colourOf r g b) amount
  = colourOf (clamp (r + amount)) (clamp (g + amount)) (clamp (b + amount)).
Proof.
  intros Hr Hg Hb. unfold adjustColor.
  change (removeFirst "#" (colourOf r g b))
    with (hex2 r ++ hex2 g ++ hex2 b)%string.
  rewrite parseInt16_channels by assumption. cbn [default]. cbv zeta. unfold id.
  pose proof (channels_of_number r g b Hr Hg Hb) as Hch. cbv zeta in Hch.
  destruct Hch as (-> & -> & ->).
  apply adjustColor_print; apply clamp_range.
Qed.

Lemma colourOf_length (r g b : Z) : String.length (colourOf r g b) = 7%nat.
Proof. reflexivity. Qed.

(** X26 (PersonDetailPage.jsx, adjustColor of ProjectCard).  Whatever the
    colour string and the amount, the result is a hash sign followed by
    exactly six hexadecimal digits, two for each of three channel values
    between 0 and 255: unparsable input, negative numbers and overflowing
    channels never give a malformed colour. *)
Theorem adjusted_colour_well_formed (color : string) (amount : Z) :
  (exists r g b : Z,
     0 <= r <= 255 /\ 0 <= g <= 255 /\ 0 <= b <= 255 /\
     adjustColor color amount = colourOf r g b) /\
  String.length (adjustColor color amount) = 7%nat.
Proof.
  assert (Hex : exists r g b : Z,
     0 <= r <= 255 /\ 0 <= g <= 255 /\ 0 <= b <= 255 /\
     adjustColor color amount = colourOf r g b).
  { unfold adjustColor.
    set (num := default 0 (parseInt16 (removeFirst "#" color))).
    exists (clamp (shiftRight num 16 + amount)),
           (clamp (bitAnd (shiftRight num 8) 255 + amount)),
           (clamp (bitAnd num 255 + amount)).
    repeat (split; [apply clamp_range|]).
    apply adjustColor_print; apply clamp_range. }
  split; [exact Hex|].
  destruct Hex as (r & g & b & _ & _ & _ & ->). apply colourOf_length.
Qed.

(** X27 (PersonDetailPage.jsx, adjustColor of ProjectCard).  On a colour
    [#rrggbb] the amount is added to each channel separately and the sum is
    cut to the range 0..255; no carry passes from one channel to the next,
    and the amount 0 gives the colour back. *)
Theorem adjust_colour_by_channel (r g b amount : Z) :
  0 <= r <= 255 -> 0 <= g <= 255 -> 0 <= b <= 255 ->
  adjustColor (colourOf r g b) amount
  = colourOf (clamp (r + amount)) (clamp (g + amount)) (clamp (b + amount))
  /\ (amount = 0 -> adjustColor (colourOf r g b) amount = colourOf r g b).
Proof.
  intros Hr Hg Hb. split.
  - apply adjustColor_channels; assumption.
  - intros ->. rewrite adjustColor_channels by assumption.
    rewrite !Z.add_0_r, !clamp_id by assumption. reflexivity.
Qed.

Lemma adjust_colour_by_channel_witness :
  adjustColor "#6366f1" (-30) = "#4548d3"
  /\ (-30 = 0 -> adjustColor "#6366f1" (-30) = "#6366f1").
Proof.
  apply (adjust_colour_by_channel 99 102 241 (-30)); lia.
Defined.

(** X28 (PersonDetailPage.jsx, adjustColor of ProjectCard).  Two
    adjustments in the same direction compose: darkening (or lightening)
    twice is the adjustment by the sum of the amounts.  In opposite
    directions this fails, a channel that was cut to a bound does not come
    back. *)
Theorem adjust_colour_compose (r g b first second : Z) :
  0 <= r <= 255 -> 0 <= g <= 255 -> 0 <= b <= 255 ->
  (0 <= first /\ 0 <= second) \/ (first <= 0 /\ second <= 0) ->
  adjustColor (adjustColor (colourOf r g b) first) second
  = adjustColor (colourOf r g b) (first + second).
Proof.
  intros Hr Hg Hb Hdir.
  rewrite (adjustColor_channels r g b first) by assumption.
  rewrite adjustColor_channels by apply clamp_range.
  rewrite (adjustColor_channels r g b (first + second)) by assumption.
  f_equal; unfold clamp; lia.
Qed.

Lemma adjust_colour_compose_witness :
  adjustColor (adjustColor "#6366f1" (-30)) (-30) = adjustColor "#6366f1" (-60).
Proof.
  apply (adjust_colour_compose 99 102 241 (-30) (-30)); lia.
Defined.

(** Opposite directions do not cancel. *)
Example adjust_colour_not_inverse :
  adjustColor (adjustColor "#6366f1" 30) (-30) = "#6366e1".
Proof. vm_compute. reflexivity. Qed.

(** Input that is no number is treated as black. *)
Example adjust_colour_unparsable :
  adjustColor "teal" 40 = "#282828".
Proof. vm_compute. reflexivity. Qed.
